(** * Sherlock Homes: the risk-scoring core

    A shallow embedding of [risk_scorer.py] (class [RiskScorer]) and of the
    derived-score part of [feature_extractor.py] (class [FeatureExtractor]
    and its feature dataclasses), with the properties of the scoring
    pipeline stated over it.

    Numbers.  Python's [int] is [Z].  Python's [float] is read as an exact
    rational ([Q]): every constant of the source is a finite decimal and
    every operation used by the scorer is [+], [-], [*], [/], a comparison,
    [min], [max], [abs] or [round], all of which are exact on [Q].  Numeric
    equality of Python values ([==]) is [Qeq].  Rounding error of the
    binary64 arithmetic is therefore outside this model, and so are
    infinities, NaN and an [int] too large to convert to a float (on which
    the arithmetic of the scorer raises [OverflowError]).

    Dictionaries.  The application dict and the extracted-data dicts are
    only read with [dict.get], so they are [gmap string pyval]; the modifier
    breakdown is iterated in insertion order, so it is an association
    list. *)

From Stdlib Require Import QArith Qround Lqa ZArith Lia Ascii String List Bool.
From Stdlib Require Import Floats.
From stdpp Require Import gmap strings pretty.

Local Open Scope Q_scope.

(** ** Python's numeric primitives on exact rationals *)

Module Py.

(** [a < b], [a <= b], [a > b], [a >= b] as Python evaluates them. *)
Definition lt (a b : Q) : bool := negb (Qle_bool b a).
Definition le (a b : Q) : bool := Qle_bool a b.
Definition gt (a b : Q) : bool := negb (Qle_bool a b).
Definition ge (a b : Q) : bool := Qle_bool b a.

(** [min(a, b)] keeps [a] unless [b < a]; [max(a, b)] keeps [a] unless
    [b > a]. *)
Definition min (a b : Q) : Q := if lt b a then b else a.
Definition max (a b : Q) : Q := if gt b a then b else a.

(** [abs(a)]. *)
Definition abs (a : Q) : Q := if lt a 0 then - a else a.

(** [round(x)] with one argument: the nearest integer, ties to the even
    one. *)
Definition round (x : Q) : Z :=
  let f := Qfloor x in
  let r := x - inject_Z f in
  if lt r 0.5 then f
  else if gt r 0.5 then (f + 1)%Z
  else if Z.even f then f else (f + 1)%Z.

(** [int(x)] on a float: truncation toward zero. *)
Definition trunc (x : Q) : Z :=
  if lt x 0 then Qceiling x else Qfloor x.

End Py.

(** ** risk_scorer.py: the five base risk components *)

(** [RiskScorer._calculate_credit_risk] *)
Definition _calculate_credit_risk (credit_score : Q) : Q :=
  if Py.ge credit_score 800 then 5 + (850 - credit_score) * 0.1
  else if Py.ge credit_score 740 then 10 + (799 - credit_score) * 0.17
  else if Py.ge credit_score 670 then 20 + (739 - credit_score) * 0.22
  else if Py.ge credit_score 580 then 35 + (669 - credit_score) * 0.22
  else 55 + (579 - credit_score) * 0.09.

(** [RiskScorer._calculate_dti_risk] *)
Definition _calculate_dti_risk (dti : Q) : Q :=
  if Py.le dti 20 then 5 + dti * 0.5
  else if Py.le dti 36 then 15 + (dti - 20) * 0.94
  else if Py.le dti 43 then 30 + (dti - 36) * 2.86
  else if Py.le dti 50 then 50 + (dti - 43) * 2.86
  else Py.min (70 + (dti - 50) * 2) 90.

(** [RiskScorer._calculate_ltv_risk] *)
Definition _calculate_ltv_risk (ltv : Q) : Q :=
  if Py.le ltv 60 then 5 + ltv * 0.17
  else if Py.le ltv 80 then 15 + (ltv - 60) * 0.5
  else if Py.le ltv 90 then 25 + (ltv - 80) * 2
  else if Py.le ltv 95 then 45 + (ltv - 90) * 4
  else Py.min (65 + (ltv - 95) * 4) 85.

(** [RiskScorer._calculate_employment_risk] *)
Definition _calculate_employment_risk (years : Q) : Q :=
  if Py.ge years 5 then 10 + Py.max 0 (10 - years) * 1
  else if Py.ge years 2 then 20 + (5 - years) * 6.67
  else if Py.ge years 1 then 40 + (2 - years) * 15
  else 55 + (1 - years) * 15.

(** [RiskScorer._calculate_reserves_risk] *)
Definition _calculate_reserves_risk (months : Q) : Q :=
  if Py.ge months 12 then 5 + Py.max 0 (24 - months) * 0.83
  else if Py.ge months 6 then 15 + (12 - months) * 2.5
  else if Py.ge months 3 then 30 + (6 - months) * 5
  else if Py.ge months 1 then 45 + (3 - months) * 7.5
  else 60 + (1 - months) * 15.

(** ** Python values held by the [Dict[str, Any]] inputs *)

#[local] Set Warnings "-register-all".
Inductive pyval : Type :=
| PNone
| PBool (b : bool)
| PInt (z : Z)
| PFloat (q : Q)
| PStr (s : string)
| PList (items : list pyval).
#[local] Set Warnings "register-all".

(** An [int] used in float arithmetic. *)
#[local] Coercion inject_Z : Z >-> Q.

(** The value of a number in arithmetic and in ordering comparisons against
    a number; [bool] is a subclass of [int].  [None] stands for the
    [TypeError] Python raises on any other operand. *)
Definition as_num (v : pyval) : option Q :=
  match v with
  | PBool b => Some (if b then 1 else 0)
  | PInt z => Some (inject_Z z)
  | PFloat q => Some q
  | PNone | PStr _ | PList _ => None
  end.

(** Truthiness, [bool(v)]: never raises. *)
Definition py_bool (v : pyval) : bool :=
  match v with
  | PNone => false
  | PBool b => b
  | PInt z => negb (z =? 0)%Z
  | PFloat q => negb (Qeq_bool q 0)
  | PStr s => negb (String.eqb s "")
  | PList items => match items with [] => false | _ => true end
  end.

(** [len(v)]: defined on strings and lists only. *)
Definition py_len (v : pyval) : option Z :=
  match v with
  | PStr s => Some (Z.of_nat (String.length s))
  | PList items => Some (Z.of_nat (List.length items))
  | PNone | PBool _ | PInt _ | PFloat _ => None
  end.

(** [d.get(k, dflt)] on a dict literal with string keys, for a key [k] that
    is itself a run-time value: a list is unhashable ([TypeError]), any
    other non-string is simply absent. *)
Definition dict_get_val {A} (d : gmap string A) (k : pyval) (dflt : A) : option A :=
  match k with
  | PStr s => Some (default dflt (d !! s))
  | PList _ => None
  | PNone | PBool _ | PInt _ | PFloat _ => Some dflt
  end.

(** [s.replace(a, b)] for single characters. *)
Fixpoint str_replace (a b : Ascii.ascii) (s : string) : string :=
  match s with
  | EmptyString => EmptyString
  | String c rest =>
      String (if Ascii.eqb c a then b else c) (str_replace a b rest)
  end.

(** An insertion-ordered [Dict[str, float]]: [d[k] = v] overwrites in place
    or appends. *)
Fixpoint dict_set (d : list (string * Q)) (k : string) (v : Q) : list (string * Q) :=
  match d with
  | [] => [(k, v)]
  | (k', v') :: rest =>
      if String.eqb k' k then (k, v) :: rest else (k', v') :: dict_set rest k v
  end.

Fixpoint dict_lookup (d : list (string * Q)) (k : string) : option Q :=
  match d with
  | [] => None
  | (k', v') :: rest => if String.eqb k' k then Some v' else dict_lookup rest k
  end.

(** [sum(d.values())]: starts from [0] and adds in iteration order. *)
Definition dict_values_sum (d : list (string * Q)) : Q :=
  fold_left (fun acc kv => acc + snd kv) d 0.

(** What the scorer takes from its surroundings: the text Python prints
    for a value inside an f-string, the parsers behind [float(s)] and
    [int(s)] on strings, [str.lower], and the configured LLM client, if
    any, as the function from a scoring call to the narrative that
    [client.complete] (or the [except] branch around it) yields. *)
Record Runtime : Type := {
  str_of : pyval -> string;
  float_of_str : string -> option Q;
  int_of_str : string -> option Z;
  str_lower : string -> string;
  client :
    option (gmap string pyval -> Z -> string -> list string -> list string -> string)
}.

(** ** feature_extractor.py: the feature dataclasses *)

(** [TraditionalFeatures].  Four fields are stored by
    [extract_traditional_features] exactly as [dict.get] returned them, so
    they hold arbitrary values. *)
Module TraditionalFeatures.
Record t : Type := mk {
  credit_score : Q;
  credit_history_years : Q;
  annual_income : Q;
  employment_length_months : Z;
  is_self_employed : bool;
  income_verified : bool;
  debt_to_income_ratio : pyval;
  monthly_debt_payments : Q;
  loan_amount : Q;
  property_value : Q;
  loan_to_value_ratio : pyval;
  loan_purpose : pyval;
  property_type : pyval;
  is_primary_residence : bool;
  total_assets : Q;
  liquid_assets : Q;
  reserves_months : Z
}.
End TraditionalFeatures.

(** [ProfessionalFeatures]; the last two fields are the derived scores. *)
Record ProfessionalFeatures : Type := mkProfessionalFeatures {
  current_job_months : Z;
  total_experience_years : Q;
  jobs_last_5_years : Z;
  career_trajectory : Z;
  education_level : Z;
  has_advanced_degree : bool;
  industry_stability : Q;
  industry : string;
  profile_completeness : Q;
  has_recommendations : bool;
  connection_count_tier : Z;
  employment_gaps : Z;
  frequent_job_changes : bool;
  profile_inconsistencies : Z;
  job_stability_score : Q;
  professional_credibility_score : Q
}.

(** [LifestyleFeatures]; the last two fields are the derived scores. *)
Record LifestyleFeatures : Type := mkLifestyleFeatures {
  lifestyle_level : Z;
  apparent_spending_vs_income : Q;
  luxury_items_visible : bool;
  frequent_expensive_travel : bool;
  vehicle_tier : Z;
  housing_quality_apparent : Z;
  appears_homeowner : bool;
  location_cost_of_living : Q;
  travel_frequency : Z;
  expensive_hobbies : bool;
  gambling_indicators : bool;
  substance_use_indicators : bool;
  financial_responsibility_signals : Z;
  financial_irresponsibility_signals : Z;
  lifestyle_stability_score : Q;
  income_lifestyle_alignment : Q
}.

(** [SocialConnectednessFeatures]; the last three fields are the derived
    scores. *)
Record SocialConnectednessFeatures : Type := mkSocialConnectednessFeatures {
  total_followers_tier : Z;
  engagement_rate : Q;
  authentic_connections : Q;
  relationship_status : Z;
  family_presence_in_content : Q;
  appears_stable_relationship : bool;
  has_children : bool;
  community_involvement : Q;
  group_memberships : Z;
  volunteer_charity_involvement : bool;
  religious_community_ties : bool;
  long_term_friendships_visible : bool;
  local_community_ties : Q;
  geographic_stability : Q;
  social_isolation_indicators : bool;
  conflict_drama_indicators : Z;
  relationship_instability_signals : Z;
  social_support_score : Q;
  community_rootedness_score : Q;
  relationship_stability_score : Q
}.

(** [CombinedFeatures] *)
Record CombinedFeatures : Type := mkCombinedFeatures {
  traditional : TraditionalFeatures.t;
  professional : ProfessionalFeatures;
  lifestyle : LifestyleFeatures;
  social : SocialConnectednessFeatures
}.

(** The dataclass defaults: [ProfessionalFeatures()], [LifestyleFeatures()],
    [SocialConnectednessFeatures()]. *)
Definition ProfessionalFeatures_default : ProfessionalFeatures := {|
  current_job_months := 0;
  total_experience_years := 0.0;
  jobs_last_5_years := 0;
  career_trajectory := 3;
  education_level := 0;
  has_advanced_degree := false;
  industry_stability := 0.5;
  industry := "";
  profile_completeness := 0.5;
  has_recommendations := false;
  connection_count_tier := 2;
  employment_gaps := 0;
  frequent_job_changes := false;
  profile_inconsistencies := 0;
  job_stability_score := 0.5;
  professional_credibility_score := 0.5
|}.

Definition LifestyleFeatures_default : LifestyleFeatures := {|
  lifestyle_level := 3;
  apparent_spending_vs_income := 0.5;
  luxury_items_visible := false;
  frequent_expensive_travel := false;
  vehicle_tier := 2;
  housing_quality_apparent := 2;
  appears_homeowner := false;
  location_cost_of_living := 0.5;
  travel_frequency := 2;
  expensive_hobbies := false;
  gambling_indicators := false;
  substance_use_indicators := false;
  financial_responsibility_signals := 0;
  financial_irresponsibility_signals := 0;
  lifestyle_stability_score := 0.5;
  income_lifestyle_alignment := 0.5
|}.

Definition SocialConnectednessFeatures_default : SocialConnectednessFeatures := {|
  total_followers_tier := 2;
  engagement_rate := 0.5;
  authentic_connections := 0.5;
  relationship_status := 0;
  family_presence_in_content := 0.5;
  appears_stable_relationship := false;
  has_children := false;
  community_involvement := 0.5;
  group_memberships := 0;
  volunteer_charity_involvement := false;
  religious_community_ties := false;
  long_term_friendships_visible := false;
  local_community_ties := 0.5;
  geographic_stability := 0.5;
  social_isolation_indicators := false;
  conflict_drama_indicators := 0;
  relationship_instability_signals := 0;
  social_support_score := 0.5;
  community_rootedness_score := 0.5;
  relationship_stability_score := 0.5
|}.

(** ** feature_extractor.py: the derived-score formulas *)

(** [FeatureExtractor._calculate_job_stability_score] *)
Definition _calculate_job_stability_score (features : ProfessionalFeatures) : Q :=
  let score := 0.5 in
  let tenure_bonus := Py.min (inject_Z (current_job_months features) / 60) 1.0 * 0.3 in
  let score := score + tenure_bonus in
  let score :=
    if (3 <? jobs_last_5_years features)%Z then
      let hopping_penalty :=
        Py.min (inject_Z (jobs_last_5_years features - 3) * 0.1) 0.3 in
      score - hopping_penalty
    else score in
  let gap_penalty := Py.min (inject_Z (employment_gaps features) * 0.1) 0.2 in
  let score := score - gap_penalty in
  let trajectory_adjustment := inject_Z (career_trajectory features - 3) * 0.05 in
  let score := score + trajectory_adjustment in
  Py.max 0.0 (Py.min 1.0 score).

(** [FeatureExtractor._calculate_professional_credibility_score] *)
Definition _calculate_professional_credibility_score (features : ProfessionalFeatures) : Q :=
  let score := 0.0 in
  let score := score + (inject_Z (education_level features) / 5) * 0.25 in
  let score := score + Py.min (total_experience_years features / 20) 1.0 * 0.25 in
  let score := score + profile_completeness features * 0.2 in
  let score := score + (inject_Z (connection_count_tier features) / 3) * 0.15 in
  let score := if has_recommendations features then score + 0.1 else score in
  let score := score + industry_stability features * 0.05 in
  Py.max 0.0 (Py.min 1.0 score).

(** [FeatureExtractor._calculate_lifestyle_stability_score] *)
Definition _calculate_lifestyle_stability_score (features : LifestyleFeatures) : Q :=
  let score := 0.5 in
  let score := if gambling_indicators features then score - 0.2 else score in
  let score := if substance_use_indicators features then score - 0.15 else score in
  let score :=
    if Py.gt (apparent_spending_vs_income features) 0.6
    then score - (apparent_spending_vs_income features - 0.6) * 0.5
    else score in
  let score :=
    score + Py.min (inject_Z (financial_responsibility_signals features) * 0.05) 0.2 in
  let score :=
    score - Py.min (inject_Z (financial_irresponsibility_signals features) * 0.05) 0.2 in
  let score := if appears_homeowner features then score + 0.1 else score in
  Py.max 0.0 (Py.min 1.0 score).

(** [FeatureExtractor._calculate_income_lifestyle_alignment] *)
Definition _calculate_income_lifestyle_alignment (features : LifestyleFeatures) : Q :=
  let alignment := 1.0 - Py.abs (apparent_spending_vs_income features - 0.5) * 2 in
  let alignment :=
    if luxury_items_visible features && Py.gt (apparent_spending_vs_income features) 0.6
    then alignment - 0.2 else alignment in
  let alignment :=
    if frequent_expensive_travel features && Py.gt (apparent_spending_vs_income features) 0.6
    then alignment - 0.15 else alignment in
  Py.max 0.0 (Py.min 1.0 alignment).

(** [FeatureExtractor._calculate_social_support_score] *)
Definition _calculate_social_support_score (features : SocialConnectednessFeatures) : Q :=
  let score := 0.0 in
  let score := score + family_presence_in_content features * 0.2 in
  let score := score + community_involvement features * 0.2 in
  let score := if appears_stable_relationship features then score + 0.15 else score in
  let score := if long_term_friendships_visible features then score + 0.15 else score in
  let score := if volunteer_charity_involvement features then score + 0.1 else score in
  let score := score + authentic_connections features * 0.1 in
  let score := if social_isolation_indicators features then score - 0.2 else score in
  let score :=
    score - Py.min (inject_Z (conflict_drama_indicators features) * 0.05) 0.15 in
  Py.max 0.0 (Py.min 1.0 score).

(** [FeatureExtractor._calculate_community_rootedness_score] *)
Definition _calculate_community_rootedness_score (features : SocialConnectednessFeatures) : Q :=
  let score := 0.0 in
  let score := score + local_community_ties features * 0.3 in
  let score := score + geographic_stability features * 0.25 in
  let score := score + community_involvement features * 0.2 in
  let score := score + Py.min (inject_Z (group_memberships features) / 10) 1.0 * 0.15 in
  let score := if religious_community_ties features then score + 0.1 else score in
  Py.max 0.0 (Py.min 1.0 score).

(** [FeatureExtractor._calculate_relationship_stability_score] *)
Definition _calculate_relationship_stability_score (features : SocialConnectednessFeatures) : Q :=
  let score := 0.5 in
  let score := if appears_stable_relationship features then score + 0.2 else score in
  let score := if (3 <=? relationship_status features)%Z then score + 0.1 else score in
  let score := if has_children features then score + 0.05 else score in
  let score :=
    score - Py.min (inject_Z (relationship_instability_signals features) * 0.1) 0.3 in
  let score := if social_isolation_indicators features then score - 0.1 else score in
  Py.max 0.0 (Py.min 1.0 score).

(** Attribute assignment to the derived-score fields,
    [features.job_stability_score = v] and its six siblings. *)
Definition set_job_stability_score (f : ProfessionalFeatures) (v : Q) : ProfessionalFeatures :=
  mkProfessionalFeatures
    (current_job_months f) (total_experience_years f) (jobs_last_5_years f)
    (career_trajectory f) (education_level f) (has_advanced_degree f)
    (industry_stability f) (industry f) (profile_completeness f)
    (has_recommendations f) (connection_count_tier f) (employment_gaps f)
    (frequent_job_changes f) (profile_inconsistencies f)
    v (professional_credibility_score f).

Definition set_professional_credibility_score (f : ProfessionalFeatures) (v : Q) : ProfessionalFeatures :=
  mkProfessionalFeatures
    (current_job_months f) (total_experience_years f) (jobs_last_5_years f)
    (career_trajectory f) (education_level f) (has_advanced_degree f)
    (industry_stability f) (industry f) (profile_completeness f)
    (has_recommendations f) (connection_count_tier f) (employment_gaps f)
    (frequent_job_changes f) (profile_inconsistencies f)
    (job_stability_score f) v.

Definition set_lifestyle_stability_score (f : LifestyleFeatures) (v : Q) : LifestyleFeatures :=
  mkLifestyleFeatures
    (lifestyle_level f) (apparent_spending_vs_income f) (luxury_items_visible f)
    (frequent_expensive_travel f) (vehicle_tier f) (housing_quality_apparent f)
    (appears_homeowner f) (location_cost_of_living f) (travel_frequency f)
    (expensive_hobbies f) (gambling_indicators f) (substance_use_indicators f)
    (financial_responsibility_signals f) (financial_irresponsibility_signals f)
    v (income_lifestyle_alignment f).

Definition set_income_lifestyle_alignment (f : LifestyleFeatures) (v : Q) : LifestyleFeatures :=
  mkLifestyleFeatures
    (lifestyle_level f) (apparent_spending_vs_income f) (luxury_items_visible f)
    (frequent_expensive_travel f) (vehicle_tier f) (housing_quality_apparent f)
    (appears_homeowner f) (location_cost_of_living f) (travel_frequency f)
    (expensive_hobbies f) (gambling_indicators f) (substance_use_indicators f)
    (financial_responsibility_signals f) (financial_irresponsibility_signals f)
    (lifestyle_stability_score f) v.

Definition set_social_support_score (f : SocialConnectednessFeatures) (v : Q) : SocialConnectednessFeatures :=
  mkSocialConnectednessFeatures
    (total_followers_tier f) (engagement_rate f) (authentic_connections f)
    (relationship_status f) (family_presence_in_content f)
    (appears_stable_relationship f) (has_children f) (community_involvement f)
    (group_memberships f) (volunteer_charity_involvement f)
    (religious_community_ties f) (long_term_friendships_visible f)
    (local_community_ties f) (geographic_stability f)
    (social_isolation_indicators f) (conflict_drama_indicators f)
    (relationship_instability_signals f)
    v (community_rootedness_score f) (relationship_stability_score f).

Definition set_community_rootedness_score (f : SocialConnectednessFeatures) (v : Q) : SocialConnectednessFeatures :=
  mkSocialConnectednessFeatures
    (total_followers_tier f) (engagement_rate f) (authentic_connections f)
    (relationship_status f) (family_presence_in_content f)
    (appears_stable_relationship f) (has_children f) (community_involvement f)
    (group_memberships f) (volunteer_charity_involvement f)
    (religious_community_ties f) (long_term_friendships_visible f)
    (local_community_ties f) (geographic_stability f)
    (social_isolation_indicators f) (conflict_drama_indicators f)
    (relationship_instability_signals f)
    (social_support_score f) v (relationship_stability_score f).

Definition set_relationship_stability_score (f : SocialConnectednessFeatures) (v : Q) : SocialConnectednessFeatures :=
  mkSocialConnectednessFeatures
    (total_followers_tier f) (engagement_rate f) (authentic_connections f)
    (relationship_status f) (family_presence_in_content f)
    (appears_stable_relationship f) (has_children f) (community_involvement f)
    (group_memberships f) (volunteer_charity_involvement f)
    (religious_community_ties f) (long_term_friendships_visible f)
    (local_community_ties f) (geographic_stability f)
    (social_isolation_indicators f) (conflict_drama_indicators f)
    (relationship_instability_signals f)
    (social_support_score f) (community_rootedness_score f) v.

(** ** feature_extractor.py: building the feature structs *)

Section FeatureExtractor.

Variable rt : Runtime.

(** [float(v)] and [int(v)]; [None] is the [TypeError] or [ValueError]. *)
Definition py_float (v : pyval) : option Q :=
  match v with
  | PBool b => Some (if b then 1 else 0)
  | PInt z => Some (inject_Z z)
  | PFloat q => Some q
  | PStr s => float_of_str rt s
  | PNone | PList _ => None
  end.

Definition py_int (v : pyval) : option Z :=
  match v with
  | PBool b => Some (if b then 1 else 0)%Z
  | PInt z => Some z
  | PFloat q => Some (Py.trunc q)
  | PStr s => int_of_str rt s
  | PNone | PList _ => None
  end.

(** [v.lower()]: only a string has the method. *)
Definition py_lower (v : pyval) : option string :=
  match v with
  | PStr s => Some (str_lower rt s)
  | _ => None
  end.

(** [FeatureExtractor.INDUSTRY_STABILITY] *)
Definition INDUSTRY_STABILITY : gmap string Q :=
  list_to_map [
    ("healthcare", 0.9); ("government", 0.95); ("education", 0.85);
    ("finance", 0.8); ("technology", 0.7); ("consulting", 0.6);
    ("retail", 0.5); ("hospitality", 0.4); ("entertainment", 0.45);
    ("construction", 0.55); ("manufacturing", 0.65); ("real estate", 0.6);
    ("energy", 0.7); ("agriculture", 0.6); ("transportation", 0.65);
    ("legal", 0.85); ("nonprofit", 0.7); ("default", 0.5)
  ]%string.

(** [data.get(k, dflt)] on an input dict. *)
Definition get (data : gmap string pyval) (k : string) (dflt : pyval) : pyval :=
  default dflt (data !! k).

(** [FeatureExtractor.extract_traditional_features] *)
Definition extract_traditional_features (data : gmap string pyval) : option TraditionalFeatures.t :=
  credit_score ← py_float (get data "credit_score" (PInt 0));
  credit_history_years ← py_float (get data "credit_history_years" (PInt 0));
  annual_income ← py_float (get data "annual_income" (PInt 0));
  employment_length_months ← py_int (get data "employment_length_months" (PInt 0));
  let is_self_employed := py_bool (get data "is_self_employed" (PBool false)) in
  let income_verified := py_bool (get data "income_verified" (PBool false)) in
  monthly_debt_payments ← py_float (get data "monthly_debt_payments" (PInt 0));
  debt_to_income_ratio ←
    (if Py.gt annual_income 0 then
       let monthly_income := annual_income / 12 in
       Some (get data "debt_to_income_ratio"
               (if Py.gt monthly_income 0
                then PFloat (monthly_debt_payments / monthly_income)
                else PInt 0))
     else PFloat <$> py_float (get data "debt_to_income_ratio" (PInt 0)));
  loan_amount ← py_float (get data "loan_amount" (PInt 0));
  property_value ← py_float (get data "property_value" (PInt 0));
  loan_to_value_ratio ←
    (if Py.gt property_value 0 then
       Some (get data "loan_to_value_ratio" (PFloat (loan_amount / property_value)))
     else PFloat <$> py_float (get data "loan_to_value_ratio" (PInt 0)));
  let loan_purpose := get data "loan_purpose" (PStr "purchase") in
  let property_type := get data "property_type" (PStr "single_family") in
  let is_primary_residence := py_bool (get data "is_primary_residence" (PBool true)) in
  total_assets ← py_float (get data "total_assets" (PInt 0));
  liquid_assets ← py_float (get data "liquid_assets" (PInt 0));
  reserves_months ← py_int (get data "reserves_months" (PInt 0));
  Some (TraditionalFeatures.mk
          credit_score credit_history_years annual_income
          employment_length_months is_self_employed income_verified
          debt_to_income_ratio monthly_debt_payments loan_amount
          property_value loan_to_value_ratio loan_purpose property_type
          is_primary_residence total_assets liquid_assets reserves_months).

(** [FeatureExtractor._build_professional_features]: the raw fields are
    written into a fresh [ProfessionalFeatures()], then the two derived
    scores are computed from the struct and stored in it. *)
Definition _build_professional_features (extracted : gmap string pyval) : option ProfessionalFeatures :=
  current_job_months ← py_int (get extracted "current_job_months" (PInt 0));
  total_experience_years ← py_float (get extracted "total_experience_years" (PInt 0));
  jobs_last_5_years ← py_int (get extracted "jobs_last_5_years" (PInt 1));
  let trajectory_map : gmap string Z :=
    list_to_map [("declining", 1); ("unstable", 2); ("stable", 3);
                 ("growing", 4); ("rapidly_growing", 5)]%string%Z in
  career_trajectory ←
    dict_get_val trajectory_map (get extracted "career_trajectory" (PStr "stable")) 3%Z;
  let education_map : gmap string Z :=
    list_to_map [("unknown", 0); ("high_school", 1); ("associate", 2);
                 ("bachelor", 3); ("master", 4); ("phd", 5)]%string%Z in
  education_level ←
    dict_get_val education_map (get extracted "education_level" (PStr "unknown")) 0%Z;
  let has_advanced_degree := (4 <=? education_level)%Z in
  industry ← py_lower (get extracted "industry" (PStr ""));
  let industry_stability :=
    default (default 0.5 (INDUSTRY_STABILITY !! "default"%string))
            (INDUSTRY_STABILITY !! industry) in
  profile_completeness ← py_float (get extracted "profile_completeness" (PFloat 0.5));
  let has_recommendations := py_bool (get extracted "has_recommendations" (PBool false)) in
  let connection_map : gmap string Z :=
    list_to_map [("low", 1); ("medium", 2); ("high", 3)]%string%Z in
  connection_count_tier ←
    dict_get_val connection_map (get extracted "connection_count" (PStr "medium")) 2%Z;
  employment_gaps ← py_int (get extracted "employment_gaps" (PInt 0));
  let frequent_job_changes := (3 <? jobs_last_5_years)%Z in
  profile_inconsistencies ← py_len (get extracted "red_flags" (PList []));
  let features :=
    mkProfessionalFeatures
      current_job_months total_experience_years jobs_last_5_years
      career_trajectory education_level has_advanced_degree
      industry_stability industry profile_completeness has_recommendations
      connection_count_tier employment_gaps frequent_job_changes
      profile_inconsistencies
      (job_stability_score ProfessionalFeatures_default)
      (professional_credibility_score ProfessionalFeatures_default) in
  let features :=
    set_job_stability_score features (_calculate_job_stability_score features) in
  let features :=
    set_professional_credibility_score features
      (_calculate_professional_credibility_score features) in
  Some features.

(** [FeatureExtractor._build_lifestyle_features] *)
Definition _build_lifestyle_features (extracted : gmap string pyval) : option LifestyleFeatures :=
  let lifestyle_map : gmap string Z :=
    list_to_map [("frugal", 1); ("modest", 2); ("comfortable", 3);
                 ("affluent", 4); ("lavish", 5)]%string%Z in
  lifestyle_level ←
    dict_get_val lifestyle_map (get extracted "lifestyle_level" (PStr "comfortable")) 3%Z;
  let spending_map : gmap string Q :=
    list_to_map [("underspending", 0.2); ("balanced", 0.5);
                 ("overspending", 0.8)]%string in
  apparent_spending_vs_income ←
    dict_get_val spending_map (get extracted "spending_vs_income" (PStr "balanced")) 0.5;
  let luxury_items_visible := py_bool (get extracted "luxury_items_visible" (PBool false)) in
  let frequent_expensive_travel :=
    py_bool (get extracted "frequent_expensive_travel" (PBool false)) in
  let vehicle_map : gmap string Z :=
    list_to_map [("economy", 1); ("standard", 2); ("luxury", 3)]%string%Z in
  vehicle_tier ←
    dict_get_val vehicle_map (get extracted "vehicle_type" (PStr "standard")) 2%Z;
  let housing_map : gmap string Z :=
    list_to_map [("modest", 1); ("average", 2); ("upscale", 3)]%string%Z in
  housing_quality_apparent ←
    dict_get_val housing_map (get extracted "housing_quality" (PStr "average")) 2%Z;
  let appears_homeowner := py_bool (get extracted "appears_homeowner" (PBool false)) in
  let travel_map : gmap string Z :=
    list_to_map [("rarely", 1); ("occasionally", 2); ("frequently", 3)]%string%Z in
  travel_frequency ←
    dict_get_val travel_map (get extracted "travel_frequency" (PStr "occasionally")) 2%Z;
  let expensive_hobbies := py_bool (get extracted "expensive_hobbies" (PBool false)) in
  let gambling_indicators := py_bool (get extracted "gambling_indicators" (PBool false)) in
  let substance_use_indicators :=
    py_bool (get extracted "substance_use_indicators" (PBool false)) in
  financial_responsibility_signals ←
    py_len (get extracted "financial_responsibility_signals" (PList []));
  financial_irresponsibility_signals ←
    py_len (get extracted "financial_irresponsibility_signals" (PList []));
  let features :=
    mkLifestyleFeatures
      lifestyle_level apparent_spending_vs_income luxury_items_visible
      frequent_expensive_travel vehicle_tier housing_quality_apparent
      appears_homeowner (location_cost_of_living LifestyleFeatures_default)
      travel_frequency expensive_hobbies gambling_indicators
      substance_use_indicators financial_responsibility_signals
      financial_irresponsibility_signals
      (lifestyle_stability_score LifestyleFeatures_default)
      (income_lifestyle_alignment LifestyleFeatures_default) in
  let features :=
    set_lifestyle_stability_score features
      (_calculate_lifestyle_stability_score features) in
  let features :=
    set_income_lifestyle_alignment features
      (_calculate_income_lifestyle_alignment features) in
  Some features.

(** [FeatureExtractor._build_social_features] *)
Definition _build_social_features (extracted : gmap string pyval) : option SocialConnectednessFeatures :=
  let tier_map : gmap string Z :=
    list_to_map [("low", 1); ("medium", 2); ("high", 3)]%string%Z in
  total_followers_tier ←
    dict_get_val tier_map (get extracted "follower_tier" (PStr "medium")) 2%Z;
  let engagement_map : gmap string Q :=
    list_to_map [("low", 0.2); ("medium", 0.5); ("high", 0.8)]%string in
  engagement_rate ←
    dict_get_val engagement_map (get extracted "engagement_quality" (PStr "medium")) 0.5;
  let authentic_connections :=
    if py_bool (get extracted "authentic_connections" (PBool true)) then 0.8 else 0.3 in
  let relationship_map : gmap string Z :=
    list_to_map [("unknown", 0); ("single", 1); ("in_relationship", 2);
                 ("married", 3); ("married_with_children", 4)]%string%Z in
  relationship_status ←
    dict_get_val relationship_map (get extracted "relationship_status" (PStr "unknown")) 0%Z;
  let family_map : gmap string Q :=
    list_to_map [("none", 0.1); ("occasional", 0.5); ("frequent", 0.9)]%string in
  family_presence_in_content ←
    dict_get_val family_map (get extracted "family_presence" (PStr "occasional")) 0.5;
  let appears_stable_relationship :=
    py_bool (get extracted "appears_stable_relationship" (PBool false)) in
  let has_children := py_bool (get extracted "has_children" (PBool false)) in
  let community_map : gmap string Q :=
    list_to_map [("none", 0.0); ("low", 0.3); ("medium", 0.6); ("high", 0.9)]%string in
  community_involvement ←
    dict_get_val community_map (get extracted "community_involvement" (PStr "low")) 0.3;
  group_memberships ← py_int (get extracted "group_memberships" (PInt 0));
  let volunteer_charity_involvement :=
    py_bool (get extracted "volunteer_charity" (PBool false)) in
  let religious_community_ties :=
    py_bool (get extracted "religious_community" (PBool false)) in
  let long_term_friendships_visible :=
    py_bool (get extracted "long_term_friendships" (PBool false)) in
  let ties_map : gmap string Q :=
    list_to_map [("weak", 0.2); ("moderate", 0.5); ("strong", 0.8)]%string in
  local_community_ties ←
    dict_get_val ties_map (get extracted "local_ties" (PStr "moderate")) 0.5;
  let geographic_stability :=
    if py_bool (get extracted "geographic_stability" (PBool true)) then 0.8 else 0.3 in
  let social_isolation_indicators :=
    py_bool (get extracted "social_isolation_indicators" (PBool false)) in
  conflict_drama_indicators ← py_int (get extracted "conflict_indicators" (PInt 0));
  relationship_instability_signals ←
    py_int (get extracted "relationship_instability" (PInt 0));
  let features :=
    mkSocialConnectednessFeatures
      total_followers_tier engagement_rate authentic_connections
      relationship_status family_presence_in_content
      appears_stable_relationship has_children community_involvement
      group_memberships volunteer_charity_involvement
      religious_community_ties long_term_friendships_visible
      local_community_ties geographic_stability social_isolation_indicators
      conflict_drama_indicators relationship_instability_signals
      (social_support_score SocialConnectednessFeatures_default)
      (community_rootedness_score SocialConnectednessFeatures_default)
      (relationship_stability_score SocialConnectednessFeatures_default) in
  let features :=
    set_social_support_score features (_calculate_social_support_score features) in
  let features :=
    set_community_rootedness_score features
      (_calculate_community_rootedness_score features) in
  let features :=
    set_relationship_stability_score features
      (_calculate_relationship_stability_score features) in
  Some features.

End FeatureExtractor.

(** ** risk_scorer.py: weights, modifiers and the report *)

(** [d[k]] on a module-level dict literal, for a key the literal holds. *)
Definition index (d : gmap string Q) (k : string) : Q := default 0 (d !! k).

(** [TRADITIONAL_WEIGHTS] *)
Definition TRADITIONAL_WEIGHTS : gmap string Q :=
  list_to_map [
    ("credit_score", 0.35); ("dti", 0.25); ("ltv", 0.20);
    ("employment", 0.10); ("reserves", 0.10)
  ]%string.

(** [MODIFIER_WEIGHTS] *)
Definition MODIFIER_WEIGHTS : gmap string Q :=
  list_to_map [
    ("professional_credibility", 2.0); ("job_stability", 2.0);
    ("lifestyle_stability", 1.5); ("income_lifestyle_alignment", 1.5);
    ("social_support", 1.0); ("community_rootedness", 1.0);
    ("relationship_stability", 1.0)
  ]%string.

(** [MAX_MODIFIER_ADJUSTMENT] *)
Definition MAX_MODIFIER_ADJUSTMENT : Z := 10.

(** [RiskReport].  The identifiers and the three echoed metrics are stored
    as the application dict held them. *)
Record RiskReport : Type := mkRiskReport {
  application_id : pyval;
  borrower_name : pyval;
  risk_score : Z;
  risk_category : string;
  recommendation : string;
  base_score : Q;
  credit_component : Q;
  dti_component : Q;
  ltv_component : Q;
  employment_component : Q;
  reserves_component : Q;
  total_modifier_adjustment : Q;
  modifier_breakdown : list (string * Q);
  credit_score : pyval;
  dti_ratio : pyval;
  ltv_ratio : pyval;
  risk_factors : list string;
  positive_factors : list string;
  ai_analysis : string
}.

(** [RiskScorer._calculate_modifiers] *)
Definition _calculate_modifiers (features : CombinedFeatures) : list (string * Q) :=
  let modifiers : list (string * Q) := [] in
  let prof_score := professional_credibility_score (professional features) in
  let modifiers :=
    dict_set modifiers "professional_credibility"
      ((0.5 - prof_score) * index MODIFIER_WEIGHTS "professional_credibility" * 2) in
  let job_score := job_stability_score (professional features) in
  let modifiers :=
    dict_set modifiers "job_stability"
      ((0.5 - job_score) * index MODIFIER_WEIGHTS "job_stability" * 2) in
  let lifestyle_score := lifestyle_stability_score (lifestyle features) in
  let modifiers :=
    dict_set modifiers "lifestyle_stability"
      ((0.5 - lifestyle_score) * index MODIFIER_WEIGHTS "lifestyle_stability" * 2) in
  let alignment_score := income_lifestyle_alignment (lifestyle features) in
  let modifiers :=
    dict_set modifiers "income_lifestyle_alignment"
      ((0.5 - alignment_score) * index MODIFIER_WEIGHTS "income_lifestyle_alignment" * 2) in
  let social_score := social_support_score (social features) in
  let modifiers :=
    dict_set modifiers "social_support"
      ((0.5 - social_score) * index MODIFIER_WEIGHTS "social_support" * 2) in
  let community_score := community_rootedness_score (social features) in
  let modifiers :=
    dict_set modifiers "community_rootedness"
      ((0.5 - community_score) * index MODIFIER_WEIGHTS "community_rootedness" * 2) in
  let relationship_score := relationship_stability_score (social features) in
  let modifiers :=
    dict_set modifiers "relationship_stability"
      ((0.5 - relationship_score) * index MODIFIER_WEIGHTS "relationship_stability" * 2) in
  let modifiers :=
    if gambling_indicators (lifestyle features)
    then dict_set modifiers "gambling_flag" 3.0 else modifiers in
  let modifiers :=
    if substance_use_indicators (lifestyle features)
    then dict_set modifiers "substance_flag" 2.0 else modifiers in
  let modifiers :=
    if frequent_job_changes (professional features)
    then dict_set modifiers "job_hopping_flag" 1.5 else modifiers in
  let modifiers :=
    if social_isolation_indicators (social features)
    then dict_set modifiers "isolation_flag" 1.0 else modifiers in
  modifiers.

(** The category and recommendation thresholds of [score_application]. *)
Definition categorize (risk_score : Z) : string * string :=
  if (risk_score <=? 25)%Z then ("Low", "Approve")
  else if (risk_score <=? 45)%Z then ("Moderate", "Approve with Conditions")
  else if (risk_score <=? 65)%Z then ("Elevated", "Manual Review Required")
  else if (risk_score <=? 80)%Z then ("High", "Decline Recommended")
  else ("Very High", "Decline").

(** ** risk_scorer.py: the main scoring method *)

(** The truth value of an optional argument that is [None] or a dataclass
    instance (an instance is always truthy). *)
Definition supplied {A} (o : option A) : bool :=
  match o with Some _ => true | None => false end.

Section RiskScorer.

Variable rt : Runtime.

(** [RiskScorer._generate_ai_analysis].  Without a client the fixed notice
    is returned.  With one, the prompt is formatted first, outside the
    [try]: the [:,] format specs of the loan amount and the property value
    raise on anything but a number; the call itself cannot raise. *)
Definition _generate_ai_analysis (application : gmap string pyval)
    (risk_score : Z) (risk_category : string)
    (risk_factors positive_factors : list string) : option string :=
  match client rt with
  | None => Some "AI analysis unavailable - Keywords AI client not configured."%string
  | Some complete =>
      _ ← as_num (get application "loan_amount" (PInt 0));
      _ ← as_num (get application "property_value" (PInt 0));
      Some (complete application risk_score risk_category risk_factors positive_factors)
  end.

(** The two factor lists that [score_application] fills by
    [risk_factors.append] and [positive_factors.append]. *)
Definition append_risk (factors : list string * list string) (s : string)
    : list string * list string :=
  (fst factors ++ [s], snd factors).

Definition append_positive (factors : list string * list string) (s : string)
    : list string * list string :=
  (fst factors, snd factors ++ [s]).

(** The loop of [score_application] that surfaces the modifier terms above
    [1] or below [-1] as named factors. *)
Definition modifier_factors (modifier_breakdown : list (string * Q))
    (factors : list string * list string) : list string * list string :=
  fold_left
    (fun factors '(key, value) =>
       if Py.gt value 1 then
         append_risk factors ("Social indicator: " +:+ str_replace "_"%char " "%char key)
       else if Py.lt value (-1) then
         append_positive factors
           ("Social indicator: " +:+ str_replace "_"%char " "%char key)
       else factors)
    modifier_breakdown factors.

(** The five threshold blocks of [score_application] that name a metric as
    a risk factor or as a positive factor; each metric comes both as the
    value the dict held (for the message) and as its number (for the
    comparison). *)
Definition threshold_factors
    (credit_score dti ltv employment_years reserves_months : pyval)
    (credit_n dti_n ltv_n employment_n reserves_n : Q)
    : list string * list string :=
  let factors : list string * list string := ([], []) in
  let factors :=
    if Py.lt credit_n 620 then
      append_risk factors ("Poor credit score (" +:+ str_of rt credit_score +:+ ")")
    else if Py.ge credit_n 740 then
      append_positive factors
        ("Excellent credit score (" +:+ str_of rt credit_score +:+ ")")
    else factors in
  let factors :=
    if Py.gt dti_n 43 then
      append_risk factors ("High DTI ratio (" +:+ str_of rt dti +:+ "%)")
    else if Py.le dti_n 28 then
      append_positive factors ("Low DTI ratio (" +:+ str_of rt dti +:+ "%)")
    else factors in
  let factors :=
    if Py.gt ltv_n 90 then
      append_risk factors
        ("High LTV ratio (" +:+ str_of rt ltv +:+ "%) - minimal equity")
    else if Py.le ltv_n 80 then
      append_positive factors
        ("Conservative LTV (" +:+ str_of rt ltv +:+ "%) - good equity position")
    else factors in
  let factors :=
    if Py.lt employment_n 2 then
      append_risk factors
        ("Short employment history (" +:+ str_of rt employment_years +:+ " years)")
    else if Py.ge employment_n 5 then
      append_positive factors
        ("Stable employment (" +:+ str_of rt employment_years +:+ "+ years)")
    else factors in
  let factors :=
    if Py.lt reserves_n 3 then
      append_risk factors
        ("Limited reserves (" +:+ str_of rt reserves_months +:+ " months)")
    else if Py.ge reserves_n 6 then
      append_positive factors
        ("Strong reserves (" +:+ str_of rt reserves_months +:+ " months)")
    else factors in
  factors.

(** [RiskScorer.score_application]; [None] is a raised exception.  A metric
    that is not a number raises at the first comparison of its component
    function. *)
Definition score_application (application : gmap string pyval)
    (professional_features : option ProfessionalFeatures)
    (lifestyle_features : option LifestyleFeatures)
    (social_features : option SocialConnectednessFeatures) : option RiskReport :=
  let app_id := get application "id" (PStr "NEW") in
  let borrower := get application "borrower" (PStr "Unknown") in
  let credit_score := get application "credit_score" (PInt 680) in
  let dti := get application "dti" (PInt 36) in
  let ltv := get application "ltv" (PInt 80) in
  let employment_years := get application "employment_years" (PInt 2) in
  let reserves_months := get application "reserves_months" (PInt 3) in
  credit_n ← as_num credit_score;
  let credit_risk := _calculate_credit_risk credit_n in
  dti_n ← as_num dti;
  let dti_risk := _calculate_dti_risk dti_n in
  ltv_n ← as_num ltv;
  let ltv_risk := _calculate_ltv_risk ltv_n in
  employment_n ← as_num employment_years;
  let employment_risk := _calculate_employment_risk employment_n in
  reserves_n ← as_num reserves_months;
  let reserves_risk := _calculate_reserves_risk reserves_n in
  let base_score :=
    credit_risk * index TRADITIONAL_WEIGHTS "credit_score" +
    dti_risk * index TRADITIONAL_WEIGHTS "dti" +
    ltv_risk * index TRADITIONAL_WEIGHTS "ltv" +
    employment_risk * index TRADITIONAL_WEIGHTS "employment" +
    reserves_risk * index TRADITIONAL_WEIGHTS "reserves" in
  modifiers ←
    (if supplied professional_features || supplied lifestyle_features
        || supplied social_features
     then
       traditional ← extract_traditional_features rt application;
       let combined :=
         mkCombinedFeatures traditional
           (default ProfessionalFeatures_default professional_features)
           (default LifestyleFeatures_default lifestyle_features)
           (default SocialConnectednessFeatures_default social_features) in
       let modifier_breakdown := _calculate_modifiers combined in
       let total_modifier := dict_values_sum modifier_breakdown in
       let total_modifier :=
         Py.max (- inject_Z MAX_MODIFIER_ADJUSTMENT)
                (Py.min (inject_Z MAX_MODIFIER_ADJUSTMENT) total_modifier) in
       Some (modifier_breakdown, total_modifier)
     else Some ([], 0.0));
  let modifier_breakdown := fst modifiers in
  let total_modifier := snd modifiers in
  let final_score := base_score + total_modifier in
  let final_score := Py.max 0 (Py.min 100 final_score) in
  let risk_score := Py.round final_score in
  let risk_category := fst (categorize risk_score) in
  let recommendation := snd (categorize risk_score) in
  let factors :=
    threshold_factors credit_score dti ltv employment_years reserves_months
      credit_n dti_n ltv_n employment_n reserves_n in
  let factors := modifier_factors modifier_breakdown factors in
  let risk_factors := fst factors in
  let positive_factors := snd factors in
  ai_analysis ←
    _generate_ai_analysis application risk_score risk_category
      risk_factors positive_factors;
  Some (mkRiskReport
          app_id borrower risk_score risk_category recommendation
          base_score credit_risk dti_risk ltv_risk employment_risk reserves_risk
          total_modifier modifier_breakdown
          credit_score dti ltv
          risk_factors positive_factors ai_analysis).

End RiskScorer.

(** ** The base risk components in binary64 arithmetic

    The same five functions and the weighted base score on IEEE 754
    binary64 numbers, the arithmetic Python runs them in, for evaluating
    the concrete cases of the properties below without the idealisation to
    exact rationals.  [credit_score] and [months] are Python [int]s (their
    differences from the band ends are exact), the other metrics are
    floats; an [int] metric such as [dti = 48] converts to the float of the
    same value. *)

#[local] Set Warnings "-inexact-float".

Module Binary64.
Import PrimFloat.
Local Open Scope float_scope.

(** [float(z)] for an [int] of small magnitude. *)
Definition of_int (z : Z) : float :=
  if (z <? 0)%Z then - of_uint63 (Uint63.of_Z (- z))
  else of_uint63 (Uint63.of_Z z).

Definition min (a b : float) : float := if ltb b a then b else a.
Definition max (a b : float) : float := if ltb a b then b else a.

Definition _calculate_credit_risk (credit_score : Z) : float :=
  if (800 <=? credit_score)%Z then of_int 5 + of_int (850 - credit_score) * 0.1
  else if (740 <=? credit_score)%Z then of_int 10 + of_int (799 - credit_score) * 0.17
  else if (670 <=? credit_score)%Z then of_int 20 + of_int (739 - credit_score) * 0.22
  else if (580 <=? credit_score)%Z then of_int 35 + of_int (669 - credit_score) * 0.22
  else of_int 55 + of_int (579 - credit_score) * 0.09.

Definition _calculate_dti_risk (dti : float) : float :=
  if leb dti 20 then 5 + dti * 0.5
  else if leb dti 36 then 15 + (dti - 20) * 0.94
  else if leb dti 43 then 30 + (dti - 36) * 2.86
  else if leb dti 50 then 50 + (dti - 43) * 2.86
  else min (70 + (dti - 50) * 2) 90.

Definition _calculate_ltv_risk (ltv : float) : float :=
  if leb ltv 60 then 5 + ltv * 0.17
  else if leb ltv 80 then 15 + (ltv - 60) * 0.5
  else if leb ltv 90 then 25 + (ltv - 80) * 2
  else if leb ltv 95 then 45 + (ltv - 90) * 4
  else min (65 + (ltv - 95) * 4) 85.

Definition _calculate_employment_risk (years : float) : float :=
  if leb 5 years then 10 + max 0 (10 - years) * 1
  else if leb 2 years then 20 + (5 - years) * 6.67
  else if leb 1 years then 40 + (2 - years) * 15
  else 55 + (1 - years) * 15.

Definition _calculate_reserves_risk (months : Z) : float :=
  if (12 <=? months)%Z then of_int 5 + of_int (Z.max 0 (24 - months)) * 0.83
  else if (6 <=? months)%Z then of_int 15 + of_int (12 - months) * 2.5
  else if (3 <=? months)%Z then of_int 30 + of_int (6 - months) * 5
  else if (1 <=? months)%Z then of_int 45 + of_int (3 - months) * 7.5
  else of_int 60 + of_int (1 - months) * 15.

(** The weighted base score of [score_application]. *)
Definition base_score (credit_score : Z) (dti ltv employment_years : float)
    (reserves_months : Z) : float :=
  _calculate_credit_risk credit_score * 0.35 +
  _calculate_dti_risk dti * 0.25 +
  _calculate_ltv_risk ltv * 0.20 +
  _calculate_employment_risk employment_years * 0.10 +
  _calculate_reserves_risk reserves_months * 0.10.

End Binary64.

(** ** Inputs on which the scorer returns *)

(** A value the component functions can compare and compute with. *)
Definition is_number (v : pyval) : bool := supplied (as_num v).

(** The prompt of [_generate_ai_analysis] can be formatted: no client is
    configured, or the two amounts it prints with thousands separators are
    numbers. *)
Definition prompt_formats (rt : Runtime) (application : gmap string pyval) : bool :=
  match client rt with
  | None => true
  | Some _ =>
      is_number (get application "loan_amount" (PInt 0))
      && is_number (get application "property_value" (PInt 0))
  end.

(** The calls of [score_application] that raise nothing: the five metrics,
    read with their defaults, are numbers; when a feature group is
    supplied, [extract_traditional_features] accepts the dict; when an LLM
    client is configured, the two amounts formatted into its prompt are
    numbers.  (Numbers are exact here: an [int] metric too large to convert
    to a float, on which the code raises [OverflowError], is outside the
    model.) *)
Definition scorable (rt : Runtime) (application : gmap string pyval)
    (professional_features : option ProfessionalFeatures)
    (lifestyle_features : option LifestyleFeatures)
    (social_features : option SocialConnectednessFeatures) : bool :=
  is_number (get application "credit_score" (PInt 680))
  && is_number (get application "dti" (PInt 36))
  && is_number (get application "ltv" (PInt 80))
  && is_number (get application "employment_years" (PInt 2))
  && is_number (get application "reserves_months" (PInt 3))
  && (if supplied professional_features || supplied lifestyle_features
         || supplied social_features
      then supplied (extract_traditional_features rt application)
      else true)
  && prompt_formats rt application.

(** ** Concrete inputs used by the examples *)

(** A scorer with no LLM client configured, on which strings parse as no
    number; integers print in decimal, strings as themselves. *)
Definition offline_runtime : Runtime := {|
  str_of := fun v =>
    match v with
    | PInt z => pretty z
    | PStr s => s
    | _ => "?"%string
    end;
  float_of_str := fun _ => None;
  int_of_str := fun _ => None;
  str_lower := fun s => s;
  client := None
|}.

(** The fourth entry of [TEST_CASES], Robert Blake. *)
Definition robert_blake : gmap string pyval :=
  list_to_map [
    ("id", PStr "LN-2024-08469");
    ("borrower", PStr "Robert Blake");
    ("loan_type", PStr "30-Year Fixed Conventional");
    ("loan_amount", PInt 2150000);
    ("property_value", PInt 2250000);
    ("ltv", PFloat 95.6);
    ("property_address", PStr "456 Pine Ridge Way, Seattle, WA");
    ("status", PStr "Declined");
    ("current_risk_score", PInt 84);
    ("credit_score", PInt 580);
    ("annual_income", PInt 320000);
    ("monthly_debts", PInt 4500);
    ("dti", PInt 48);
    ("employment_years", PInt 1);
    ("reserves_months", PInt 1)
  ]%string.

(** [LifestyleFeatures(gambling_indicators=True)]: every other field, the
    derived scores included, at its default. *)
Definition gambling_only : LifestyleFeatures :=
  mkLifestyleFeatures
    (lifestyle_level LifestyleFeatures_default)
    (apparent_spending_vs_income LifestyleFeatures_default)
    (luxury_items_visible LifestyleFeatures_default)
    (frequent_expensive_travel LifestyleFeatures_default)
    (vehicle_tier LifestyleFeatures_default)
    (housing_quality_apparent LifestyleFeatures_default)
    (appears_homeowner LifestyleFeatures_default)
    (location_cost_of_living LifestyleFeatures_default)
    (travel_frequency LifestyleFeatures_default)
    (expensive_hobbies LifestyleFeatures_default)
    true
    (substance_use_indicators LifestyleFeatures_default)
    (financial_responsibility_signals LifestyleFeatures_default)
    (financial_irresponsibility_signals LifestyleFeatures_default)
    (lifestyle_stability_score LifestyleFeatures_default)
    (income_lifestyle_alignment LifestyleFeatures_default).

(** An application at pathological extremes. *)
Definition extreme_application : gmap string pyval :=
  list_to_map [
    ("credit_score", PInt 0); ("dti", PInt 1000); ("employment_years", PInt (-5))
  ]%string.

(** ** Feature structs with derived scores in range *)

(** All seven stored derived scores lie between 0 and 1. *)
Definition unit_scores (features : CombinedFeatures) : Prop :=
  (0 <= professional_credibility_score (professional features) <= 1) /\
  (0 <= job_stability_score (professional features) <= 1) /\
  (0 <= lifestyle_stability_score (lifestyle features) <= 1) /\
  (0 <= income_lifestyle_alignment (lifestyle features) <= 1) /\
  (0 <= social_support_score (social features) <= 1) /\
  (0 <= community_rootedness_score (social features) <= 1) /\
  (0 <= relationship_stability_score (social features) <= 1).

(** No red flag is set. *)
Definition no_red_flag (features : CombinedFeatures) : bool :=
  negb (gambling_indicators (lifestyle features))
  && negb (substance_use_indicators (lifestyle features))
  && negb (frequent_job_changes (professional features))
  && negb (social_isolation_indicators (social features)).

(** ** The factor lists, block by block *)

(** One threshold block: a metric is named as a risk factor, or else as a
    positive factor, or not at all. *)
Definition threshold_block (b_risk b_positive : bool) (s_risk s_positive : string)
    (factors : list string * list string) : list string * list string :=
  if b_risk then append_risk factors s_risk
  else if b_positive then append_positive factors s_positive
  else factors.

(** The number of entries of the two lists together. *)
Definition factor_count (factors : list string * list string) : nat :=
  (length (fst factors) + length (snd factors))%nat.

(** ** The keys the builders read *)

(** The keys of the extracted dict read by [_build_professional_features],
    [_build_lifestyle_features] and [_build_social_features]. *)
Definition professional_keys : list string :=
  ["current_job_months"; "total_experience_years"; "jobs_last_5_years";
   "career_trajectory"; "education_level"; "industry";
   "profile_completeness"; "has_recommendations"; "connection_count";
   "employment_gaps"; "red_flags"]%string.

Definition lifestyle_keys : list string :=
  ["lifestyle_level"; "spending_vs_income"; "luxury_items_visible";
   "frequent_expensive_travel"; "vehicle_type"; "housing_quality";
   "appears_homeowner"; "travel_frequency"; "expensive_hobbies";
   "gambling_indicators"; "substance_use_indicators";
   "financial_responsibility_signals";
   "financial_irresponsibility_signals"]%string.

Definition social_keys : list string :=
  ["follower_tier"; "engagement_quality"; "authentic_connections";
   "relationship_status"; "family_presence"; "appears_stable_relationship";
   "has_children"; "community_involvement"; "group_memberships";
   "volunteer_charity"; "religious_community"; "long_term_friendships";
   "local_ties"; "geographic_stability"; "social_isolation_indicators";
   "conflict_indicators"; "relationship_instability"]%string.

(** The dict holds none of the keys. *)
Definition lacks (extracted : gmap string pyval) (keys : list string) : Prop :=
  Forall (fun k => extracted !! k = None) keys.

(** ** risk_scorer.py: the report as a nested dict *)

(** [round(x, ndigits)] on a float: the nearest multiple of [10^-ndigits],
    ties to the even one.  The exact rational is rounded, where the code
    rounds the binary64 value: at a decimal tie of the exact value (61.25
    to one place) the code can fall to the other side, so the properties
    below bound the rounding and pin no rounded value. *)
Definition py_round_ndigits (x : Q) (ndigits : positive) : Q :=
  inject_Z (Py.round (x * inject_Z (10 ^ Zpos ndigits))) / inject_Z (10 ^ Zpos ndigits).

(** The nested dict [RiskReport.to_dict] returns: a number (by value), a
    value echoed from the application, a string, a list of strings, or a
    dict with its entries in insertion order. *)
#[local] Set Warnings "-register-all".
Inductive json : Type :=
| JNum (q : Q)
| JVal (v : pyval)
| JStr (s : string)
| JStrs (items : list string)
| JObj (entries : list (string * json)).
#[local] Set Warnings "register-all".

(** The ["score_breakdown"] sub-dict of [to_dict]: the weighted
    components and the modifier, each rounded to two places. *)
Definition score_breakdown (self : RiskReport) : list (string * Q) :=
  [("credit_risk",
     py_round_ndigits (credit_component self * index TRADITIONAL_WEIGHTS "credit_score") 2);
   ("dti_risk",
     py_round_ndigits (dti_component self * index TRADITIONAL_WEIGHTS "dti") 2);
   ("ltv_risk",
     py_round_ndigits (ltv_component self * index TRADITIONAL_WEIGHTS "ltv") 2);
   ("employment_risk",
     py_round_ndigits (employment_component self * index TRADITIONAL_WEIGHTS "employment") 2);
   ("reserves_risk",
     py_round_ndigits (reserves_component self * index TRADITIONAL_WEIGHTS "reserves") 2);
   ("feature_modifiers", py_round_ndigits (total_modifier_adjustment self) 2)]%string.

(** The ["scores"] sub-dict of [to_dict]: the unweighted components. *)
Definition scores (self : RiskReport) : list (string * Q) :=
  [("base_score", py_round_ndigits (base_score self) 2);
   ("credit_component", py_round_ndigits (credit_component self) 2);
   ("dti_component", py_round_ndigits (dti_component self) 2);
   ("ltv_component", py_round_ndigits (ltv_component self) 2);
   ("employment_component", py_round_ndigits (employment_component self) 2);
   ("reserves_component", py_round_ndigits (reserves_component self) 2);
   ("modifier_adjustment", py_round_ndigits (total_modifier_adjustment self) 2)]%string.

(** A [Dict[str, float]] as a nested dict. *)
Definition json_nums (d : list (string * Q)) : json :=
  JObj (map (fun kv => (fst kv, JNum (snd kv))) d).

(** [RiskReport.to_dict] *)
Definition to_dict (self : RiskReport) : json :=
  JObj [
    ("application_id", JVal (application_id self));
    ("borrower_name", JVal (borrower_name self));
    ("risk_score", JVal (PInt (risk_score self)));
    ("risk_category", JStr (risk_category self));
    ("recommendation", JStr (recommendation self));
    ("credit_score", JVal (credit_score self));
    ("dti", JVal (dti_ratio self));
    ("ltv", JVal (ltv_ratio self));
    ("score_breakdown", json_nums (score_breakdown self));
    ("scores", json_nums (scores self));
    ("modifier_breakdown",
       json_nums (map (fun kv => (fst kv, py_round_ndigits (snd kv) 2))
                      (modifier_breakdown self)));
    ("metrics",
       JObj [("credit_score", JVal (credit_score self));
             ("dti_ratio", JVal (dti_ratio self));
             ("ltv_ratio", JVal (ltv_ratio self))]);
    ("risk_factors", JStrs (risk_factors self));
    ("positive_factors", JStrs (positive_factors self));
    ("ai_analysis", JStr (ai_analysis self))
  ]%string.

(** ** risk_scorer.py: scoring a submitted form *)

(** An [int] on which the component functions raise nothing: their [int]
    arithmetic (at most [60 + (1 - z) * 15]) stays within the float range,
    beyond which the next float operation raises [OverflowError]. *)
Definition float_convertible (z : Z) : Prop := (Z.abs z < 2 ^ 1000)%Z.

Section FormScoring.

Variable rt : Runtime.

(** [s[:3].upper()]: the first three characters (code points) of a
    string, upper-cased. *)
Variable upper_prefix : string -> string.

(** [RiskScorer.score_from_form].  The numeric parameters arrive converted
    by [process_form_submission], as exact numbers (infinities, NaN and
    overflow are outside the model); the borrower name, the loan type and
    the address arrive as the form held them, and the name must be a string
    to be sliced and upper-cased.  The two profile URLs are accepted and not
    used.  [additional_fields] are the extra keyword arguments, merged last
    into the application dict. *)
Definition score_from_form
    (borrower_name : pyval) (loan_amount property_value : Q)
    (loan_type property_address : pyval) (credit_score : Z)
    (annual_income monthly_debts employment_years : Q) (reserves_months : Z)
    (linkedin_url instagram_url : pyval)
    (additional_fields : gmap string pyval) : option RiskReport :=
  let monthly_income := annual_income / 12 in
  let rate := 0.065 / 12 in
  let term := 360%Z in
  let monthly_payment :=
    loan_amount * (rate * (1 + rate) ^ term) / ((1 + rate) ^ term - 1) in
  let total_monthly_debt := monthly_debts + monthly_payment in
  let dti :=
    if Py.gt monthly_income 0
    then PFloat (py_round_ndigits ((total_monthly_debt / monthly_income) * 100) 1)
    else PInt 50 in
  let ltv :=
    if Py.gt property_value 0
    then PFloat (py_round_ndigits ((loan_amount / property_value) * 100) 1)
    else PInt 100 in
  app_id ←
    match borrower_name with
    | PStr s => Some ("NEW-" +:+ upper_prefix s)
    | _ => None
    end;
  let application : gmap string pyval :=
    additional_fields ∪
    list_to_map [
      ("id", PStr app_id);
      ("borrower", borrower_name);
      ("loan_amount", PFloat loan_amount);
      ("property_value", PFloat property_value);
      ("loan_type", loan_type);
      ("property_address", property_address);
      ("credit_score", PInt credit_score);
      ("annual_income", PFloat annual_income);
      ("dti", dti);
      ("ltv", ltv);
      ("employment_years", PFloat employment_years);
      ("reserves_months", PInt reserves_months)
    ]%string in
  score_application rt application None None None.

(** The result of [process_form_submission]: the dict with status
    ["success"] and the report, or the dict with status ["error"] (its
    message, the text of the exception, is not modelled). *)
Inductive FormResult : Type :=
| FormSuccess (report : json)
| FormError.

(** [process_form_submission]: every exception of the conversions and of
    the scoring is caught and turned into the error result. *)
Definition process_form_submission (form_data : gmap string pyval) : FormResult :=
  let attempt : option json :=
    let borrower_name := get form_data "borrower_name" (PStr "") in
    loan_amount ← py_float rt (get form_data "loan_amount" (PInt 0));
    property_value ← py_float rt (get form_data "property_value" (PInt 0));
    let loan_type := get form_data "loan_type" (PStr "30-Year Fixed Conventional") in
    let property_address := get form_data "property_address" (PStr "") in
    credit_score ← py_int rt (get form_data "credit_score" (PInt 680));
    annual_income ← py_float rt (get form_data "annual_income" (PInt 0));
    monthly_debts ← py_float rt (get form_data "monthly_debts" (PInt 0));
    employment_years ← py_float rt (get form_data "employment_years" (PInt 2));
    reserves_months ← py_int rt (get form_data "reserves_months" (PInt 3));
    let linkedin_url := get form_data "linkedin_url" PNone in
    let instagram_url := get form_data "instagram_url" PNone in
    report ←
      score_from_form borrower_name loan_amount property_value loan_type
        property_address credit_score annual_income monthly_debts
        employment_years reserves_months linkedin_url instagram_url ∅;
    Some (to_dict report) in
  match attempt with
  | Some report => FormSuccess report
  | None => FormError
  end.

End FormScoring.


(** ** feature_extractor.py: the flat model input *)

(** [CombinedFeatures.to_model_input]: the flat dict, in insertion order.
    [min] compares the two ratios of the traditional block with [1.0] as
    they were stored, which raises unless they are numbers. *)
Definition to_model_input (self : CombinedFeatures) : option (list (string * Q)) :=
  debt_to_income_ratio ← as_num (TraditionalFeatures.debt_to_income_ratio (traditional self));
  loan_to_value_ratio ← as_num (TraditionalFeatures.loan_to_value_ratio (traditional self));
  Some [
    ("credit_score_normalized",
       Py.max 0 ((TraditionalFeatures.credit_score (traditional self) - 300) / 550));
    ("credit_history_years",
       Py.min (TraditionalFeatures.credit_history_years (traditional self) / 30) 1.0);
    ("annual_income_log",
       Py.min (TraditionalFeatures.annual_income (traditional self) / 500000) 1.0);
    ("employment_length_normalized",
       Py.min (inject_Z (TraditionalFeatures.employment_length_months (traditional self)) / 120) 1.0);
    ("is_self_employed",
       if TraditionalFeatures.is_self_employed (traditional self) then 1.0 else 0.0);
    ("income_verified",
       if TraditionalFeatures.income_verified (traditional self) then 1.0 else 0.0);
    ("dti_ratio", Py.min debt_to_income_ratio 1.0);
    ("ltv_ratio", Py.min loan_to_value_ratio 1.0);
    ("is_primary_residence",
       if TraditionalFeatures.is_primary_residence (traditional self) then 1.0 else 0.0);
    ("reserves_months_normalized",
       Py.min (inject_Z (TraditionalFeatures.reserves_months (traditional self)) / 12) 1.0);

    ("current_job_months_normalized",
       Py.min (inject_Z (current_job_months (professional self)) / 120) 1.0);
    ("total_experience_years_normalized",
       Py.min (total_experience_years (professional self) / 30) 1.0);
    ("jobs_last_5_years_normalized",
       Py.min (inject_Z (jobs_last_5_years (professional self)) / 5) 1.0);
    ("career_trajectory_normalized", inject_Z (career_trajectory (professional self)) / 5);
    ("education_level_normalized", inject_Z (education_level (professional self)) / 5);
    ("has_advanced_degree", if has_advanced_degree (professional self) then 1.0 else 0.0);
    ("industry_stability", industry_stability (professional self));
    ("profile_completeness", profile_completeness (professional self));
    ("has_recommendations", if has_recommendations (professional self) then 1.0 else 0.0);
    ("connection_count_normalized", inject_Z (connection_count_tier (professional self)) / 3);
    ("employment_gaps_normalized",
       Py.min (inject_Z (employment_gaps (professional self)) / 3) 1.0);
    ("frequent_job_changes", if frequent_job_changes (professional self) then 1.0 else 0.0);
    ("profile_inconsistencies_normalized",
       Py.min (inject_Z (profile_inconsistencies (professional self)) / 3) 1.0);
    ("job_stability_score", job_stability_score (professional self));
    ("professional_credibility_score", professional_credibility_score (professional self));

    ("lifestyle_level_normalized", inject_Z (lifestyle_level (lifestyle self)) / 5);
    ("spending_vs_income", apparent_spending_vs_income (lifestyle self));
    ("luxury_items_visible", if luxury_items_visible (lifestyle self) then 1.0 else 0.0);
    ("frequent_expensive_travel",
       if frequent_expensive_travel (lifestyle self) then 1.0 else 0.0);
    ("vehicle_tier_normalized", inject_Z (vehicle_tier (lifestyle self)) / 3);
    ("housing_quality_normalized", inject_Z (housing_quality_apparent (lifestyle self)) / 3);
    ("appears_homeowner", if appears_homeowner (lifestyle self) then 1.0 else 0.0);
    ("location_cost_of_living", location_cost_of_living (lifestyle self));
    ("travel_frequency_normalized", inject_Z (travel_frequency (lifestyle self)) / 3);
    ("expensive_hobbies", if expensive_hobbies (lifestyle self) then 1.0 else 0.0);
    ("gambling_indicators", if gambling_indicators (lifestyle self) then 1.0 else 0.0);
    ("substance_use_indicators",
       if substance_use_indicators (lifestyle self) then 1.0 else 0.0);
    ("financial_responsibility_signals",
       Py.min (inject_Z (financial_responsibility_signals (lifestyle self)) / 5) 1.0);
    ("financial_irresponsibility_signals",
       Py.min (inject_Z (financial_irresponsibility_signals (lifestyle self)) / 5) 1.0);
    ("lifestyle_stability_score", lifestyle_stability_score (lifestyle self));
    ("income_lifestyle_alignment", income_lifestyle_alignment (lifestyle self));

    ("followers_tier_normalized", inject_Z (total_followers_tier (social self)) / 3);
    ("engagement_rate", engagement_rate (social self));
    ("authentic_connections", authentic_connections (social self));
    ("relationship_status_normalized", inject_Z (relationship_status (social self)) / 4);
    ("family_presence", family_presence_in_content (social self));
    ("stable_relationship", if appears_stable_relationship (social self) then 1.0 else 0.0);
    ("has_children", if has_children (social self) then 1.0 else 0.0);
    ("community_involvement", community_involvement (social self));
    ("group_memberships_normalized",
       Py.min (inject_Z (group_memberships (social self)) / 10) 1.0);
    ("volunteer_charity",
       if volunteer_charity_involvement (social self) then 1.0 else 0.0);
    ("religious_community", if religious_community_ties (social self) then 1.0 else 0.0);
    ("long_term_friendships",
       if long_term_friendships_visible (social self) then 1.0 else 0.0);
    ("local_community_ties", local_community_ties (social self));
    ("geographic_stability", geographic_stability (social self));
    ("social_isolation", if social_isolation_indicators (social self) then 1.0 else 0.0);
    ("conflict_drama_normalized",
       Py.min (inject_Z (conflict_drama_indicators (social self)) / 5) 1.0);
    ("relationship_instability_normalized",
       Py.min (inject_Z (relationship_instability_signals (social self)) / 5) 1.0);
    ("social_support_score", social_support_score (social self));
    ("community_rootedness_score", community_rootedness_score (social self));
    ("relationship_stability_score", relationship_stability_score (social self))
  ]%string.

(** The keys [to_model_input] writes from the lifestyle struct. *)
Definition lifestyle_input_keys : list string :=
  ["lifestyle_level_normalized"; "spending_vs_income"; "luxury_items_visible";
   "frequent_expensive_travel"; "vehicle_tier_normalized";
   "housing_quality_normalized"; "appears_homeowner"; "location_cost_of_living";
   "travel_frequency_normalized"; "expensive_hobbies"; "gambling_indicators";
   "substance_use_indicators"; "financial_responsibility_signals";
   "financial_irresponsibility_signals"; "lifestyle_stability_score";
   "income_lifestyle_alignment"]%string.

(** ** feature_extractor.py: extraction through the LLM client *)

(** The three schemas handed to [extract_structured_data]. *)
Inductive Schema : Type := ProfessionalSchema | LifestyleSchema | SocialSchema.

(** What a call of [keywords_client.extract_structured_data] does: it
    raises, it returns a JSON value that is not an object, or it returns a
    dict. *)
Inductive Extraction : Type :=
| ExtractRaises
| ExtractNotDict
| ExtractDict (extracted : gmap string pyval).

(** The truth value of an analysis text that is [None] or a string. *)
Definition text_given (analysis : option string) : bool :=
  match analysis with
  | Some text => negb (String.eqb text "")
  | None => false
  end.

Section Extraction.

Variable rt : Runtime.

(** [self.keywords_client]: [None], or the client as the function from the
    text and the schema of a call to what the call does. *)
Variable keywords_client : option (string -> Schema -> Extraction).

(** [FeatureExtractor.extract_professional_features]: without a client it
    raises; an exception of the client is caught and gives the defaults;
    an exception of the builder is not caught. *)
Definition extract_professional_features (analysis_text : string)
    : option ProfessionalFeatures :=
  match keywords_client with
  | None => None
  | Some client =>
      match client analysis_text ProfessionalSchema with
      | ExtractRaises => Some ProfessionalFeatures_default
      | ExtractNotDict => None
      | ExtractDict extracted => _build_professional_features rt extracted
      end
  end.

(** [FeatureExtractor.extract_lifestyle_features] *)
Definition extract_lifestyle_features (analysis_text : string)
    : option LifestyleFeatures :=
  match keywords_client with
  | None => None
  | Some client =>
      match client analysis_text LifestyleSchema with
      | ExtractRaises => Some LifestyleFeatures_default
      | ExtractNotDict => None
      | ExtractDict extracted => _build_lifestyle_features extracted
      end
  end.

(** [FeatureExtractor.extract_social_features] *)
Definition extract_social_features (analysis_text : string)
    : option SocialConnectednessFeatures :=
  match keywords_client with
  | None => None
  | Some client =>
      match client analysis_text SocialSchema with
      | ExtractRaises => Some SocialConnectednessFeatures_default
      | ExtractNotDict => None
      | ExtractDict extracted => _build_social_features rt extracted
      end
  end.

(** [FeatureExtractor.extract_all_features] *)
Definition extract_all_features (traditional_data : gmap string pyval)
    (professional_analysis lifestyle_analysis social_analysis : option string)
    : option CombinedFeatures :=
  traditional ← extract_traditional_features rt traditional_data;
  professional ←
    (if text_given professional_analysis && supplied keywords_client
     then extract_professional_features (default ""%string professional_analysis)
     else Some ProfessionalFeatures_default);
  lifestyle ←
    (if text_given lifestyle_analysis && supplied keywords_client
     then extract_lifestyle_features (default ""%string lifestyle_analysis)
     else Some LifestyleFeatures_default);
  social ←
    (if text_given social_analysis && supplied keywords_client
     then extract_social_features (default ""%string social_analysis)
     else if text_given lifestyle_analysis && supplied keywords_client
     then extract_social_features (default ""%string lifestyle_analysis)
     else Some SocialConnectednessFeatures_default);
  Some (mkCombinedFeatures traditional professional lifestyle social).

End Extraction.

(** The fields of a lifestyle struct are in the ranges the dataclass
    documents: levels and tiers on their scales, the three fractions and
    the two derived scores between 0 and 1, the two counts not negative. *)
Definition lifestyle_in_range (l : LifestyleFeatures) : Prop :=
  (1 <= lifestyle_level l <= 5)%Z /\
  (0 <= apparent_spending_vs_income l /\ apparent_spending_vs_income l <= 1) /\
  (1 <= vehicle_tier l <= 3)%Z /\
  (1 <= housing_quality_apparent l <= 3)%Z /\
  (0 <= location_cost_of_living l /\ location_cost_of_living l <= 1) /\
  (1 <= travel_frequency l <= 3)%Z /\
  (0 <= financial_responsibility_signals l)%Z /\
  (0 <= financial_irresponsibility_signals l)%Z /\
  (0 <= lifestyle_stability_score l /\ lifestyle_stability_score l <= 1) /\
  (0 <= income_lifestyle_alignment l /\ income_lifestyle_alignment l <= 1).

(** ** The narrative and the score *)

(** The same surroundings with another LLM client, or with none. *)
Definition set_client (rt : Runtime)
    (c : option (gmap string pyval -> Z -> string -> list string -> list string -> string))
    : Runtime :=
  {| str_of := str_of rt;
     float_of_str := float_of_str rt;
     int_of_str := int_of_str rt;
     str_lower := str_lower rt;
     client := c |}.

(** The report with another narrative. *)
Definition with_ai_analysis (r : RiskReport) (text : string) : RiskReport :=
  mkRiskReport
    (application_id r) (borrower_name r) (risk_score r) (risk_category r)
    (recommendation r) (base_score r) (credit_component r) (dti_component r)
    (ltv_component r) (employment_component r) (reserves_component r)
    (total_modifier_adjustment r) (modifier_breakdown r)
    (credit_score r) (dti_ratio r) (ltv_ratio r)
    (risk_factors r) (positive_factors r) text.

(** * Properties *)

(** ** Facts about the numeric primitives *)

Module PyFacts.
Import Py.

Lemma lt_spec a b : reflect (a < b) (lt a b).
Proof.
  unfold lt. destruct (Qle_bool b a) eqn:E; constructor.
  - apply Qle_bool_iff in E. lra.
  - apply Qnot_le_lt. intros H. apply Qle_bool_iff in H. congruence.
Qed.

Lemma le_spec a b : reflect (a <= b) (le a b).
Proof.
  unfold le. destruct (Qle_bool a b) eqn:E; constructor.
  - now apply Qle_bool_iff.
  - intros H. apply Qle_bool_iff in H. congruence.
Qed.

Lemma gt_spec a b : reflect (b < a) (gt a b).
Proof. exact (lt_spec b a). Qed.

Lemma ge_spec a b : reflect (b <= a) (ge a b).
Proof. exact (le_spec b a). Qed.

Lemma min_spec a b : (b < a /\ min a b = b) \/ (a <= b /\ min a b = a).
Proof. unfold min. destruct (lt_spec b a); [left | right]; split; auto; lra. Qed.

Lemma max_spec a b : (a < b /\ max a b = b) \/ (b <= a /\ max a b = a).
Proof. unfold max. destruct (gt_spec b a); [left | right]; split; auto; lra. Qed.

Lemma min_le_l a b : min a b <= a.
Proof. destruct (min_spec a b) as [[? ->] | [? ->]]; lra. Qed.

Lemma min_le_r a b : min a b <= b.
Proof. destruct (min_spec a b) as [[? ->] | [? ->]]; lra. Qed.

Lemma max_ge_l a b : a <= max a b.
Proof. destruct (max_spec a b) as [[? ->] | [? ->]]; lra. Qed.

Lemma max_ge_r a b : b <= max a b.
Proof. destruct (max_spec a b) as [[? ->] | [? ->]]; lra. Qed.

(** The clamping idiom [max(lo, min(hi, x))]. *)
Lemma clamp_bounds lo hi x :
  lo <= hi -> lo <= max lo (min hi x) /\ max lo (min hi x) <= hi.
Proof.
  intros Hlh. split; [apply max_ge_l |].
  destruct (max_spec lo (min hi x)) as [[_ ->] | [_ ->]];
    [apply min_le_l | exact Hlh].
Qed.

Lemma clamp_id lo hi x :
  lo <= x -> x <= hi -> max lo (min hi x) == x.
Proof.
  intros H1 H2.
  destruct (min_spec hi x) as [[? E] | [? E]]; rewrite E;
    destruct (max_spec lo x) as [[? E'] | [? E']];
    destruct (max_spec lo hi) as [[? E''] | [? E'']];
    rewrite ?E', ?E''; lra.
Qed.

(** Clamping respects numeric equality. *)
Lemma clamp_compat lo hi x y :
  x == y -> max lo (min hi x) == max lo (min hi y).
Proof.
  intros Hxy.
  destruct (min_spec hi x) as [[? Ex] | [? Ex]]; rewrite Ex;
    destruct (min_spec hi y) as [[? Ey] | [? Ey]]; rewrite Ey;
    match goal with
    | |- max lo ?a == max lo ?b =>
        destruct (max_spec lo a) as [[? Ea] | [? Ea]];
        destruct (max_spec lo b) as [[? Eb] | [? Eb]];
        rewrite ?Ea, ?Eb
    end; lra.
Qed.

(** Rounding stays between the integers that bracket its argument. *)
Lemma round_bounds (lo hi : Z) x :
  inject_Z lo <= x -> x <= inject_Z hi -> (lo <= round x <= hi)%Z.
Proof.
  intros Hlo Hhi.
  assert (Hf : (lo <= Qfloor x)%Z).
  { rewrite <- (Qfloor_Z lo). now apply Qfloor_resp_le. }
  assert (Hc : (Qfloor x <= hi)%Z).
  { rewrite <- (Qfloor_Z hi). now apply Qfloor_resp_le. }
  assert (Hx : inject_Z (Qfloor x) <= x) by apply Qfloor_le.
  unfold round.
  destruct (lt_spec (x - inject_Z (Qfloor x)) 0.5) as [Hl | Hl]; [lia |].
  assert (Hlt : (Qfloor x < hi)%Z).
  { destruct (Z.eq_dec (Qfloor x) hi) as [E | E]; [| lia].
    rewrite E in Hl. exfalso. apply Hl. lra. }
  destruct (gt_spec (x - inject_Z (Qfloor x)) 0.5); [lia |].
  destruct (Z.even (Qfloor x)); lia.
Qed.

End PyFacts.

(** ** The base risk components *)

(** Case analysis on every comparison, [min] and [max] a goal mentions. *)
Ltac py_cases :=
  repeat match goal with
    | |- context [Py.ge ?a ?b] => destruct (PyFacts.ge_spec a b)
    | |- context [Py.le ?a ?b] => destruct (PyFacts.le_spec a b)
    | |- context [Py.gt ?a ?b] => destruct (PyFacts.gt_spec a b)
    | |- context [Py.lt ?a ?b] => destruct (PyFacts.lt_spec a b)
    | |- context [Py.min ?a ?b] =>
        let E := fresh "E" in
        destruct (PyFacts.min_spec a b) as [[? E] | [? E]]; rewrite E
    | |- context [Py.max ?a ?b] =>
        let E := fresh "E" in
        destruct (PyFacts.max_spec a b) as [[? E] | [? E]]; rewrite E
    end.

(** The DTI and LTV curves are capped: at [90] and at [85]. *)
Lemma dti_risk_le_90 dti : _calculate_dti_risk dti <= 90.
Proof. unfold _calculate_dti_risk. py_cases; lra. Qed.

Lemma ltv_risk_le_85 ltv : _calculate_ltv_risk ltv <= 85.
Proof. unfold _calculate_ltv_risk. py_cases; lra. Qed.

(** The other three curves have no cap on their lowest band: each passes
    [100] exactly below one input value. *)
Lemma credit_risk_le_100_iff credit_score :
  _calculate_credit_risk credit_score <= 100 <-> 79 <= credit_score.
Proof. unfold _calculate_credit_risk. py_cases; split; intros; lra. Qed.

Lemma employment_risk_le_100_iff years :
  _calculate_employment_risk years <= 100 <-> -2 <= years.
Proof. unfold _calculate_employment_risk. py_cases; split; intros; lra. Qed.

Lemma reserves_risk_le_100_iff months :
  _calculate_reserves_risk months <= 100 <-> -(5 # 3) <= months.
Proof. unfold _calculate_reserves_risk. py_cases; split; intros; lra. Qed.

(** Inside one band the credit curve falls as the score rises. *)
Lemma credit_risk_antitone_in_band s1 s2 :
  s1 <= s2 ->
  (800 <= s1 \/ (740 <= s1 /\ s2 < 800) \/ (670 <= s1 /\ s2 < 740)
   \/ (580 <= s1 /\ s2 < 670) \/ s2 < 580) ->
  _calculate_credit_risk s2 <= _calculate_credit_risk s1.
Proof.
  intros H12 Hband. unfold _calculate_credit_risk.
  py_cases; lra.
Qed.

(** C2.  The credit component is not monotone on [300, 850]: from 739 to
    740 the score rises and the risk rises with it, from 20.0 to 20.03
    (the 740-799 band starts above where the 670-739 band ends). *)
Theorem credit_risk_rises_from_739_to_740 :
  _calculate_credit_risk 739 == 20 /\
  _calculate_credit_risk 740 == 20.03 /\
  300 <= 739 /\ 739 <= 740 /\ 740 <= 850 /\
  _calculate_credit_risk 739 < _calculate_credit_risk 740.
Proof. vm_compute. repeat split; intros; discriminate. Qed.

(** The same happens at the next seam down, from 669 to 670. *)
Lemma credit_risk_rises_from_669_to_670 :
  _calculate_credit_risk 669 == 35 /\
  _calculate_credit_risk 670 == 35.18 /\
  _calculate_credit_risk 669 < _calculate_credit_risk 670.
Proof. vm_compute. repeat split; intros; discriminate. Qed.

(** C3, as the code has it: at a credit score of exactly 800 the credit
    component is 10.0, the top of the 800-850 band; 5.0 is its value at
    850. *)
Theorem credit_risk_at_800 :
  _calculate_credit_risk 800 == 10 /\ _calculate_credit_risk 850 == 5.
Proof. split; reflexivity. Qed.

(** C3 as stated fails: the value at 800 is not 5.0. *)
Lemma credit_risk_800_is_not_5 :
  _calculate_credit_risk 800 == 10 /\ ~ _calculate_credit_risk 800 == 5.
Proof. split; [reflexivity | intros H; discriminate H]. Qed.

(** C4, as the code has it: the DTI and LTV components never exceed 100
    (they are capped at 90 and 85); the credit, employment and reserves
    components stay at or below 100 exactly for credit scores from 79 up,
    employment years from -2 up and reserve months from -5/3 up. *)
Theorem component_upper_bounds (x : Q) :
  _calculate_dti_risk x <= 100 /\
  _calculate_ltv_risk x <= 100 /\
  (_calculate_credit_risk x <= 100 <-> 79 <= x) /\
  (_calculate_employment_risk x <= 100 <-> -2 <= x) /\
  (_calculate_reserves_risk x <= 100 <-> -(5 # 3) <= x).
Proof.
  pose proof (dti_risk_le_90 x). pose proof (ltv_risk_le_85 x).
  repeat split;
    try apply credit_risk_le_100_iff;
    try apply employment_risk_le_100_iff;
    try apply reserves_risk_le_100_iff; lra.
Qed.

(** C4 as stated fails at its own examples: a credit score of 0 gives
    107.11 and -5 employment years give 145. *)
Lemma components_exceed_100 :
  _calculate_credit_risk 0 == 107.11 /\
  _calculate_employment_risk (-5) == 145 /\
  100 < _calculate_credit_risk 0 /\
  100 < _calculate_employment_risk (-5).
Proof. vm_compute. repeat split; intros; discriminate. Qed.

(** ** The scoring method *)

Lemma traditional_weights :
  index TRADITIONAL_WEIGHTS "credit_score" = 0.35 /\
  index TRADITIONAL_WEIGHTS "dti" = 0.25 /\
  index TRADITIONAL_WEIGHTS "ltv" = 0.20 /\
  index TRADITIONAL_WEIGHTS "employment" = 0.10 /\
  index TRADITIONAL_WEIGHTS "reserves" = 0.10.
Proof. vm_compute. repeat split. Qed.

Lemma modifier_weights :
  index MODIFIER_WEIGHTS "professional_credibility" = 2.0 /\
  index MODIFIER_WEIGHTS "job_stability" = 2.0 /\
  index MODIFIER_WEIGHTS "lifestyle_stability" = 1.5 /\
  index MODIFIER_WEIGHTS "income_lifestyle_alignment" = 1.5 /\
  index MODIFIER_WEIGHTS "social_support" = 1.0 /\
  index MODIFIER_WEIGHTS "community_rootedness" = 1.0 /\
  index MODIFIER_WEIGHTS "relationship_stability" = 1.0.
Proof. vm_compute. repeat split. Qed.

(** Reduce the projections of a [RiskReport] and nothing else. *)
Ltac report_fields :=
  cbn [application_id borrower_name risk_score risk_category recommendation
       base_score credit_component dti_component ltv_component
       employment_component reserves_component total_modifier_adjustment
       modifier_breakdown credit_score dti_ratio ltv_ratio risk_factors
       positive_factors ai_analysis].

(** The narrative is produced exactly when the prompt can be formatted. *)
Lemma generate_ai_analysis_Some rt app s cat rf pf' ai :
  _generate_ai_analysis rt app s cat rf pf' = Some ai ->
  prompt_formats rt app = true.
Proof.
  unfold _generate_ai_analysis, prompt_formats, is_number.
  destruct (client rt); [| reflexivity].
  destruct (as_num (get app "loan_amount" (PInt 0))); [| discriminate].
  destruct (as_num (get app "property_value" (PInt 0))); [| discriminate].
  reflexivity.
Qed.

Lemma generate_ai_analysis_returns rt app s cat rf pf' :
  prompt_formats rt app = true ->
  exists ai, _generate_ai_analysis rt app s cat rf pf' = Some ai.
Proof.
  unfold _generate_ai_analysis, prompt_formats, is_number.
  destruct (client rt); [| eauto].
  destruct (as_num (get app "loan_amount" (PInt 0))); [| discriminate].
  destruct (as_num (get app "property_value" (PInt 0))); [| discriminate].
  cbn. eauto.
Qed.

(** What a returned report holds, field by field. *)
Lemma score_application_Some rt app pf lf sf r :
  score_application rt app pf lf sf = Some r ->
  exists c d l e m,
    as_num (get app "credit_score" (PInt 680)) = Some c /\
    as_num (get app "dti" (PInt 36)) = Some d /\
    as_num (get app "ltv" (PInt 80)) = Some l /\
    as_num (get app "employment_years" (PInt 2)) = Some e /\
    as_num (get app "reserves_months" (PInt 3)) = Some m /\
    credit_component r = _calculate_credit_risk c /\
    dti_component r = _calculate_dti_risk d /\
    ltv_component r = _calculate_ltv_risk l /\
    employment_component r = _calculate_employment_risk e /\
    reserves_component r = _calculate_reserves_risk m /\
    base_score r =
      credit_component r * 0.35 + dti_component r * 0.25 +
      ltv_component r * 0.20 + employment_component r * 0.10 +
      reserves_component r * 0.10 /\
    ((supplied pf || supplied lf || supplied sf = false /\
      modifier_breakdown r = [] /\ total_modifier_adjustment r = 0.0)
     \/
     (supplied pf || supplied lf || supplied sf = true /\
      (exists t,
         extract_traditional_features rt app = Some t /\
         modifier_breakdown r =
           _calculate_modifiers
             (mkCombinedFeatures t
                (default ProfessionalFeatures_default pf)
                (default LifestyleFeatures_default lf)
                (default SocialConnectednessFeatures_default sf))) /\
      total_modifier_adjustment r =
        Py.max (- inject_Z MAX_MODIFIER_ADJUSTMENT)
          (Py.min (inject_Z MAX_MODIFIER_ADJUSTMENT)
             (dict_values_sum (modifier_breakdown r))))) /\
    risk_score r =
      Py.round (Py.max 0 (Py.min 100 (base_score r + total_modifier_adjustment r))) /\
    (risk_category r, recommendation r) = categorize (risk_score r) /\
    credit_score r = get app "credit_score" (PInt 680) /\
    dti_ratio r = get app "dti" (PInt 36) /\
    ltv_ratio r = get app "ltv" (PInt 80) /\
    prompt_formats rt app = true.
Proof.
  unfold score_application. intros H.
  destruct traditional_weights as (W1 & W2 & W3 & W4 & W5).
  rewrite W1, W2, W3, W4, W5 in H. clear W1 W2 W3 W4 W5.
  destruct (as_num (get app "credit_score" (PInt 680))) as [c|]; [|discriminate].
  destruct (as_num (get app "dti" (PInt 36))) as [d|]; [|discriminate].
  destruct (as_num (get app "ltv" (PInt 80))) as [l|]; [|discriminate].
  destruct (as_num (get app "employment_years" (PInt 2))) as [e|]; [|discriminate].
  destruct (as_num (get app "reserves_months" (PInt 3))) as [m|]; [|discriminate].
  exists c, d, l, e, m.
  cbn [mbind option_bind] in H.
  destruct (supplied pf || supplied lf || supplied sf).
  - destruct (extract_traditional_features rt app) as [t|]; [|discriminate].
    cbn [mbind option_bind fst snd] in H.
    destruct (_generate_ai_analysis _ _ _ _ _ _) as [ai|] eqn:Hai; [|discriminate].
    apply generate_ai_analysis_Some in Hai.
    cbn [mbind option_bind] in H. apply (inj Some) in H. subst r. report_fields.
    repeat split; try reflexivity; try exact Hai.
    + right. repeat split. exists t. split; reflexivity.
    + symmetry. apply surjective_pairing.
  - cbn [mbind option_bind fst snd] in H.
    destruct (_generate_ai_analysis _ _ _ _ _ _) as [ai|] eqn:Hai; [|discriminate].
    apply generate_ai_analysis_Some in Hai.
    cbn [mbind option_bind] in H. apply (inj Some) in H. subst r. report_fields.
    repeat split; try reflexivity; try exact Hai.
    + left. repeat split.
    + symmetry. apply surjective_pairing.
Qed.

Lemma is_number_Some v : is_number v = true -> exists q, as_num v = Some q.
Proof. unfold is_number. destruct (as_num v); [eauto | discriminate]. Qed.

(** On a scorable call the method returns a report. *)
Lemma score_application_returns rt app pf lf sf :
  scorable rt app pf lf sf = true ->
  exists r, score_application rt app pf lf sf = Some r.
Proof.
  unfold scorable. rewrite !andb_true_iff.
  intros [[[[[[Hc Hd] Hl] He] Hm] Hx] Ha].
  apply is_number_Some in Hc as [c Hc], Hd as [d Hd], Hl as [l Hl],
    He as [e He], Hm as [m Hm].
  unfold score_application. rewrite Hc, Hd, Hl, He, Hm.
  cbn [mbind option_bind].
  assert (Hai : forall s cat rf pf', exists ai,
             _generate_ai_analysis rt app s cat rf pf' = Some ai).
  { intros. now apply generate_ai_analysis_returns. }
  destruct (supplied pf || supplied lf || supplied sf).
  - destruct (extract_traditional_features rt app) as [t|]; [|discriminate].
    cbn [mbind option_bind fst snd].
    match goal with |- context [_generate_ai_analysis ?a ?b ?c ?d ?e ?f] =>
      destruct (Hai c d e f) as [ai ->] end.
    cbn [mbind option_bind]. eauto.
  - cbn [mbind option_bind fst snd].
    match goal with |- context [_generate_ai_analysis ?a ?b ?c ?d ?e ?f] =>
      destruct (Hai c d e f) as [ai ->] end.
    cbn [mbind option_bind]. eauto.
Qed.

(** The scorable calls are exactly the calls that return. *)
Lemma score_application_returns_iff rt app pf lf sf :
  scorable rt app pf lf sf = true <->
  exists r, score_application rt app pf lf sf = Some r.
Proof.
  split; [apply score_application_returns |].
  intros [r Hr].
  destruct (score_application_Some _ _ _ _ _ _ Hr)
    as (c & d & l & e & m & Ec & Ed & El & Ee & Em & _ & _ & _ & _ & _ & _
        & Hmod & _ & _ & _ & _ & _ & Hai).
  unfold scorable, is_number. rewrite Ec, Ed, El, Ee, Em, Hai.
  destruct Hmod as [(-> & _) | (-> & (t & -> & _) & _)]; reflexivity.
Qed.

(** The final score is clamped before it is rounded, so the rounded score
    is between 0 and 100. *)
Lemma clamped_round_range x :
  (0 <= Py.round (Py.max 0 (Py.min 100 x)) <= 100)%Z.
Proof.
  destruct (PyFacts.clamp_bounds 0 100 x) as [Hlo Hhi]; [lra |].
  apply PyFacts.round_bounds; assumption.
Qed.

(** C5.  On every application and every combination of feature groups the
    scorer accepts, the report's risk score is an integer between 0 and
    100, the rounding of the base score plus the modifier clamped to
    [0, 100]. *)
Theorem risk_score_in_range rt app pf lf sf :
  scorable rt app pf lf sf = true ->
  exists r,
    score_application rt app pf lf sf = Some r /\
    (0 <= risk_score r <= 100)%Z /\
    risk_score r =
      Py.round (Py.max 0 (Py.min 100 (base_score r + total_modifier_adjustment r))).
Proof.
  intros Hok. destruct (score_application_returns _ _ _ _ _ Hok) as [r Hr].
  exists r. split; [exact Hr |].
  destruct (score_application_Some _ _ _ _ _ _ Hr)
    as (c & d & l & e & m & _ & _ & _ & _ & _ & _ & _ & _ & _ & _ & _ & _
        & Hscore & _).
  split; [| exact Hscore].
  rewrite Hscore. apply clamped_round_range.
Qed.

(** C5 holds at the pathological extremes the claim names, with a feature
    group supplied. *)
Lemma risk_score_in_range_witness :
  scorable offline_runtime extreme_application None (Some gambling_only) None = true /\
  exists r,
    score_application offline_runtime extreme_application
      None (Some gambling_only) None = Some r /\
    (0 <= risk_score r <= 100)%Z /\
    risk_score r =
      Py.round (Py.max 0 (Py.min 100 (base_score r + total_modifier_adjustment r))).
Proof.
  split; [reflexivity |].
  apply (risk_score_in_range offline_runtime extreme_application
           None (Some gambling_only) None).
  reflexivity.
Defined.

(** C6.  On every call the scorer accepts, the total modifier adjustment
    of the report is between -10 and +10. *)
Theorem total_modifier_capped rt app pf lf sf :
  scorable rt app pf lf sf = true ->
  exists r,
    score_application rt app pf lf sf = Some r /\
    -10 <= total_modifier_adjustment r /\ total_modifier_adjustment r <= 10.
Proof.
  intros Hok. destruct (score_application_returns _ _ _ _ _ Hok) as [r Hr].
  exists r. split; [exact Hr |].
  destruct (score_application_Some _ _ _ _ _ _ Hr)
    as (c & d & l & e & m & _ & _ & _ & _ & _ & _ & _ & _ & _ & _ & _ & Hmod & _).
  destruct Hmod as [(_ & _ & ->) | (_ & _ & ->)]; [lra |].
  change (inject_Z MAX_MODIFIER_ADJUSTMENT) with 10.
  apply PyFacts.clamp_bounds. lra.
Qed.

(** C6 at a derived score far outside [0, 1]: the job-stability term alone
    is 402 and the adjustment is capped. *)
Lemma total_modifier_capped_witness :
  scorable offline_runtime robert_blake
    (Some (set_job_stability_score ProfessionalFeatures_default (-100)))
    None None = true /\
  exists r,
    score_application offline_runtime robert_blake
      (Some (set_job_stability_score ProfessionalFeatures_default (-100)))
      None None = Some r /\
    -10 <= total_modifier_adjustment r /\ total_modifier_adjustment r <= 10.
Proof.
  split; [reflexivity |].
  apply (total_modifier_capped offline_runtime robert_blake
           (Some (set_job_stability_score ProfessionalFeatures_default (-100)))
           None None).
  reflexivity.
Defined.

(** C8.  With none of the three feature groups supplied, the report has a
    total modifier adjustment of 0 and an empty modifier breakdown. *)
Theorem no_features_no_modifier rt app :
  scorable rt app None None None = true ->
  exists r,
    score_application rt app None None None = Some r /\
    total_modifier_adjustment r == 0 /\
    modifier_breakdown r = [].
Proof.
  intros Hok. destruct (score_application_returns _ _ _ _ _ Hok) as [r Hr].
  exists r. split; [exact Hr |].
  destruct (score_application_Some _ _ _ _ _ _ Hr)
    as (c & d & l & e & m & _ & _ & _ & _ & _ & _ & _ & _ & _ & _ & _ & Hmod & _).
  destruct Hmod as [(_ & -> & ->) | (Hsup & _)]; [| discriminate Hsup].
  split; reflexivity.
Qed.

Lemma no_features_no_modifier_witness :
  scorable offline_runtime robert_blake None None None = true /\
  exists r,
    score_application offline_runtime robert_blake None None None = Some r /\
    total_modifier_adjustment r == 0 /\
    modifier_breakdown r = [].
Proof.
  split; [reflexivity |].
  apply (no_features_no_modifier offline_runtime robert_blake). reflexivity.
Defined.

(** The number read for a metric whose key the dict holds. *)
Lemma as_num_get_present app k dflt v :
  app !! k = Some v -> as_num (get app k dflt) = as_num v.
Proof. unfold get. now intros ->. Qed.

(** The number read for a metric whose key the dict lacks. *)
Lemma get_missing (app : gmap string pyval) k dflt :
  app !! k = None -> get app k dflt = dflt.
Proof. unfold get. now intros ->. Qed.

(** C1, as the code has it: for credit_score=580, dti=48, ltv=95.6,
    employment_years=1, reserves_months=1 and no feature groups, the risk
    score is 60, the category "Elevated" and the recommendation "Manual
    Review Required". *)
Theorem scenario2_score rt (app : gmap string pyval) :
  app !! "credit_score"%string = Some (PInt 580) ->
  app !! "dti"%string = Some (PInt 48) ->
  app !! "ltv"%string = Some (PFloat 95.6) ->
  app !! "employment_years"%string = Some (PInt 1) ->
  app !! "reserves_months"%string = Some (PInt 1) ->
  scorable rt app None None None = true ->
  exists r,
    score_application rt app None None None = Some r /\
    risk_score r = 60%Z /\
    risk_category r = "Elevated"%string /\
    recommendation r = "Manual Review Required"%string.
Proof.
  intros Hc Hd Hl He Hm Hok.
  destruct (score_application_returns _ _ _ _ _ Hok) as [r Hr].
  exists r. split; [exact Hr |].
  destruct (score_application_Some _ _ _ _ _ _ Hr)
    as (c & d & l & e & m & Ec & Ed & El & Ee & Em & Cc & Cd & Cl & Ce & Cm
        & Hbase & Hmod & Hscore & Hcat & _).
  rewrite (as_num_get_present _ _ _ _ Hc) in Ec.
  rewrite (as_num_get_present _ _ _ _ Hd) in Ed.
  rewrite (as_num_get_present _ _ _ _ Hl) in El.
  rewrite (as_num_get_present _ _ _ _ He) in Ee.
  rewrite (as_num_get_present _ _ _ _ Hm) in Em.
  cbn [as_num] in Ec, Ed, El, Ee, Em.
  apply (inj Some) in Ec, Ed, El, Ee, Em. subst c d l e m.
  destruct Hmod as [(_ & _ & Htm) | (Hsup & _)]; [| discriminate Hsup].
  rewrite Cc, Cd, Cl, Ce, Cm in Hbase.
  rewrite Hbase, Htm in Hscore.
  assert (Hs : risk_score r = 60%Z) by (rewrite Hscore; vm_compute; reflexivity).
  rewrite Hs in Hcat.
  change (categorize 60) with ("Elevated"%string, "Manual Review Required"%string) in Hcat.
  apply pair_equal_spec in Hcat as [Hcat Hrec].
  repeat split; assumption.
Qed.

Lemma scenario2_score_witness :
  exists r,
    score_application offline_runtime robert_blake None None None = Some r /\
    risk_score r = 60%Z /\
    risk_category r = "Elevated"%string /\
    recommendation r = "Manual Review Required"%string.
Proof.
  apply (scenario2_score offline_runtime robert_blake); reflexivity.
Defined.

(** C1 as stated fails on the Robert Blake fixture: the scorer returns 60,
    "Elevated" and "Manual Review Required", not a score in the 80s, "Very
    High" and "Decline"; the fixture's own 84 is the dashboard's figure. *)
Lemma robert_blake_scores_60 :
  exists r,
    score_application offline_runtime robert_blake None None None = Some r /\
    risk_score r = 60%Z /\
    ~ (80 <= risk_score r < 90)%Z /\
    risk_category r = "Elevated"%string /\
    risk_category r <> "Very High"%string /\
    recommendation r = "Manual Review Required"%string /\
    recommendation r <> "Decline"%string /\
    robert_blake !! "current_risk_score"%string = Some (PInt 84).
Proof.
  eexists. split; [vm_compute; reflexivity |].
  report_fields. repeat split; try reflexivity; try lia; discriminate.
Qed.

(** A metric whose key is missing never stops the scorer: its default is a
    number. *)
Lemma missing_metric_is_number (app : gmap string pyval) k z :
  app !! k = None -> is_number (get app k (PInt z)) = true.
Proof. intros H. now rewrite (get_missing _ _ _ H). Qed.

(** C10.  On a call the scorer accepts, a report is returned, and for each
    of the keys credit_score, dti, ltv, employment_years and
    reserves_months that the application dict lacks, the report is computed
    from the default 680, 36, 80, 2 or 3: the default is the metric echoed
    back and the argument of the component function, and the base score,
    risk score, category and recommendation are computed from those
    components as for supplied values. *)
Theorem missing_metrics_use_defaults rt (app : gmap string pyval) pf lf sf :
  scorable rt app pf lf sf = true ->
  exists r,
    score_application rt app pf lf sf = Some r /\
    (app !! "credit_score"%string = None ->
       credit_score r = PInt 680 /\
       credit_component r = _calculate_credit_risk 680) /\
    (app !! "dti"%string = None ->
       dti_ratio r = PInt 36 /\ dti_component r = _calculate_dti_risk 36) /\
    (app !! "ltv"%string = None ->
       ltv_ratio r = PInt 80 /\ ltv_component r = _calculate_ltv_risk 80) /\
    (app !! "employment_years"%string = None ->
       employment_component r = _calculate_employment_risk 2) /\
    (app !! "reserves_months"%string = None ->
       reserves_component r = _calculate_reserves_risk 3) /\
    base_score r =
      credit_component r * 0.35 + dti_component r * 0.25 +
      ltv_component r * 0.20 + employment_component r * 0.10 +
      reserves_component r * 0.10 /\
    risk_score r =
      Py.round (Py.max 0 (Py.min 100 (base_score r + total_modifier_adjustment r))) /\
    (risk_category r, recommendation r) = categorize (risk_score r).
Proof.
  intros Hok. destruct (score_application_returns _ _ _ _ _ Hok) as [r Hr].
  exists r. split; [exact Hr |].
  destruct (score_application_Some _ _ _ _ _ _ Hr)
    as (c & d & l & e & m & Ec & Ed & El & Ee & Em & Cc & Cd & Cl & Ce & Cm
        & Hbase & _ & Hscore & Hcat & Kc & Kd & Kl & _).
  assert (Hdflt : forall k z q,
             app !! k = None -> as_num (get app k (PInt z)) = Some q ->
             q = inject_Z z).
  { intros k z q H E. rewrite (get_missing _ _ _ H) in E.
    apply (inj Some) in E. now subst q. }
  split; [intros H; split;
            [rewrite Kc; now apply get_missing
            | now rewrite Cc, (Hdflt _ _ _ H Ec)] |].
  split; [intros H; split;
            [rewrite Kd; now apply get_missing
            | now rewrite Cd, (Hdflt _ _ _ H Ed)] |].
  split; [intros H; split;
            [rewrite Kl; now apply get_missing
            | now rewrite Cl, (Hdflt _ _ _ H El)] |].
  split; [intros H; now rewrite Ce, (Hdflt _ _ _ H Ee) |].
  split; [intros H; now rewrite Cm, (Hdflt _ _ _ H Em) |].
  split; [exact Hbase |]. split; [exact Hscore | exact Hcat].
Qed.

(** C10 on the empty dict: all five defaults are used and the score is the
    one of credit_score=680, dti=36, ltv=80, employment_years=2,
    reserves_months=3. *)
Lemma missing_metrics_use_defaults_witness :
  scorable offline_runtime ∅ None None None = true /\
  exists r,
    score_application offline_runtime ∅ None None None = Some r /\
    credit_score r = PInt 680 /\
    credit_component r = _calculate_credit_risk 680 /\
    dti_ratio r = PInt 36 /\
    dti_component r = _calculate_dti_risk 36 /\
    ltv_ratio r = PInt 80 /\
    ltv_component r = _calculate_ltv_risk 80 /\
    employment_component r = _calculate_employment_risk 2 /\
    reserves_component r = _calculate_reserves_risk 3.
Proof.
  split; [reflexivity |].
  destruct (missing_metrics_use_defaults offline_runtime ∅ None None None)
    as (r & Hr & Hc & Hd & Hl & He & Hm & _); [reflexivity |].
  exists r. split; [exact Hr |].
  destruct (Hc (lookup_empty _)) as [? ?].
  destruct (Hd (lookup_empty _)) as [? ?].
  destruct (Hl (lookup_empty _)) as [? ?].
  pose proof (He (lookup_empty _)). pose proof (Hm (lookup_empty _)).
  repeat split; assumption.
Defined.

(** The entries of the modifier breakdown: one term per derived score, and
    one flat penalty per red flag that is set. *)
Lemma modifiers_entries features :
  let mb := _calculate_modifiers features in
  dict_lookup mb "professional_credibility" =
    Some ((0.5 - professional_credibility_score (professional features)) * 2.0 * 2) /\
  dict_lookup mb "job_stability" =
    Some ((0.5 - job_stability_score (professional features)) * 2.0 * 2) /\
  dict_lookup mb "lifestyle_stability" =
    Some ((0.5 - lifestyle_stability_score (lifestyle features)) * 1.5 * 2) /\
  dict_lookup mb "income_lifestyle_alignment" =
    Some ((0.5 - income_lifestyle_alignment (lifestyle features)) * 1.5 * 2) /\
  dict_lookup mb "social_support" =
    Some ((0.5 - social_support_score (social features)) * 1.0 * 2) /\
  dict_lookup mb "community_rootedness" =
    Some ((0.5 - community_rootedness_score (social features)) * 1.0 * 2) /\
  dict_lookup mb "relationship_stability" =
    Some ((0.5 - relationship_stability_score (social features)) * 1.0 * 2) /\
  dict_lookup mb "gambling_flag" =
    (if gambling_indicators (lifestyle features) then Some 3.0 else None) /\
  dict_lookup mb "substance_flag" =
    (if substance_use_indicators (lifestyle features) then Some 2.0 else None) /\
  dict_lookup mb "job_hopping_flag" =
    (if frequent_job_changes (professional features) then Some 1.5 else None) /\
  dict_lookup mb "isolation_flag" =
    (if social_isolation_indicators (social features) then Some 1.0 else None).
Proof.
  unfold _calculate_modifiers.
  destruct modifier_weights as (-> & -> & -> & -> & -> & -> & ->).
  destruct (gambling_indicators (lifestyle features)),
    (substance_use_indicators (lifestyle features)),
    (frequent_job_changes (professional features)),
    (social_isolation_indicators (social features));
    cbn [dict_set dict_lookup String.eqb Ascii.eqb Bool.eqb];
    repeat split.
Qed.

(** The sum of the breakdown: the seven terms and the penalties of the
    flags that are set. *)
Lemma modifiers_sum features :
  dict_values_sum (_calculate_modifiers features) ==
    (0.5 - professional_credibility_score (professional features)) * 2.0 * 2 +
    (0.5 - job_stability_score (professional features)) * 2.0 * 2 +
    (0.5 - lifestyle_stability_score (lifestyle features)) * 1.5 * 2 +
    (0.5 - income_lifestyle_alignment (lifestyle features)) * 1.5 * 2 +
    (0.5 - social_support_score (social features)) * 1.0 * 2 +
    (0.5 - community_rootedness_score (social features)) * 1.0 * 2 +
    (0.5 - relationship_stability_score (social features)) * 1.0 * 2 +
    (if gambling_indicators (lifestyle features) then 3.0 else 0) +
    (if substance_use_indicators (lifestyle features) then 2.0 else 0) +
    (if frequent_job_changes (professional features) then 1.5 else 0) +
    (if social_isolation_indicators (social features) then 1.0 else 0).
Proof.
  unfold _calculate_modifiers, dict_values_sum.
  destruct modifier_weights as (-> & -> & -> & -> & -> & -> & ->).
  destruct (gambling_indicators (lifestyle features)),
    (substance_use_indicators (lifestyle features)),
    (frequent_job_changes (professional features)),
    (social_isolation_indicators (social features));
    cbn [dict_set String.eqb Ascii.eqb Bool.eqb fold_left snd];
    lra.
Qed.

(** C7.  When a feature group is supplied, the modifier breakdown of the
    report holds, for each of the seven derived scores [s] with weight [w],
    the term [(0.5 - s) * w * 2], and a flat penalty of 3.0, 2.0, 1.5 or
    1.0 for each red flag that is set (and no entry for a flag that is
    not); the total modifier adjustment is the sum of the seven terms and
    of the penalties of the flags that are set, clamped to [-10, 10]; with
    all derived scores at 0.5 and only the gambling flag set, the breakdown
    holds [gambling_flag = 3.0] and the total modifier adjustment is
    3.0. *)
Theorem modifier_terms rt app pf lf sf :
  let p := default ProfessionalFeatures_default pf in
  let l := default LifestyleFeatures_default lf in
  let s := default SocialConnectednessFeatures_default sf in
  supplied pf || supplied lf || supplied sf = true ->
  scorable rt app pf lf sf = true ->
  exists r,
    score_application rt app pf lf sf = Some r /\
    (dict_lookup (modifier_breakdown r) "professional_credibility" =
       Some ((0.5 - professional_credibility_score p) * 2.0 * 2) /\
     dict_lookup (modifier_breakdown r) "job_stability" =
       Some ((0.5 - job_stability_score p) * 2.0 * 2) /\
     dict_lookup (modifier_breakdown r) "lifestyle_stability" =
       Some ((0.5 - lifestyle_stability_score l) * 1.5 * 2) /\
     dict_lookup (modifier_breakdown r) "income_lifestyle_alignment" =
       Some ((0.5 - income_lifestyle_alignment l) * 1.5 * 2) /\
     dict_lookup (modifier_breakdown r) "social_support" =
       Some ((0.5 - social_support_score s) * 1.0 * 2) /\
     dict_lookup (modifier_breakdown r) "community_rootedness" =
       Some ((0.5 - community_rootedness_score s) * 1.0 * 2) /\
     dict_lookup (modifier_breakdown r) "relationship_stability" =
       Some ((0.5 - relationship_stability_score s) * 1.0 * 2)) /\
    (dict_lookup (modifier_breakdown r) "gambling_flag" =
       (if gambling_indicators l then Some 3.0 else None) /\
     dict_lookup (modifier_breakdown r) "substance_flag" =
       (if substance_use_indicators l then Some 2.0 else None) /\
     dict_lookup (modifier_breakdown r) "job_hopping_flag" =
       (if frequent_job_changes p then Some 1.5 else None) /\
     dict_lookup (modifier_breakdown r) "isolation_flag" =
       (if social_isolation_indicators s then Some 1.0 else None)) /\
    total_modifier_adjustment r ==
      Py.max (-10)
        (Py.min 10
           ((0.5 - professional_credibility_score p) * 2.0 * 2 +
            (0.5 - job_stability_score p) * 2.0 * 2 +
            (0.5 - lifestyle_stability_score l) * 1.5 * 2 +
            (0.5 - income_lifestyle_alignment l) * 1.5 * 2 +
            (0.5 - social_support_score s) * 1.0 * 2 +
            (0.5 - community_rootedness_score s) * 1.0 * 2 +
            (0.5 - relationship_stability_score s) * 1.0 * 2 +
            (if gambling_indicators l then 3.0 else 0) +
            (if substance_use_indicators l then 2.0 else 0) +
            (if frequent_job_changes p then 1.5 else 0) +
            (if social_isolation_indicators s then 1.0 else 0))) /\
    (professional_credibility_score p == 0.5 ->
     job_stability_score p == 0.5 ->
     lifestyle_stability_score l == 0.5 ->
     income_lifestyle_alignment l == 0.5 ->
     social_support_score s == 0.5 ->
     community_rootedness_score s == 0.5 ->
     relationship_stability_score s == 0.5 ->
     gambling_indicators l = true ->
     substance_use_indicators l = false ->
     frequent_job_changes p = false ->
     social_isolation_indicators s = false ->
     dict_lookup (modifier_breakdown r) "gambling_flag" = Some 3.0 /\
     total_modifier_adjustment r == 3.0).
Proof.
  intros p l s Hsup Hok.
  destruct (score_application_returns _ _ _ _ _ Hok) as [r Hr].
  exists r. split; [exact Hr |].
  destruct (score_application_Some _ _ _ _ _ _ Hr)
    as (_ & _ & _ & _ & _ & _ & _ & _ & _ & _ & _ & _ & _ & _ & _ & _
        & Hmod & _).
  destruct Hmod as [(Hno & _) | (_ & (t & _ & Hmb) & Htm)]; [congruence |].
  fold p l s in Hmb.
  pose proof (modifiers_entries (mkCombinedFeatures t p l s)) as Hent.
  pose proof (modifiers_sum (mkCombinedFeatures t p l s)) as Hsum.
  cbv zeta in Hent. rewrite <- Hmb in Hent, Hsum.
  cbn [professional lifestyle social] in Hent, Hsum.
  destruct Hent as (E1 & E2 & E3 & E4 & E5 & E6 & E7 & F1 & F2 & F3 & F4).
  split; [repeat split; assumption |].
  split; [repeat split; assumption |].
  split.
  { rewrite Htm. change (inject_Z MAX_MODIFIER_ADJUSTMENT) with 10.
    change (- (10)) with (-10).
    apply PyFacts.clamp_compat. exact Hsum. }
  intros S1 S2 S3 S4 S5 S6 S7 G1 G2 G3 G4.
  rewrite G1 in F1. split; [exact F1 |].
  rewrite G1, G2, G3, G4 in Hsum.
  assert (H3 : dict_values_sum (modifier_breakdown r) == 3.0) by lra.
  rewrite Htm. change (inject_Z MAX_MODIFIER_ADJUSTMENT) with 10.
  transitivity (dict_values_sum (modifier_breakdown r)); [| exact H3].
  apply PyFacts.clamp_id; lra.
Qed.

(** C7 on the scenario itself: only [LifestyleFeatures] supplied, with
    nothing but the gambling flag set. *)
Lemma modifier_terms_witness :
  exists r,
    score_application offline_runtime robert_blake
      None (Some gambling_only) None = Some r /\
    dict_lookup (modifier_breakdown r) "gambling_flag" = Some 3.0 /\
    total_modifier_adjustment r == 3.0.
Proof.
  destruct (modifier_terms offline_runtime robert_blake
              None (Some gambling_only) None)
    as (r & Hr & _ & _ & _ & Hscenario); [reflexivity | reflexivity |].
  exists r. split; [exact Hr |].
  apply Hscenario; reflexivity.
Defined.

(** ** The derived scores of the feature structs *)

(** Peel the successive binds of a computation known to return. *)
Ltac bind_cases H :=
  repeat match type of H with
    | mbind _ ?m = Some _ =>
        let x := fresh "x" in
        destruct m as [x |]; cbn [mbind option_bind] in H;
        [| discriminate H]
    end.

(** The derived-score formulas read raw fields only, so storing a derived
    score changes none of them. *)
Lemma professional_scores_stored f :
  let f1 := set_job_stability_score f (_calculate_job_stability_score f) in
  let f2 :=
    set_professional_credibility_score f1
      (_calculate_professional_credibility_score f1) in
  job_stability_score f2 = _calculate_job_stability_score f2 /\
  professional_credibility_score f2 = _calculate_professional_credibility_score f2.
Proof. split; reflexivity. Qed.

Lemma lifestyle_scores_stored f :
  let f1 := set_lifestyle_stability_score f (_calculate_lifestyle_stability_score f) in
  let f2 :=
    set_income_lifestyle_alignment f1 (_calculate_income_lifestyle_alignment f1) in
  lifestyle_stability_score f2 = _calculate_lifestyle_stability_score f2 /\
  income_lifestyle_alignment f2 = _calculate_income_lifestyle_alignment f2.
Proof. split; reflexivity. Qed.

Lemma social_scores_stored f :
  let f1 := set_social_support_score f (_calculate_social_support_score f) in
  let f2 :=
    set_community_rootedness_score f1 (_calculate_community_rootedness_score f1) in
  let f3 :=
    set_relationship_stability_score f2
      (_calculate_relationship_stability_score f2) in
  social_support_score f3 = _calculate_social_support_score f3 /\
  community_rootedness_score f3 = _calculate_community_rootedness_score f3 /\
  relationship_stability_score f3 = _calculate_relationship_stability_score f3.
Proof. repeat split; reflexivity. Qed.

(** C9, as the code has it: a feature struct built by
    [_build_professional_features], [_build_lifestyle_features] or
    [_build_social_features] stores, for each of its derived scores, the
    value of the derived-score formula on its own raw fields. *)
Theorem built_features_store_derived_scores rt ep el es p l s :
  _build_professional_features rt ep = Some p ->
  _build_lifestyle_features el = Some l ->
  _build_social_features rt es = Some s ->
  job_stability_score p = _calculate_job_stability_score p /\
  professional_credibility_score p = _calculate_professional_credibility_score p /\
  lifestyle_stability_score l = _calculate_lifestyle_stability_score l /\
  income_lifestyle_alignment l = _calculate_income_lifestyle_alignment l /\
  social_support_score s = _calculate_social_support_score s /\
  community_rootedness_score s = _calculate_community_rootedness_score s /\
  relationship_stability_score s = _calculate_relationship_stability_score s.
Proof.
  intros Hp Hl Hs.
  unfold _build_professional_features in Hp. bind_cases Hp.
  unfold _build_lifestyle_features in Hl. bind_cases Hl.
  unfold _build_social_features in Hs. bind_cases Hs.
  apply (inj Some) in Hp, Hl, Hs. subst p l s.
  split; [apply professional_scores_stored |].
  split; [apply professional_scores_stored |].
  split; [apply lifestyle_scores_stored |].
  split; [apply lifestyle_scores_stored |].
  split; [apply social_scores_stored |].
  split; apply social_scores_stored.
Qed.

Lemma built_features_store_derived_scores_witness :
  exists p l s,
    _build_professional_features offline_runtime ∅ = Some p /\
    _build_lifestyle_features ∅ = Some l /\
    _build_social_features offline_runtime ∅ = Some s /\
    job_stability_score p = _calculate_job_stability_score p /\
    professional_credibility_score p = _calculate_professional_credibility_score p /\
    lifestyle_stability_score l = _calculate_lifestyle_stability_score l /\
    income_lifestyle_alignment l = _calculate_income_lifestyle_alignment l /\
    social_support_score s = _calculate_social_support_score s /\
    community_rootedness_score s = _calculate_community_rootedness_score s /\
    relationship_stability_score s = _calculate_relationship_stability_score s.
Proof.
  do 3 eexists.
  split; [reflexivity |]. split; [reflexivity |]. split; [reflexivity |].
  apply (built_features_store_derived_scores offline_runtime ∅ ∅ ∅);
    reflexivity.
Defined.

(** C9 as stated fails on the all-defaults [ProfessionalFeatures]: the
    stored credibility score is the neutral 0.5 while the formula gives
    0.225 on its raw fields, and the scorer consumes the stored value (a
    modifier term of 0, not of 1.1) when another feature group is
    supplied. *)
Lemma default_credibility_score_not_derived :
  professional_credibility_score ProfessionalFeatures_default == 0.5 /\
  _calculate_professional_credibility_score ProfessionalFeatures_default == 0.225 /\
  ~ professional_credibility_score ProfessionalFeatures_default ==
      _calculate_professional_credibility_score ProfessionalFeatures_default /\
  exists r q,
    score_application offline_runtime robert_blake
      None (Some gambling_only) None = Some r /\
    dict_lookup (modifier_breakdown r) "professional_credibility" = Some q /\
    q == 0.
Proof.
  split; [reflexivity |]. split; [reflexivity |].
  split; [intros H; discriminate H |].
  do 2 eexists. split; [vm_compute; reflexivity |].
  split; reflexivity.
Qed.

(** A derived score is an ordinary constructor argument: a caller-supplied
    job-stability score of 0.0 is consumed as it is and contributes 2.0. *)
Lemma supplied_job_stability_is_consumed :
  exists r q,
    score_application offline_runtime robert_blake
      (Some (set_job_stability_score ProfessionalFeatures_default 0.0))
      None None = Some r /\
    dict_lookup (modifier_breakdown r) "job_stability" = Some q /\
    q == 2.0 /\
    total_modifier_adjustment r == 2.0.
Proof.
  do 2 eexists. split; [vm_compute; reflexivity |].
  repeat split; reflexivity.
Qed.

(** ** The concrete cases in binary64 arithmetic *)

Module Binary64Facts.
Import PrimFloat.
Local Open Scope float_scope.

(** At 800 the credit component is the float 10.0, at 850 it is 5.0. *)
Lemma credit_risk_at_800_binary64 :
  eqb (Binary64._calculate_credit_risk 800) 10 = true /\
  eqb (Binary64._calculate_credit_risk 850) 5 = true.
Proof. split; vm_compute; reflexivity. Qed.

(** From 739 to 740, and from 669 to 670, the credit component rises. *)
Lemma credit_risk_rises_binary64 :
  ltb (Binary64._calculate_credit_risk 739) (Binary64._calculate_credit_risk 740) = true /\
  ltb (Binary64._calculate_credit_risk 669) (Binary64._calculate_credit_risk 670) = true.
Proof. split; vm_compute; reflexivity. Qed.

(** A credit score of 0 and -5 employment years give components above
    100. *)
Lemma components_exceed_100_binary64 :
  ltb 100 (Binary64._calculate_credit_risk 0) = true /\
  ltb 100 (Binary64._calculate_employment_risk (-5)) = true.
Proof. split; vm_compute; reflexivity. Qed.

(** The base score of the Robert Blake metrics lies strictly between 59.5
    and 60.5, so it rounds to 60. *)
Lemma robert_blake_base_score_binary64 :
  ltb 59.5 (Binary64.base_score 580 48 95.6 1 1) = true /\
  ltb (Binary64.base_score 580 48 95.6 1 1) 60.5 = true.
Proof. split; vm_compute; reflexivity. Qed.

End Binary64Facts.

(** * Further properties of the code *)

(** ** Ranges of the derived scores and of the modifier terms *)

Lemma unit_clamp x : 0 <= Py.max 0.0 (Py.min 1.0 x) /\ Py.max 0.0 (Py.min 1.0 x) <= 1.
Proof. destruct (PyFacts.clamp_bounds 0.0 1.0 x); [lra |]. split; lra. Qed.

(** X1.  Each of the seven derived-score formulas returns a value between
    0 and 1, whatever the raw fields of the struct hold. *)
Theorem derived_scores_in_unit_interval
    (p : ProfessionalFeatures) (l : LifestyleFeatures)
    (s : SocialConnectednessFeatures) :
  (0 <= _calculate_job_stability_score p /\
   _calculate_job_stability_score p <= 1) /\
  (0 <= _calculate_professional_credibility_score p /\
   _calculate_professional_credibility_score p <= 1) /\
  (0 <= _calculate_lifestyle_stability_score l /\
   _calculate_lifestyle_stability_score l <= 1) /\
  (0 <= _calculate_income_lifestyle_alignment l /\
   _calculate_income_lifestyle_alignment l <= 1) /\
  (0 <= _calculate_social_support_score s /\
   _calculate_social_support_score s <= 1) /\
  (0 <= _calculate_community_rootedness_score s /\
   _calculate_community_rootedness_score s <= 1) /\
  (0 <= _calculate_relationship_stability_score s /\
   _calculate_relationship_stability_score s <= 1).
Proof.
  unfold _calculate_job_stability_score,
    _calculate_professional_credibility_score,
    _calculate_lifestyle_stability_score,
    _calculate_income_lifestyle_alignment,
    _calculate_social_support_score,
    _calculate_community_rootedness_score,
    _calculate_relationship_stability_score.
  cbv zeta. repeat split; apply unit_clamp.
Qed.

(** X2.  With every stored derived score between 0 and 1, each of the
    seven modifier terms stays within its weight (2, 2, 1.5, 1.5, 1, 1, 1),
    and the sum of the whole breakdown, flags included, lies between -10
    and 17.5; without a red flag it lies between -10 and 10. *)
Theorem modifier_terms_within_weights features :
  unit_scores features ->
  let mb := _calculate_modifiers features in
  (forall k w v,
     In (k, w) [("professional_credibility", 2); ("job_stability", 2);
                ("lifestyle_stability", 1.5); ("income_lifestyle_alignment", 1.5);
                ("social_support", 1); ("community_rootedness", 1);
                ("relationship_stability", 1)]%string ->
     dict_lookup mb k = Some v -> - w <= v /\ v <= w) /\
  -10 <= dict_values_sum mb /\ dict_values_sum mb <= 17.5 /\
  (no_red_flag features = true -> dict_values_sum mb <= 10).
Proof.
  intros (H1 & H2 & H3 & H4 & H5 & H6 & H7) mb.
  pose proof (modifiers_entries features) as Hent. cbv zeta in Hent. fold mb in Hent.
  destruct Hent as (E1 & E2 & E3 & E4 & E5 & E6 & E7 & _).
  pose proof (modifiers_sum features) as Hsum. fold mb in Hsum.
  split.
  - intros k w v Hin Hk. cbn [In] in Hin.
    repeat (destruct Hin as [Hin | Hin];
            [injection Hin as <- <-;
             first [rewrite E1 in Hk | rewrite E2 in Hk | rewrite E3 in Hk
                   | rewrite E4 in Hk | rewrite E5 in Hk | rewrite E6 in Hk
                   | rewrite E7 in Hk];
             apply (inj Some) in Hk; subst v; split; lra |]).
    destruct Hin.
  - unfold no_red_flag.
    destruct (gambling_indicators (lifestyle features)),
      (substance_use_indicators (lifestyle features)),
      (frequent_job_changes (professional features)),
      (social_isolation_indicators (social features));
      cbn [negb andb]; repeat split; intros; try discriminate; lra.
Qed.

(** ** The base components and the traditional-only score on the documented domain *)

(** X3.  On the documented input domains the components stay in fixed
    ranges: credit scores 300-850 give 5 to 80.11, a DTI of 0 or more
    gives 5 to 90, an LTV of 0 or more gives 5 to 85, 0 or more employment
    years give 10 to 70, and 0 or more reserve months give 5 to 75. *)
Theorem component_ranges_on_domain (x : Q) :
  (300 <= x -> x <= 850 ->
     5 <= _calculate_credit_risk x /\ _calculate_credit_risk x <= 80.11) /\
  (0 <= x ->
     5 <= _calculate_dti_risk x /\ _calculate_dti_risk x <= 90) /\
  (0 <= x ->
     5 <= _calculate_ltv_risk x /\ _calculate_ltv_risk x <= 85) /\
  (0 <= x ->
     10 <= _calculate_employment_risk x /\ _calculate_employment_risk x <= 70) /\
  (0 <= x ->
     5 <= _calculate_reserves_risk x /\ _calculate_reserves_risk x <= 75).
Proof.
  unfold _calculate_credit_risk, _calculate_dti_risk, _calculate_ltv_risk,
    _calculate_employment_risk, _calculate_reserves_risk.
  split; [| split; [| split; [| split]]]; intros; py_cases; split; lra.
Qed.

Lemma component_ranges_on_domain_witness :
  (5 <= _calculate_credit_risk 300 /\ _calculate_credit_risk 300 <= 80.11) /\
  (5 <= _calculate_dti_risk 0 /\ _calculate_dti_risk 0 <= 90) /\
  (5 <= _calculate_ltv_risk 200 /\ _calculate_ltv_risk 200 <= 85) /\
  (10 <= _calculate_employment_risk 0 /\ _calculate_employment_risk 0 <= 70) /\
  (5 <= _calculate_reserves_risk 0 /\ _calculate_reserves_risk 0 <= 75).
Proof.
  destruct (component_ranges_on_domain 300) as (H & _).
  destruct (component_ranges_on_domain 0) as (_ & Hd & _ & He & Hm).
  destruct (component_ranges_on_domain 200) as (_ & _ & Hl & _).
  split; [apply H; lra |]. split; [apply Hd; lra |].
  split; [apply Hl; lra |]. split; [apply He; lra | apply Hm; lra].
Defined.

(** X4.  The reserves component never rises as the months of reserves
    rise, over all numbers and not only inside a band. *)
Theorem reserves_risk_antitone m1 m2 :
  m1 <= m2 -> _calculate_reserves_risk m2 <= _calculate_reserves_risk m1.
Proof.
  intros H. unfold _calculate_reserves_risk. py_cases; lra.
Qed.

Lemma reserves_risk_antitone_witness :
  _calculate_reserves_risk 12 <= _calculate_reserves_risk (11 + 0.5).
Proof. apply reserves_risk_antitone. lra. Defined.

(** X5.  The DTI, LTV and employment curves are not monotone at their
    seams: just above a DTI of 36 the risk is lower than at 36, just above
    an LTV of 60 it is lower than at 60, and just below 2 employment years
    it is lower than at 2 years. *)
Theorem curves_dip_at_seams x :
  (36 < x -> x < 36 + 0.01 -> _calculate_dti_risk x < _calculate_dti_risk 36) /\
  (60 < x -> x < 60 + 0.1 -> _calculate_ltv_risk x < _calculate_ltv_risk 60) /\
  (2 - 0.0005 < x -> x < 2 ->
     _calculate_employment_risk x < _calculate_employment_risk 2).
Proof.
  unfold _calculate_dti_risk, _calculate_ltv_risk, _calculate_employment_risk.
  split; [| split]; intros; py_cases; lra.
Qed.

Lemma curves_dip_at_seams_witness :
  _calculate_dti_risk 36.005 < _calculate_dti_risk 36 /\
  _calculate_ltv_risk 60.05 < _calculate_ltv_risk 60 /\
  _calculate_employment_risk 1.9999 < _calculate_employment_risk 2.
Proof.
  split; [apply (proj1 (curves_dip_at_seams 36.005)); lra |].
  split; [apply (proj1 (proj2 (curves_dip_at_seams 60.05))); lra |].
  apply (proj2 (proj2 (curves_dip_at_seams 1.9999))); lra.
Defined.

(** Rounding is monotone. *)
Lemma round_mono x y : x <= y -> (Py.round x <= Py.round y)%Z.
Proof.
  intros Hxy.
  assert (Hf : (Qfloor x <= Qfloor y)%Z) by now apply Qfloor_resp_le.
  pose proof (Qfloor_le x) as Hx1. pose proof (Qlt_floor x) as Hx2.
  pose proof (Qfloor_le y) as Hy1. pose proof (Qlt_floor y) as Hy2.
  rewrite inject_Z_plus in Hx2, Hy2.
  unfold Py.round.
  destruct (Z.eq_dec (Qfloor x) (Qfloor y)) as [E | E].
  - rewrite <- E in *.
    destruct (PyFacts.lt_spec (x - inject_Z (Qfloor x)) 0.5);
      destruct (PyFacts.lt_spec (y - inject_Z (Qfloor x)) 0.5);
      destruct (PyFacts.gt_spec (x - inject_Z (Qfloor x)) 0.5);
      destruct (PyFacts.gt_spec (y - inject_Z (Qfloor x)) 0.5);
      destruct (Z.even (Qfloor x)); try lia; exfalso; lra.
  - assert (Hlt : (Qfloor x + 1 <= Qfloor y)%Z) by lia.
    destruct (PyFacts.lt_spec (x - inject_Z (Qfloor x)) 0.5);
      destruct (PyFacts.lt_spec (y - inject_Z (Qfloor y)) 0.5);
      destruct (PyFacts.gt_spec (x - inject_Z (Qfloor x)) 0.5);
      destruct (PyFacts.gt_spec (y - inject_Z (Qfloor y)) 0.5);
      destruct (Z.even (Qfloor x)); destruct (Z.even (Qfloor y)); lia.
Qed.



(** X7.  When a feature group is supplied, every stored derived score is
    between 0 and 1 and no red flag is set, the cap of +/-10 changes
    nothing: the total modifier adjustment is the plain sum of the seven
    terms of the breakdown. *)
Theorem cap_inactive_without_flags rt app pf lf sf t :
  let features :=
    mkCombinedFeatures t
      (default ProfessionalFeatures_default pf)
      (default LifestyleFeatures_default lf)
      (default SocialConnectednessFeatures_default sf) in
  supplied pf || supplied lf || supplied sf = true ->
  extract_traditional_features rt app = Some t ->
  scorable rt app pf lf sf = true ->
  unit_scores features ->
  no_red_flag features = true ->
  exists r,
    score_application rt app pf lf sf = Some r /\
    modifier_breakdown r = _calculate_modifiers features /\
    total_modifier_adjustment r == dict_values_sum (modifier_breakdown r).
Proof.
  intros features Hsup Ht Hok Hunit Hflags.
  destruct (score_application_returns _ _ _ _ _ Hok) as [r Hr].
  exists r. split; [exact Hr |].
  destruct (score_application_Some _ _ _ _ _ _ Hr)
    as (_ & _ & _ & _ & _ & _ & _ & _ & _ & _ & _ & _ & _ & _ & _ & _
        & Hmod & _).
  destruct Hmod as [(Hno & _) | (_ & (t' & Ht' & Hmb) & Htm)]; [congruence |].
  rewrite Ht in Ht'. apply (inj Some) in Ht'. subst t'. fold features in Hmb.
  split; [exact Hmb |].
  destruct (modifier_terms_within_weights features Hunit) as (_ & Hlo & _ & Hhi).
  cbv zeta in Hlo, Hhi. specialize (Hhi Hflags). rewrite <- Hmb in Hlo, Hhi.
  rewrite Htm. change (inject_Z MAX_MODIFIER_ADJUSTMENT) with 10.
  apply PyFacts.clamp_id; lra.
Qed.

Lemma cap_inactive_without_flags_witness :
  exists r,
    score_application offline_runtime robert_blake
      (Some ProfessionalFeatures_default) None None = Some r /\
    total_modifier_adjustment r == dict_values_sum (modifier_breakdown r).
Proof.
  assert (Ht : exists t,
             extract_traditional_features offline_runtime robert_blake = Some t)
    by (eexists; reflexivity).
  destruct Ht as [t Ht].
  destruct (cap_inactive_without_flags offline_runtime robert_blake
              (Some ProfessionalFeatures_default) None None t)
    as (r & Hr & _ & Hsum);
    [reflexivity | exact Ht | reflexivity | | reflexivity |].
  - unfold unit_scores. cbn.
    repeat split; lra.
  - exists r. split; assumption.
Defined.

(** ** The risk-factor and positive-factor lists *)

(** The two factor lists of a returned report. *)
Lemma score_application_factors rt app pf lf sf r :
  score_application rt app pf lf sf = Some r ->
  exists c d l e m,
    as_num (get app "credit_score" (PInt 680)) = Some c /\
    as_num (get app "dti" (PInt 36)) = Some d /\
    as_num (get app "ltv" (PInt 80)) = Some l /\
    as_num (get app "employment_years" (PInt 2)) = Some e /\
    as_num (get app "reserves_months" (PInt 3)) = Some m /\
    (risk_factors r, positive_factors r) =
      modifier_factors (modifier_breakdown r)
        (threshold_factors rt
           (get app "credit_score" (PInt 680)) (get app "dti" (PInt 36))
           (get app "ltv" (PInt 80)) (get app "employment_years" (PInt 2))
           (get app "reserves_months" (PInt 3)) c d l e m).
Proof.
  unfold score_application. intros H.
  destruct (as_num (get app "credit_score" (PInt 680))) as [c|]; [|discriminate].
  destruct (as_num (get app "dti" (PInt 36))) as [d|]; [|discriminate].
  destruct (as_num (get app "ltv" (PInt 80))) as [l|]; [|discriminate].
  destruct (as_num (get app "employment_years" (PInt 2))) as [e|]; [|discriminate].
  destruct (as_num (get app "reserves_months" (PInt 3))) as [m|]; [|discriminate].
  exists c, d, l, e, m.
  cbn [mbind option_bind] in H.
  destruct (supplied pf || supplied lf || supplied sf);
    [destruct (extract_traditional_features rt app) as [t|]; [|discriminate] |];
    cbn [mbind option_bind fst snd] in H;
    (destruct (_generate_ai_analysis _ _ _ _ _ _) as [ai|]; [|discriminate]);
    cbn [mbind option_bind] in H; apply (inj Some) in H; subst r; report_fields;
    (repeat split; try reflexivity); symmetry; apply surjective_pairing.
Qed.

Lemma threshold_factors_blocks rt vc vd vl ve vm c d l e m :
  threshold_factors rt vc vd vl ve vm c d l e m =
  threshold_block (Py.lt m 3) (Py.ge m 6)
    ("Limited reserves (" +:+ str_of rt vm +:+ " months)")
    ("Strong reserves (" +:+ str_of rt vm +:+ " months)")
    (threshold_block (Py.lt e 2) (Py.ge e 5)
       ("Short employment history (" +:+ str_of rt ve +:+ " years)")
       ("Stable employment (" +:+ str_of rt ve +:+ "+ years)")
       (threshold_block (Py.gt l 90) (Py.le l 80)
          ("High LTV ratio (" +:+ str_of rt vl +:+ "%) - minimal equity")
          ("Conservative LTV (" +:+ str_of rt vl +:+ "%) - good equity position")
          (threshold_block (Py.gt d 43) (Py.le d 28)
             ("High DTI ratio (" +:+ str_of rt vd +:+ "%)")
             ("Low DTI ratio (" +:+ str_of rt vd +:+ "%)")
             (threshold_block (Py.lt c 620) (Py.ge c 740)
                ("Poor credit score (" +:+ str_of rt vc +:+ ")")
                ("Excellent credit score (" +:+ str_of rt vc +:+ ")")
                ([], []))))).
Proof. reflexivity. Qed.

Lemma threshold_block_lists b1 b2 s1 s2 f :
  fst (threshold_block b1 b2 s1 s2 f) = fst f ++ (if b1 then [s1] else []) /\
  snd (threshold_block b1 b2 s1 s2 f) =
    snd f ++ (if b1 then [] else if b2 then [s2] else []).
Proof.
  unfold threshold_block, append_risk, append_positive.
  destruct b1, b2; cbn [fst snd]; rewrite ?app_nil_r; split; reflexivity.
Qed.

Lemma threshold_block_count b1 b2 s1 s2 f :
  (factor_count (threshold_block b1 b2 s1 s2 f) <= S (factor_count f))%nat.
Proof.
  unfold factor_count.
  destruct (threshold_block_lists b1 b2 s1 s2 f) as [-> ->].
  rewrite !length_app. destruct b1, b2; cbn [length]; lia.
Qed.

Lemma risk_piece_nil (b : bool) (s : string) :
  (if b then [s] else []) = [] <-> b = false.
Proof. destruct b; split; congruence. Qed.

Lemma positive_piece_nil (b1 b2 : bool) (s : string) :
  (if b1 then [] else if b2 then [s] else []) = [] <-> b1 = true \/ b2 = false.
Proof. destruct b1, b2; split; intros; try tauto; try discriminate.
  destruct H; discriminate. Qed.

Lemma threshold_factors_spec rt vc vd vl ve vm c d l e m :
  let f := threshold_factors rt vc vd vl ve vm c d l e m in
  (factor_count f <= 5)%nat /\
  (fst f = [] <-> 620 <= c /\ d <= 43 /\ l <= 90 /\ 2 <= e /\ 3 <= m) /\
  (snd f = [] <-> c < 740 /\ 28 < d /\ 80 < l /\ e < 5 /\ m < 6).
Proof.
  cbv zeta. rewrite threshold_factors_blocks.
  split.
  - repeat (etransitivity; [apply threshold_block_count |]; apply le_n_S).
    unfold factor_count. cbn. lia.
  - repeat match goal with
      | |- context [fst (threshold_block ?a ?b ?s ?t ?f)] =>
          rewrite (proj1 (threshold_block_lists a b s t f))
      | |- context [snd (threshold_block ?a ?b ?s ?t ?f)] =>
          rewrite (proj2 (threshold_block_lists a b s t f))
      end.
    cbn [fst snd]. rewrite !app_nil, !risk_piece_nil, !positive_piece_nil.
    destruct (PyFacts.lt_spec c 620), (PyFacts.ge_spec c 740),
      (PyFacts.gt_spec d 43), (PyFacts.le_spec d 28);
      destruct (PyFacts.gt_spec l 90), (PyFacts.le_spec l 80);
      destruct (PyFacts.lt_spec e 2), (PyFacts.ge_spec e 5);
      destruct (PyFacts.lt_spec m 3), (PyFacts.ge_spec m 6);
      try (exfalso; lra).
    all: split; split; intros H; decompose [and or] H;
      try discriminate; try (exfalso; lra); repeat split;
      first [reflexivity | lra | (left; reflexivity) | (right; reflexivity)].
Qed.

Lemma modifier_factors_count mb factors :
  (factor_count (modifier_factors mb factors) <= factor_count factors + length mb)%nat.
Proof.
  unfold modifier_factors. revert factors.
  induction mb as [| [key value] mb IH]; intros factors; cbn [fold_left length].
  - lia.
  - etransitivity; [apply IH |].
    unfold factor_count, append_risk, append_positive.
    destruct (Py.gt value 1); [| destruct (Py.lt value (-1))];
      cbn [fst snd]; rewrite ?length_app; cbn [length]; lia.
Qed.

(** X8.  With no feature group supplied, the report names each metric at
    most once: the two factor lists hold at most five entries together;
    the risk-factor list is empty exactly when the credit score is at
    least 620, the DTI at most 43, the LTV at most 90, the employment at
    least 2 years and the reserves at least 3 months; the positive-factor
    list is empty exactly when the credit score is below 740, the DTI above
    28, the LTV above 80, the employment below 5 years and the reserves
    below 6 months. *)
Theorem traditional_factor_lists rt app c d l e m :
  as_num (get app "credit_score" (PInt 680)) = Some c ->
  as_num (get app "dti" (PInt 36)) = Some d ->
  as_num (get app "ltv" (PInt 80)) = Some l ->
  as_num (get app "employment_years" (PInt 2)) = Some e ->
  as_num (get app "reserves_months" (PInt 3)) = Some m ->
  prompt_formats rt app = true ->
  exists r,
    score_application rt app None None None = Some r /\
    (length (risk_factors r) + length (positive_factors r) <= 5)%nat /\
    (risk_factors r = [] <->
       620 <= c /\ d <= 43 /\ l <= 90 /\ 2 <= e /\ 3 <= m) /\
    (positive_factors r = [] <->
       c < 740 /\ 28 < d /\ 80 < l /\ e < 5 /\ m < 6).
Proof.
  intros Ec Ed El Ee Em Hp.
  assert (Hok : scorable rt app None None None = true).
  { unfold scorable, is_number. now rewrite Ec, Ed, El, Ee, Em, Hp. }
  destruct (score_application_returns _ _ _ _ _ Hok) as [r Hr].
  exists r. split; [exact Hr |].
  destruct (score_application_Some _ _ _ _ _ _ Hr)
    as (_ & _ & _ & _ & _ & _ & _ & _ & _ & _ & _ & _ & _ & _ & _ & _
        & Hmod & _).
  destruct Hmod as [(_ & Hmb & _) | (Hsup & _)]; [| discriminate Hsup].
  destruct (score_application_factors _ _ _ _ _ _ Hr)
    as (c' & d' & l' & e' & m' & Ec' & Ed' & El' & Ee' & Em' & Hf).
  rewrite Ec in Ec'. rewrite Ed in Ed'. rewrite El in El'.
  rewrite Ee in Ee'. rewrite Em in Em'.
  apply (inj Some) in Ec', Ed', El', Ee', Em'. subst c' d' l' e' m'.
  rewrite Hmb in Hf. cbn [modifier_factors fold_left] in Hf.
  pose proof (threshold_factors_spec rt
                (get app "credit_score" (PInt 680)) (get app "dti" (PInt 36))
                (get app "ltv" (PInt 80)) (get app "employment_years" (PInt 2))
                (get app "reserves_months" (PInt 3)) c d l e m) as Hspec.
  cbv zeta in Hspec. rewrite <- Hf in Hspec.
  unfold factor_count in Hspec. cbn [fst snd] in Hspec. exact Hspec.
Qed.

Lemma traditional_factor_lists_witness :
  exists r,
    score_application offline_runtime robert_blake None None None = Some r /\
    (length (risk_factors r) + length (positive_factors r) <= 5)%nat /\
    (risk_factors r = [] <->
       620 <= 580 /\ 48 <= 43 /\ 95.6 <= 90 /\ 2 <= 1 /\ 3 <= 1) /\
    (positive_factors r = [] <->
       580 < 740 /\ 28 < 48 /\ 80 < 95.6 /\ 1 < 5 /\ 1 < 6).
Proof.
  apply (traditional_factor_lists offline_runtime robert_blake 580 48 95.6 1 1);
    reflexivity.
Defined.

(** X9.  Whatever feature groups are supplied, the two factor lists of the
    report hold together at most five entries plus one per entry of the
    modifier breakdown, and the breakdown has at most eleven entries. *)
Theorem factor_lists_bounded rt app pf lf sf r :
  score_application rt app pf lf sf = Some r ->
  (length (modifier_breakdown r) <= 11)%nat /\
  (length (risk_factors r) + length (positive_factors r)
   <= 5 + length (modifier_breakdown r))%nat.
Proof.
  intros Hr. split.
  - destruct (score_application_Some _ _ _ _ _ _ Hr)
      as (_ & _ & _ & _ & _ & _ & _ & _ & _ & _ & _ & _ & _ & _ & _ & _
          & Hmod & _).
    destruct Hmod as [(_ & -> & _) | (_ & (t & _ & ->) & _)]; [cbn; lia |].
    unfold _calculate_modifiers.
    match goal with
    | |- context [mkCombinedFeatures t ?p ?l ?s] =>
        generalize p, l, s; intros p' l' s'
    end.
    cbn [professional lifestyle social].
    destruct (gambling_indicators l'), (substance_use_indicators l'),
      (frequent_job_changes p'), (social_isolation_indicators s');
      cbn [dict_set String.eqb Ascii.eqb Bool.eqb length]; lia.
  - destruct (score_application_factors _ _ _ _ _ _ Hr)
      as (c & d & l & e & m & _ & _ & _ & _ & _ & Hf).
    pose proof (modifier_factors_count (modifier_breakdown r)
                  (threshold_factors rt
                     (get app "credit_score" (PInt 680)) (get app "dti" (PInt 36))
                     (get app "ltv" (PInt 80)) (get app "employment_years" (PInt 2))
                     (get app "reserves_months" (PInt 3)) c d l e m)) as Hcount.
    rewrite <- Hf in Hcount.
    destruct (threshold_factors_spec rt
                (get app "credit_score" (PInt 680)) (get app "dti" (PInt 36))
                (get app "ltv" (PInt 80)) (get app "employment_years" (PInt 2))
                (get app "reserves_months" (PInt 3)) c d l e m) as (H5 & _).
    cbv zeta in H5. unfold factor_count in *. cbn [fst snd] in Hcount. lia.
Qed.

Lemma factor_lists_bounded_witness :
  exists r,
    score_application offline_runtime robert_blake
      None (Some gambling_only) None = Some r /\
    (length (modifier_breakdown r) <= 11)%nat /\
    (length (risk_factors r) + length (positive_factors r)
     <= 5 + length (modifier_breakdown r))%nat.
Proof.
  eexists. split; [reflexivity |].
  apply (factor_lists_bounded offline_runtime robert_blake
           None (Some gambling_only) None).
  reflexivity.
Defined.

(** ** What the builders guarantee about the structs they return *)

(** Peel the successive binds of a computation known to return, keeping
    the equation of each step. *)
Ltac bind_cases_eq H :=
  repeat match type of H with
    | mbind _ ?m = Some _ =>
        let x := fresh "x" in
        let E := fresh "E" in
        destruct m as [x |] eqn:E; cbn [mbind option_bind] in H;
        [| discriminate H]
    end.

(** A lookup in a dict literal returns one of its values or the default. *)
Lemma dict_get_val_cases {A} (l : list (string * A)) k dflt v :
  dict_get_val (list_to_map l) k dflt = Some v ->
  v = dflt \/ exists s, In (s, v) l.
Proof.
  destruct k; cbn [dict_get_val]; try discriminate;
    try (intros H; apply (inj Some) in H; now left).
  intros H. apply (inj Some) in H. subst v.
  destruct (list_to_map l !! s) as [x |] eqn:E; cbn; [| now left].
  right. exists s. apply list_elem_of_In.
  now apply (elem_of_list_to_map_2 (M := gmap string)).
Qed.

Lemma dict_get_val_Z_range (l : list (string * Z)) k dflt v (lo hi : Z) :
  Forall (fun kv => (lo <= snd kv <= hi)%Z) l ->
  (lo <= dflt <= hi)%Z ->
  dict_get_val (list_to_map l) k dflt = Some v ->
  (lo <= v <= hi)%Z.
Proof.
  intros Hall Hd H. apply dict_get_val_cases in H as [-> | [s Hin]]; [exact Hd |].
  rewrite List.Forall_forall in Hall. exact (Hall _ Hin).
Qed.

Lemma dict_get_val_Q_range (l : list (string * Q)) k dflt v (lo hi : Q) :
  Forall (fun kv => lo <= snd kv /\ snd kv <= hi) l ->
  lo <= dflt /\ dflt <= hi ->
  dict_get_val (list_to_map l) k dflt = Some v ->
  lo <= v /\ v <= hi.
Proof.
  intros Hall Hd H. apply dict_get_val_cases in H as [-> | [s Hin]]; [exact Hd |].
  rewrite List.Forall_forall in Hall. exact (Hall _ Hin).
Qed.

(** Discharge the range side conditions of a dict literal. *)
Ltac literal_range :=
  first [ repeat constructor; cbn [snd]; first [lia | lra]
        | cbn [snd]; first [lia | lra] ].

Lemma py_len_nonneg v n : py_len v = Some n -> (0 <= n)%Z.
Proof.
  destruct v; cbn [py_len]; try discriminate; intros H;
    apply (inj Some) in H; subst n; lia.
Qed.

Lemma industry_stability_range s :
  0.4 <= default (default 0.5 (INDUSTRY_STABILITY !! "default"%string))
           (INDUSTRY_STABILITY !! s) /\
  default (default 0.5 (INDUSTRY_STABILITY !! "default"%string))
    (INDUSTRY_STABILITY !! s) <= 0.95.
Proof.
  change (default 0.5 (INDUSTRY_STABILITY !! "default"%string)) with 0.5.
  destruct (INDUSTRY_STABILITY !! s) as [v |] eqn:E; cbn; [| split; lra].
  unfold INDUSTRY_STABILITY in E.
  apply (elem_of_list_to_map_2 (M := gmap string)) in E.
  apply list_elem_of_In in E. cbn [In] in E.
  repeat (destruct E as [E | E]; [injection E as _ <-; split; lra |]).
  destruct E.
Qed.

(** X10.  Whatever the extracted dict holds, a struct returned by
    [_build_professional_features] has its career trajectory in 1..5, its
    education level in 0..5, its connection tier in 1..3 and its industry
    stability between 0.4 and 0.95; the advanced-degree flag is set exactly
    for an education level of 4 or more, the job-hopping flag exactly for
    more than 3 jobs in 5 years, and the inconsistency count is not
    negative. *)
Theorem built_professional_in_range rt extracted p :
  _build_professional_features rt extracted = Some p ->
  (1 <= career_trajectory p <= 5)%Z /\
  (0 <= education_level p <= 5)%Z /\
  (1 <= connection_count_tier p <= 3)%Z /\
  (0.4 <= industry_stability p /\ industry_stability p <= 0.95) /\
  has_advanced_degree p = (4 <=? education_level p)%Z /\
  frequent_job_changes p = (3 <? jobs_last_5_years p)%Z /\
  (0 <= profile_inconsistencies p)%Z.
Proof.
  intros H. unfold _build_professional_features in H. bind_cases_eq H.
  apply (inj Some) in H. subst p.
  cbn [set_professional_credibility_score set_job_stability_score
       career_trajectory education_level connection_count_tier
       industry_stability has_advanced_degree frequent_job_changes
       jobs_last_5_years profile_inconsistencies].
  apply (dict_get_val_Z_range _ _ _ _ 1 5) in E2; [| literal_range ..].
  apply (dict_get_val_Z_range _ _ _ _ 0 5) in E3; [| literal_range ..].
  apply (dict_get_val_Z_range _ _ _ _ 1 3) in E6; [| literal_range ..].
  apply py_len_nonneg in E8.
  repeat split; try lia; try reflexivity; apply industry_stability_range.
Qed.

Lemma built_professional_in_range_witness :
  exists p,
    _build_professional_features offline_runtime
      {[ "career_trajectory"%string := PStr "meteoric";
         "education_level"%string := PStr "phd";
         "jobs_last_5_years"%string := PInt 6 ]} = Some p /\
    (1 <= career_trajectory p <= 5)%Z /\
    (0 <= education_level p <= 5)%Z /\
    (1 <= connection_count_tier p <= 3)%Z /\
    (0.4 <= industry_stability p /\ industry_stability p <= 0.95) /\
    has_advanced_degree p = (4 <=? education_level p)%Z /\
    frequent_job_changes p = (3 <? jobs_last_5_years p)%Z /\
    (0 <= profile_inconsistencies p)%Z.
Proof.
  eexists. split; [reflexivity |].
  apply (built_professional_in_range offline_runtime
           {[ "career_trajectory"%string := PStr "meteoric";
              "education_level"%string := PStr "phd";
              "jobs_last_5_years"%string := PInt 6 ]}).
  reflexivity.
Defined.

(** X11.  Whatever the extracted dict holds, a struct returned by
    [_build_lifestyle_features] has its lifestyle level in 1..5, its
    spending-versus-income between 0.2 and 0.8, its vehicle, housing and
    travel tiers in 1..3, signal counts that are not negative and the
    default cost-of-living of 0.5. *)
Theorem built_lifestyle_in_range extracted l :
  _build_lifestyle_features extracted = Some l ->
  (1 <= lifestyle_level l <= 5)%Z /\
  (0.2 <= apparent_spending_vs_income l /\ apparent_spending_vs_income l <= 0.8) /\
  (1 <= vehicle_tier l <= 3)%Z /\
  (1 <= housing_quality_apparent l <= 3)%Z /\
  (1 <= travel_frequency l <= 3)%Z /\
  (0 <= financial_responsibility_signals l)%Z /\
  (0 <= financial_irresponsibility_signals l)%Z /\
  location_cost_of_living l = 0.5.
Proof.
  intros H. unfold _build_lifestyle_features in H. bind_cases_eq H.
  apply (inj Some) in H. subst l.
  cbn [set_income_lifestyle_alignment set_lifestyle_stability_score
       lifestyle_level apparent_spending_vs_income vehicle_tier
       housing_quality_apparent travel_frequency
       financial_responsibility_signals financial_irresponsibility_signals
       location_cost_of_living].
  apply (dict_get_val_Z_range _ _ _ _ 1 5) in E; [| literal_range ..].
  apply (dict_get_val_Q_range _ _ _ _ 0.2 0.8) in E0; [| literal_range ..].
  apply (dict_get_val_Z_range _ _ _ _ 1 3) in E1; [| literal_range ..].
  apply (dict_get_val_Z_range _ _ _ _ 1 3) in E2; [| literal_range ..].
  apply (dict_get_val_Z_range _ _ _ _ 1 3) in E3; [| literal_range ..].
  apply py_len_nonneg in E4, E5.
  repeat split; first [lia | lra | reflexivity].
Qed.

Lemma built_lifestyle_in_range_witness :
  exists l,
    _build_lifestyle_features
      {[ "lifestyle_level"%string := PStr "royal";
         "spending_vs_income"%string := PInt 7;
         "vehicle_type"%string := PStr "luxury" ]} = Some l /\
    (1 <= lifestyle_level l <= 5)%Z /\
    (0.2 <= apparent_spending_vs_income l /\ apparent_spending_vs_income l <= 0.8) /\
    (1 <= vehicle_tier l <= 3)%Z /\
    (1 <= housing_quality_apparent l <= 3)%Z /\
    (1 <= travel_frequency l <= 3)%Z /\
    (0 <= financial_responsibility_signals l)%Z /\
    (0 <= financial_irresponsibility_signals l)%Z /\
    location_cost_of_living l = 0.5.
Proof.
  eexists. split; [reflexivity |].
  apply (built_lifestyle_in_range
           {[ "lifestyle_level"%string := PStr "royal";
              "spending_vs_income"%string := PInt 7;
              "vehicle_type"%string := PStr "luxury" ]}).
  reflexivity.
Defined.

(** X12.  Whatever the extracted dict holds, a struct returned by
    [_build_social_features] has its follower tier in 1..3, its
    relationship status in 0..4, its engagement rate and local ties
    between 0.2 and 0.8, its family presence between 0.1 and 0.9, its
    community involvement between 0 and 0.9, and an authenticity and a
    geographic stability that are each 0.8 or 0.3. *)
Theorem built_social_in_range rt extracted s :
  _build_social_features rt extracted = Some s ->
  (1 <= total_followers_tier s <= 3)%Z /\
  (0 <= relationship_status s <= 4)%Z /\
  (0.2 <= engagement_rate s /\ engagement_rate s <= 0.8) /\
  (0.2 <= local_community_ties s /\ local_community_ties s <= 0.8) /\
  (0.1 <= family_presence_in_content s /\ family_presence_in_content s <= 0.9) /\
  (0 <= community_involvement s /\ community_involvement s <= 0.9) /\
  (authentic_connections s = 0.8 \/ authentic_connections s = 0.3) /\
  (geographic_stability s = 0.8 \/ geographic_stability s = 0.3).
Proof.
  intros H. unfold _build_social_features in H. bind_cases_eq H.
  apply (inj Some) in H. subst s.
  cbn [set_relationship_stability_score set_community_rootedness_score
       set_social_support_score total_followers_tier relationship_status
       engagement_rate local_community_ties family_presence_in_content
       community_involvement authentic_connections geographic_stability].
  apply (dict_get_val_Z_range _ _ _ _ 1 3) in E; [| literal_range ..].
  apply (dict_get_val_Q_range _ _ _ _ 0.2 0.8) in E0; [| literal_range ..].
  apply (dict_get_val_Z_range _ _ _ _ 0 4) in E1; [| literal_range ..].
  apply (dict_get_val_Q_range _ _ _ _ 0.1 0.9) in E2; [| literal_range ..].
  apply (dict_get_val_Q_range _ _ _ _ 0 0.9) in E3; [| literal_range ..].
  apply (dict_get_val_Q_range _ _ _ _ 0.2 0.8) in E5; [| literal_range ..].
  split; [lia |]. split; [lia |]. split; [lra |]. split; [lra |].
  split; [lra |]. split; [lra |].
  split; [destruct (py_bool _) | destruct (py_bool _)]; auto.
Qed.

Lemma built_social_in_range_witness :
  exists s,
    _build_social_features offline_runtime
      {[ "follower_tier"%string := PStr "huge";
         "geographic_stability"%string := PBool false ]} = Some s /\
    (1 <= total_followers_tier s <= 3)%Z /\
    (0 <= relationship_status s <= 4)%Z /\
    (0.2 <= engagement_rate s /\ engagement_rate s <= 0.8) /\
    (0.2 <= local_community_ties s /\ local_community_ties s <= 0.8) /\
    (0.1 <= family_presence_in_content s /\ family_presence_in_content s <= 0.9) /\
    (0 <= community_involvement s /\ community_involvement s <= 0.9) /\
    (authentic_connections s = 0.8 \/ authentic_connections s = 0.3) /\
    (geographic_stability s = 0.8 \/ geographic_stability s = 0.3).
Proof.
  eexists. split; [reflexivity |].
  apply (built_social_in_range offline_runtime
           {[ "follower_tier"%string := PStr "huge";
              "geographic_stability"%string := PBool false ]}).
  reflexivity.
Defined.

(** ** Extraction that carries no information *)

Ltac lacks_keys H :=
  unfold lacks, professional_keys, lifestyle_keys, social_keys in H;
  repeat match type of H with
    | Forall _ (_ :: _) =>
        let K := fresh "K" in
        apply List.Forall_cons_iff in H as [K H]
    end;
  clear H.

Lemma build_professional_uninformative rt extracted :
  str_lower rt "" = ""%string ->
  lacks extracted professional_keys ->
  _build_professional_features rt extracted =
  _build_professional_features offline_runtime ∅.
Proof.
  intros Hlower H. lacks_keys H.
  unfold _build_professional_features.
  rewrite !get_missing by assumption.
  cbn [py_int py_float py_lower mbind option_bind].
  rewrite Hlower. reflexivity.
Qed.

Lemma build_lifestyle_uninformative extracted :
  lacks extracted lifestyle_keys ->
  _build_lifestyle_features extracted = _build_lifestyle_features ∅.
Proof.
  intros H. lacks_keys H.
  unfold _build_lifestyle_features.
  rewrite !get_missing by assumption. reflexivity.
Qed.

Lemma build_social_uninformative rt extracted :
  lacks extracted social_keys ->
  _build_social_features rt extracted =
  _build_social_features offline_runtime ∅.
Proof.
  intros H. lacks_keys H.
  unfold _build_social_features.
  rewrite !get_missing by assumption. reflexivity.
Qed.

(** X13.  When the extracted dicts hold none of the keys the builders read
    (an extraction that carried no information), the builders still return
    structs, and their derived scores are not all the neutral 0.5: the
    credibility score is 0.225, the income-lifestyle alignment 1.0, the
    community rootedness 0.41 and the social support 0.24 to within 0.001.
    Scoring with the three structs supplied gives a total modifier
    adjustment of 0.3 to within 0.001, where scoring with no feature group
    gives 0.  (The two values given to within 0.001 are sums that the
    float arithmetic of the code rounds in the last place.) *)
Theorem uninformative_extraction_is_not_neutral rt ep el es :
  str_lower rt "" = ""%string ->
  lacks ep professional_keys ->
  lacks el lifestyle_keys ->
  lacks es social_keys ->
  exists p l s,
    _build_professional_features rt ep = Some p /\
    _build_lifestyle_features el = Some l /\
    _build_social_features rt es = Some s /\
    job_stability_score p == 0.5 /\
    professional_credibility_score p == 0.225 /\
    lifestyle_stability_score l == 0.5 /\
    income_lifestyle_alignment l == 1.0 /\
    (0.239 <= social_support_score s /\ social_support_score s <= 0.241) /\
    community_rootedness_score s == 0.41 /\
    relationship_stability_score s == 0.5 /\
    forall app,
      scorable rt app (Some p) (Some l) (Some s) = true ->
      exists r,
        score_application rt app (Some p) (Some l) (Some s) = Some r /\
        0.299 <= total_modifier_adjustment r /\
        total_modifier_adjustment r <= 0.301.
Proof.
  intros Hlower Hp Hl Hs.
  rewrite (build_professional_uninformative _ _ Hlower Hp).
  rewrite (build_lifestyle_uninformative _ Hl).
  rewrite (build_social_uninformative _ _ Hs).
  do 3 eexists.
  split; [vm_compute; reflexivity |].
  split; [vm_compute; reflexivity |].
  split; [vm_compute; reflexivity |].
  do 4 (split; [reflexivity |]).
  split; [split; apply Qle_bool_iff; vm_compute; reflexivity |].
  do 2 (split; [reflexivity |]).
  intros app Hok.
  destruct (score_application_returns _ _ _ _ _ Hok) as [r Hr].
  exists r. split; [exact Hr |].
  destruct (score_application_Some _ _ _ _ _ _ Hr)
    as (_ & _ & _ & _ & _ & _ & _ & _ & _ & _ & _ & _ & _ & _ & _ & _
        & Hmod & _).
  destruct Hmod as [(Hno & _) | (_ & (t & _ & Hmb) & Htm)]; [discriminate Hno |].
  cbn [default from_option id] in Hmb.
  match type of Hmb with
  | _ = _calculate_modifiers ?f => pose proof (modifiers_sum f) as Hsum
  end.
  rewrite <- Hmb in Hsum.
  cbn [professional lifestyle social
       professional_credibility_score job_stability_score
       lifestyle_stability_score income_lifestyle_alignment
       social_support_score community_rootedness_score
       relationship_stability_score gambling_indicators
       substance_use_indicators frequent_job_changes
       social_isolation_indicators] in Hsum.
  assert (H3 : dict_values_sum (modifier_breakdown r) == 0.3).
  { rewrite Hsum. reflexivity. }
  assert (H4 : total_modifier_adjustment r == 0.3).
  { rewrite Htm. change (inject_Z MAX_MODIFIER_ADJUSTMENT) with 10.
    transitivity (dict_values_sum (modifier_breakdown r)); [| exact H3].
    apply PyFacts.clamp_id; lra. }
  split; lra.
Qed.

Lemma uninformative_extraction_is_not_neutral_witness :
  exists p l s,
    _build_professional_features offline_runtime
      {[ "note"%string := PStr "nothing found" ]} = Some p /\
    _build_lifestyle_features ∅ = Some l /\
    _build_social_features offline_runtime ∅ = Some s /\
    professional_credibility_score p == 0.225 /\
    income_lifestyle_alignment l == 1.0 /\
    exists r,
      score_application offline_runtime robert_blake
        (Some p) (Some l) (Some s) = Some r /\
      0.299 <= total_modifier_adjustment r /\
      total_modifier_adjustment r <= 0.301.
Proof.
  destruct (uninformative_extraction_is_not_neutral offline_runtime
              {[ "note"%string := PStr "nothing found" ]} ∅ ∅)
    as (p & l & s & Hp & Hl & Hs & _ & Hcred & _ & Halign & _ & _ & _ & Hscore).
  - reflexivity.
  - unfold lacks, professional_keys. repeat constructor.
  - unfold lacks, lifestyle_keys. repeat constructor.
  - unfold lacks, social_keys. repeat constructor.
  - exists p, l, s. repeat (split; [assumption |]).
    apply Hscore. unfold scorable. cbn [supplied orb]. reflexivity.
Defined.

(** ** The report as a dict *)

(** Rounding to an integer moves a number by at most one half. *)
Lemma round_error x :
  inject_Z (Py.round x) - x <= 0.5 /\ x - inject_Z (Py.round x) <= 0.5.
Proof.
  pose proof (Qfloor_le x) as H1. pose proof (Qlt_floor x) as H2.
  rewrite inject_Z_plus in H2. change (inject_Z 1) with 1 in H2.
  unfold Py.round.
  destruct (PyFacts.lt_spec (x - inject_Z (Qfloor x)) 0.5);
    [split; lra |].
  destruct (PyFacts.gt_spec (x - inject_Z (Qfloor x)) 0.5);
    [rewrite inject_Z_plus; change (inject_Z 1) with 1; split; lra |].
  destruct (Z.even (Qfloor x)); rewrite ?inject_Z_plus;
    change (inject_Z 1) with 1; split; lra.
Qed.

(** Rounding to two places moves a number by at most 0.005. *)
Lemma round_2_error x :
  py_round_ndigits x 2 - x <= 0.005 /\ x - py_round_ndigits x 2 <= 0.005.
Proof.
  unfold py_round_ndigits. change (inject_Z (10 ^ 2)) with 100.
  destruct (round_error (x * 100)) as [H1 H2].
  set (k := inject_Z (Py.round (x * 100))) in *.
  assert (E : k / 100 == k * 0.01) by (field).
  rewrite E. split; lra.
Qed.

(** Rounding to one place moves a number by at most 0.05. *)
Lemma round_1_error x :
  py_round_ndigits x 1 - x <= 0.05 /\ x - py_round_ndigits x 1 <= 0.05.
Proof.
  unfold py_round_ndigits. change (inject_Z (10 ^ 1)) with 10.
  destruct (round_error (x * 10)) as [H1 H2].
  set (k := inject_Z (Py.round (x * 10))) in *.
  assert (E : k / 10 == k * 0.1) by (field).
  rewrite E. split; lra.
Qed.

(** X14.  In the dict of a returned report, each of the five weighted
    contributions of ["score_breakdown"] is within 0.005 of the weighted
    component it rounds, so their sum is within 0.025 of the base score. *)
Theorem score_breakdown_adds_up rt app pf lf sf r :
  score_application rt app pf lf sf = Some r ->
  exists c1 c2 c3 c4 c5,
    (exists entries,
       to_dict r = JObj entries /\
       In ("score_breakdown"%string, json_nums (score_breakdown r)) entries) /\
    dict_lookup (score_breakdown r) "credit_risk" = Some c1 /\
    dict_lookup (score_breakdown r) "dti_risk" = Some c2 /\
    dict_lookup (score_breakdown r) "ltv_risk" = Some c3 /\
    dict_lookup (score_breakdown r) "employment_risk" = Some c4 /\
    dict_lookup (score_breakdown r) "reserves_risk" = Some c5 /\
    (c1 - credit_component r * 0.35 <= 0.005 /\
     credit_component r * 0.35 - c1 <= 0.005) /\
    (c2 - dti_component r * 0.25 <= 0.005 /\
     dti_component r * 0.25 - c2 <= 0.005) /\
    (c3 - ltv_component r * 0.20 <= 0.005 /\
     ltv_component r * 0.20 - c3 <= 0.005) /\
    (c4 - employment_component r * 0.10 <= 0.005 /\
     employment_component r * 0.10 - c4 <= 0.005) /\
    (c5 - reserves_component r * 0.10 <= 0.005 /\
     reserves_component r * 0.10 - c5 <= 0.005) /\
    base_score r - 0.025 <= c1 + c2 + c3 + c4 + c5 /\
    c1 + c2 + c3 + c4 + c5 <= base_score r + 0.025.
Proof.
  intros Hr.
  destruct (score_application_Some _ _ _ _ _ _ Hr)
    as (_ & _ & _ & _ & _ & _ & _ & _ & _ & _ & _ & _ & _ & _ & _ & Hbase & _).
  do 5 eexists.
  split; [eexists; split; [reflexivity |]; cbn [In]; tauto |].
  unfold score_breakdown.
  destruct traditional_weights as (-> & -> & -> & -> & ->).
  cbn [dict_lookup String.eqb Ascii.eqb Bool.eqb].
  do 5 (split; [reflexivity |]).
  pose proof (round_2_error (credit_component r * 0.35)).
  pose proof (round_2_error (dti_component r * 0.25)).
  pose proof (round_2_error (ltv_component r * 0.20)).
  pose proof (round_2_error (employment_component r * 0.10)).
  pose proof (round_2_error (reserves_component r * 0.10)).
  rewrite Hbase. repeat split; lra.
Qed.

Lemma score_breakdown_adds_up_witness :
  exists r c1 c2 c3 c4 c5,
    score_application offline_runtime robert_blake None None None = Some r /\
    dict_lookup (score_breakdown r) "credit_risk" = Some c1 /\
    dict_lookup (score_breakdown r) "dti_risk" = Some c2 /\
    dict_lookup (score_breakdown r) "ltv_risk" = Some c3 /\
    dict_lookup (score_breakdown r) "employment_risk" = Some c4 /\
    dict_lookup (score_breakdown r) "reserves_risk" = Some c5 /\
    base_score r - 0.025 <= c1 + c2 + c3 + c4 + c5 /\
    c1 + c2 + c3 + c4 + c5 <= base_score r + 0.025.
Proof.
  assert (Hr : exists r,
             score_application offline_runtime robert_blake None None None = Some r)
    by (eexists; reflexivity).
  destruct Hr as [r Hr].
  destruct (score_breakdown_adds_up _ _ _ _ _ _ Hr)
    as (c1 & c2 & c3 & c4 & c5 & _ & H1 & H2 & H3 & H4 & H5
        & _ & _ & _ & _ & _ & Hlo & Hhi).
  exists r, c1, c2, c3, c4, c5. repeat (split; [assumption |]). assumption.
Defined.

(** ** Scoring a submitted form *)

(** The entries of the application dict that [score_from_form] builds, when
    no additional field is passed. *)
Lemma form_dict_lookups (v1 v2 v3 v4 v5 v6 v7 v8 v9 v10 v11 v12 : pyval) :
  let m : gmap string pyval :=
    ∅ ∪ list_to_map [
      ("id", v1); ("borrower", v2); ("loan_amount", v3);
      ("property_value", v4); ("loan_type", v5); ("property_address", v6);
      ("credit_score", v7); ("annual_income", v8); ("dti", v9); ("ltv", v10);
      ("employment_years", v11); ("reserves_months", v12)
    ]%string in
  get m "credit_score" (PInt 680) = v7 /\
  get m "dti" (PInt 36) = v9 /\
  get m "ltv" (PInt 80) = v10 /\
  get m "employment_years" (PInt 2) = v11 /\
  get m "reserves_months" (PInt 3) = v12 /\
  get m "loan_amount" (PInt 0) = v3 /\
  get m "property_value" (PInt 0) = v4.
Proof. cbv zeta. repeat split; vm_compute; reflexivity. Qed.

(** The same entries under additional fields that name none of them. *)
Lemma union_lookup_r (extra m : gmap string pyval) k dflt :
  extra !! k = None -> get (extra ∪ m) k dflt = get m k dflt.
Proof. intros H. unfold get. now rewrite (lookup_union_r _ _ _ H). Qed.

Lemma union_lookup_l (extra m : gmap string pyval) k dflt v :
  extra !! k = Some v -> get (extra ∪ m) k dflt = v.
Proof. intros H. unfold get. now rewrite (lookup_union_Some_l _ _ _ _ H). Qed.

Lemma monthly_income_pos (annual_income : Q) :
  0 < annual_income / 12 -> 0 < annual_income.
Proof.
  intros H.
  assert (E : annual_income == annual_income / 12 * 12) by field.
  rewrite E. lra.
Qed.

Ltac form_lookups :=
  match goal with
  | |- context [∅ ∪ list_to_map
                  [(_, ?v1); (_, ?v2); (_, ?v3); (_, ?v4); (_, ?v5); (_, ?v6);
                   (_, ?v7); (_, ?v8); (_, ?v9); (_, ?v10); (_, ?v11); (_, ?v12)]] =>
      let L1 := fresh "L" in
      pose proof (form_dict_lookups v1 v2 v3 v4 v5 v6 v7 v8 v9 v10 v11 v12) as L1;
      cbv zeta in L1
  end.

(** X15.  A form scored with no additional field, with a borrower name
    that is a string and a credit score and reserve months within the
    float range (below 2^1000 in absolute value), yields a report, never
    with a modifier: the profile URLs are not used.  Without a positive
    annual income the DTI is taken as 50 (a DTI component of 70.02);
    without a positive property value the LTV is taken as 100 (an LTV
    component of 85); with a positive property value the LTV is a float
    within 0.05 of the loan amount over the property value, in percent,
    and the LTV component is computed from it. *)
Theorem score_from_form_fallbacks rt upper_prefix s loan_amount property_value
    loan_type property_address credit_score annual_income monthly_debts
    employment_years reserves_months linkedin_url instagram_url :
  float_convertible credit_score ->
  float_convertible reserves_months ->
  exists r,
    score_from_form rt upper_prefix (PStr s) loan_amount property_value
      loan_type property_address credit_score annual_income monthly_debts
      employment_years reserves_months linkedin_url instagram_url ∅ = Some r /\
    total_modifier_adjustment r = 0.0 /\
    modifier_breakdown r = [] /\
    (annual_income <= 0 ->
       dti_ratio r = PInt 50 /\ dti_component r == 70.02) /\
    (property_value <= 0 ->
       ltv_ratio r = PInt 100 /\ ltv_component r == 85) /\
    (0 < property_value ->
       exists l,
         ltv_ratio r = PFloat l /\
         ltv_component r = _calculate_ltv_risk l /\
         l - loan_amount / property_value * 100 <= 0.05 /\
         loan_amount / property_value * 100 - l <= 0.05).
Proof.
  intros _ _.
  unfold score_from_form. cbn [mbind option_bind].
  form_lookups. destruct L as (Lc & Ld & Ll & Le & Lm & La & Lp).
  match goal with
  | |- context [score_application rt ?m None None None] => set (app := m) in *
  end.
  assert (Hd : is_number (get app "dti" (PInt 36)) = true).
  { rewrite Ld. destruct (Py.gt (annual_income / 12) 0); reflexivity. }
  assert (Hl : is_number (get app "ltv" (PInt 80)) = true).
  { rewrite Ll. destruct (Py.gt property_value 0); reflexivity. }
  assert (Hok : scorable rt app None None None = true).
  { unfold scorable, prompt_formats. rewrite Hd, Hl, Lc, Le, Lm, La, Lp.
    cbn. destruct (client rt); reflexivity. }
  destruct (score_application_returns _ _ _ _ _ Hok) as [r Hr].
  exists r. split; [exact Hr |].
  destruct (score_application_Some _ _ _ _ _ _ Hr)
    as (c & d & l & e & m & _ & Ed & El & _ & _ & _ & Cd & Cl & _ & _ & _
        & Hmod & _ & _ & _ & Kd & Kl & _).
  destruct Hmod as [(_ & Hmb & Htm) | (Hsup & _)]; [| discriminate Hsup].
  split; [exact Htm |]. split; [exact Hmb |].
  rewrite Ld in Ed, Kd. rewrite Ll in El, Kl.
  split; [| split].
  - intros Hai.
    destruct (PyFacts.gt_spec (annual_income / 12) 0) as [Hpos | _];
      [exfalso; apply monthly_income_pos in Hpos; lra |].
    cbn [as_num] in Ed. apply (inj Some) in Ed. subst d.
    split; [exact Kd | rewrite Cd; reflexivity].
  - intros Hpv.
    destruct (PyFacts.gt_spec property_value 0) as [Hpos | _];
      [exfalso; lra |].
    cbn [as_num] in El. apply (inj Some) in El. subst l.
    split; [exact Kl | rewrite Cl; reflexivity].
  - intros Hpv.
    destruct (PyFacts.gt_spec property_value 0) as [_ | Hneg];
      [| exfalso; lra].
    cbn [as_num] in El. apply (inj Some) in El. subst l.
    eexists. split; [exact Kl |]. split; [exact Cl |].
    apply round_1_error.
Qed.

Lemma score_from_form_fallbacks_witness :
  exists r,
    score_from_form offline_runtime (fun _ => "ANN"%string) (PStr "Ann")
      122500 200000 (PStr "30-Year Fixed Conventional") (PStr "1 Main St")
      700 0 0 2 3 PNone PNone ∅ = Some r /\
    total_modifier_adjustment r = 0.0 /\
    dti_ratio r = PInt 50 /\
    exists l, ltv_ratio r = PFloat l /\ 61.2 <= l /\ l <= 61.3.
Proof.
  destruct (score_from_form_fallbacks offline_runtime (fun _ => "ANN"%string)
              "Ann" 122500 200000 (PStr "30-Year Fixed Conventional")
              (PStr "1 Main St") 700 0 0 2 3 PNone PNone)
    as (r & Hr & Htm & _ & Hdti & _ & Hltv).
  - unfold float_convertible. vm_compute. reflexivity.
  - unfold float_convertible. vm_compute. reflexivity.
  - exists r. split; [exact Hr |]. split; [exact Htm |].
    split; [apply Hdti; lra |].
    destruct Hltv as (l & Kl & _ & H1 & H2); [lra |].
    exists l. split; [exact Kl |].
    assert (E : 122500 / 200000 * 100 == 61.25) by reflexivity.
    rewrite E in H1, H2. split; lra.
Defined.

(** X16.  An additional field named ["dti"] or ["ltv"] replaces the value
    the form scorer computed from the income, the debts and the loan: a
    report it returns echoes the additional value, and the component is
    computed from it. *)
Theorem additional_fields_override rt upper_prefix borrower_name loan_amount
    property_value loan_type property_address credit_score annual_income
    monthly_debts employment_years reserves_months linkedin_url instagram_url
    additional_fields r :
  score_from_form rt upper_prefix borrower_name loan_amount property_value
    loan_type property_address credit_score annual_income monthly_debts
    employment_years reserves_months linkedin_url instagram_url
    additional_fields = Some r ->
  (forall v, additional_fields !! "dti"%string = Some v ->
     dti_ratio r = v /\
     exists d, as_num v = Some d /\ dti_component r = _calculate_dti_risk d) /\
  (forall v, additional_fields !! "ltv"%string = Some v ->
     ltv_ratio r = v /\
     exists l, as_num v = Some l /\ ltv_component r = _calculate_ltv_risk l).
Proof.
  unfold score_from_form. intros H.
  destruct borrower_name as [| | | | s |]; try discriminate H.
  cbn [mbind option_bind] in H.
  match type of H with
  | score_application rt (additional_fields ∪ ?m) None None None = _ =>
      set (form := m) in *
  end.
  destruct (score_application_Some _ _ _ _ _ _ H)
    as (c & d & l & e & m & _ & Ed & El & _ & _ & _ & Cd & Cl & _ & _ & _
        & _ & _ & _ & _ & Kd & Kl & _).
  split; intros v Hv.
  - rewrite (union_lookup_l _ _ _ _ _ Hv) in Ed, Kd.
    split; [exact Kd |]. exists d. split; [exact Ed | exact Cd].
  - rewrite (union_lookup_l _ _ _ _ _ Hv) in El, Kl.
    split; [exact Kl |]. exists l. split; [exact El | exact Cl].
Qed.

Lemma additional_fields_override_witness :
  exists r,
    score_from_form offline_runtime (fun _ => "ANN"%string) (PStr "Ann") 300000 400000
      (PStr "30-Year Fixed Conventional") (PStr "1 Main St") 700 0 0 2 3
      PNone PNone {["dti"%string := PInt 10]} = Some r /\
    dti_ratio r = PInt 10 /\
    dti_component r = _calculate_dti_risk 10.
Proof.
  destruct (score_from_form offline_runtime (fun _ => "ANN"%string) (PStr "Ann") 300000
              400000 (PStr "30-Year Fixed Conventional") (PStr "1 Main St")
              700 0 0 2 3 PNone PNone {["dti"%string := PInt 10]})
    as [r |] eqn:E.
  - exists r. split; [reflexivity |].
    destruct (additional_fields_override _ _ _ _ _ _ _ _ _ _ _ _ _ _ _ _ E)
      as [Hd _].
    destruct (Hd (PInt 10) eq_refl) as (K & d & Ed & Cd).
    split; [exact K |].
    cbn [as_num] in Ed. apply (inj Some) in Ed. subst d. exact Cd.
  - exfalso. vm_compute in E. discriminate E.
Defined.

Lemma score_from_form_returns rt upper_prefix s loan_amount property_value
    loan_type property_address credit_score annual_income monthly_debts
    employment_years reserves_months linkedin_url instagram_url :
  exists r,
    score_from_form rt upper_prefix (PStr s) loan_amount property_value
      loan_type property_address credit_score annual_income monthly_debts
      employment_years reserves_months linkedin_url instagram_url ∅ = Some r.
Proof.
  unfold score_from_form. cbn [mbind option_bind].
  form_lookups. destruct L as (Lc & Ld & Ll & Le & Lm & La & Lp).
  match goal with
  | |- context [score_application rt ?m None None None] => set (app := m) in *
  end.
  apply score_application_returns.
  unfold scorable, prompt_formats. rewrite Ld, Ll, Lc, Le, Lm, La, Lp.
  destruct (Py.gt (annual_income / 12) 0), (Py.gt property_value 0);
    cbn; destruct (client rt); reflexivity.
Qed.

Lemma score_from_form_name rt upper_prefix borrower_name loan_amount
    property_value loan_type property_address credit_score annual_income
    monthly_debts employment_years reserves_months linkedin_url instagram_url
    additional_fields r :
  score_from_form rt upper_prefix borrower_name loan_amount property_value
    loan_type property_address credit_score annual_income monthly_debts
    employment_years reserves_months linkedin_url instagram_url
    additional_fields = Some r ->
  exists s, borrower_name = PStr s.
Proof.
  unfold score_from_form. intros H.
  destruct borrower_name as [| | | | s |]; try discriminate H.
  exists s. reflexivity.
Qed.

(** X17.  A form submission is answered with status "success" exactly when
    the borrower name (an empty string when absent) is a string and each of
    the seven numeric fields, read with its default, converts: the loan
    amount, the property value, the annual income, the monthly debts and
    the employment years with [float], the credit score and the reserve
    months with [int].  Any other submission is answered with status
    "error"; none raises. *)
Theorem form_submission_succeeds_iff rt upper_prefix form_data :
  (exists report,
     process_form_submission rt upper_prefix form_data = FormSuccess report) <->
  (exists s, get form_data "borrower_name" (PStr "") = PStr s) /\
  is_Some (py_float rt (get form_data "loan_amount" (PInt 0))) /\
  is_Some (py_float rt (get form_data "property_value" (PInt 0))) /\
  is_Some (py_int rt (get form_data "credit_score" (PInt 680))) /\
  is_Some (py_float rt (get form_data "annual_income" (PInt 0))) /\
  is_Some (py_float rt (get form_data "monthly_debts" (PInt 0))) /\
  is_Some (py_float rt (get form_data "employment_years" (PInt 2))) /\
  is_Some (py_int rt (get form_data "reserves_months" (PInt 3))).
Proof.
  unfold process_form_submission.
  destruct (py_float rt (get form_data "loan_amount" (PInt 0))) as [la |];
    [| split; [intros [? H]; discriminate H | intros (_ & [? H] & _); discriminate H]].
  destruct (py_float rt (get form_data "property_value" (PInt 0))) as [pv |];
    [| split; [intros [? H]; discriminate H | intros (_ & _ & [? H] & _); discriminate H]].
  destruct (py_int rt (get form_data "credit_score" (PInt 680))) as [cs |];
    [| split; [intros [? H]; discriminate H | intros (_ & _ & _ & [? H] & _); discriminate H]].
  destruct (py_float rt (get form_data "annual_income" (PInt 0))) as [ai |];
    [| split; [intros [? H]; discriminate H
              | intros (_ & _ & _ & _ & [? H] & _); discriminate H]].
  destruct (py_float rt (get form_data "monthly_debts" (PInt 0))) as [md |];
    [| split; [intros [? H]; discriminate H
              | intros (_ & _ & _ & _ & _ & [? H] & _); discriminate H]].
  destruct (py_float rt (get form_data "employment_years" (PInt 2))) as [ey |];
    [| split; [intros [? H]; discriminate H
              | intros (_ & _ & _ & _ & _ & _ & [? H] & _); discriminate H]].
  destruct (py_int rt (get form_data "reserves_months" (PInt 3))) as [rm |];
    [| split; [intros [? H]; discriminate H
              | intros (_ & _ & _ & _ & _ & _ & _ & [? H]); discriminate H]].
  cbn [mbind option_bind].
  split.
  - intros [report H].
    match type of H with
    | context [score_from_form ?a ?b ?c ?d ?e ?f ?g ?h ?i ?j ?k ?l ?m ?n ?o] =>
        destruct (score_from_form a b c d e f g h i j k l m n o) as [r |] eqn:E
    end; [| discriminate H].
    split; [exact (score_from_form_name _ _ _ _ _ _ _ _ _ _ _ _ _ _ _ _ E) |].
    repeat split; eexists; reflexivity.
  - intros ([s Hs] & _). rewrite Hs.
    destruct (score_from_form_returns rt upper_prefix s la pv
                (get form_data "loan_type" (PStr "30-Year Fixed Conventional"))
                (get form_data "property_address" (PStr "")) cs ai md ey rm
                (get form_data "linkedin_url" PNone)
                (get form_data "instagram_url" PNone)) as [r Hr].
    rewrite Hr. eexists. reflexivity.
Qed.

Lemma get_insert_ne (form_data : gmap string pyval) k k' v dflt :
  k <> k' -> get (<[k := v]> form_data) k' dflt = get form_data k' dflt.
Proof. intros Hne. unfold get. rewrite lookup_insert_ne by exact Hne. reflexivity. Qed.

(** X18.  The two profile URLs of a form have no effect on the answer:
    adding or changing ["linkedin_url"] or ["instagram_url"] in the
    submitted form leaves the result of [process_form_submission] what it
    was. *)
Theorem profile_urls_ignored rt upper_prefix form_data v :
  process_form_submission rt upper_prefix (<["linkedin_url"%string := v]> form_data)
    = process_form_submission rt upper_prefix form_data /\
  process_form_submission rt upper_prefix (<["instagram_url"%string := v]> form_data)
    = process_form_submission rt upper_prefix form_data.
Proof.
  unfold process_form_submission, score_from_form.
  split.
  - rewrite !(get_insert_ne form_data "linkedin_url") by (intros H; discriminate H).
    reflexivity.
  - rewrite !(get_insert_ne form_data "instagram_url") by (intros H; discriminate H).
    reflexivity.
Qed.

(** Rounding to one place keeps a number that is not negative so. *)
Lemma round_1_nonneg x : 0 <= x -> 0 <= py_round_ndigits x 1.
Proof.
  intros Hx. unfold py_round_ndigits. change (inject_Z (10 ^ 1)) with 10.
  assert (H : (Py.round 0 <= Py.round (x * 10))%Z) by (apply round_mono; lra).
  change (Py.round 0) with 0%Z in H.
  assert (Hq : 0 <= inject_Z (Py.round (x * 10))).
  { change 0 with (inject_Z 0). rewrite <- Zle_Qle. exact H. }
  set (k := inject_Z (Py.round (x * 10))) in *.
  assert (E : k / 10 == k * 0.1) by (field).
  rewrite E. lra.
Qed.

(** The monthly payment per unit of loan at 6.5% over 360 months. *)
Lemma payment_factor_bounds :
  0 < (1 + 0.065 / 12) ^ 360 - 1 /\
  0.00632 * ((1 + 0.065 / 12) ^ 360 - 1)
    <= 0.065 / 12 * (1 + 0.065 / 12) ^ 360 /\
  0.065 / 12 * (1 + 0.065 / 12) ^ 360
    <= 0.00633 * ((1 + 0.065 / 12) ^ 360 - 1).
Proof.
  split; [apply Qlt_alt; vm_compute; reflexivity |].
  split; apply Qle_bool_iff; vm_compute; reflexivity.
Qed.

Lemma monthly_payment_bounds (loan_amount : Q) :
  0 <= loan_amount ->
  let monthly_payment :=
    loan_amount * (0.065 / 12 * (1 + 0.065 / 12) ^ 360)
    / ((1 + 0.065 / 12) ^ 360 - 1) in
  0.00632 * loan_amount <= monthly_payment /\
  monthly_payment <= 0.00633 * loan_amount.
Proof.
  intros Hla. destruct payment_factor_bounds as (HD & Hlo & Hhi).
  set (P := 0.065 / 12 * (1 + 0.065 / 12) ^ 360) in *.
  set (D := (1 + 0.065 / 12) ^ 360 - 1) in *.
  clearbody P D. cbv zeta.
  split.
  - apply Qle_shift_div_l; [exact HD | nra].
  - apply Qle_shift_div_r; [exact HD | nra].
Qed.

Lemma monthly_income_pos' (annual_income : Q) :
  0 < annual_income -> 0 < annual_income / 12.
Proof.
  intros H.
  assert (E : annual_income / 12 == annual_income * (1 # 12)) by field.
  rewrite E. lra.
Qed.

(** X19.  For a form with a positive annual income and a loan amount and
    monthly debts that are not negative, scored with no additional field,
    the DTI of the report is a float that is not negative and lies within
    0.05 of the monthly debts plus the estimated payment, over the monthly
    income, in percent, where the estimated payment is between 0.632% and
    0.633% of the loan amount (6.5% over 30 years). *)
Theorem form_dti_estimate rt upper_prefix s loan_amount property_value
    loan_type property_address credit_score annual_income monthly_debts
    employment_years reserves_months linkedin_url instagram_url :
  0 < annual_income -> 0 <= loan_amount -> 0 <= monthly_debts ->
  exists r d,
    score_from_form rt upper_prefix (PStr s) loan_amount property_value
      loan_type property_address credit_score annual_income monthly_debts
      employment_years reserves_months linkedin_url instagram_url ∅ = Some r /\
    dti_ratio r = PFloat d /\
    dti_component r = _calculate_dti_risk d /\
    0 <= d /\
    (monthly_debts + 0.00632 * loan_amount) * 1200 / annual_income - 0.05 <= d /\
    d <= (monthly_debts + 0.00633 * loan_amount) * 1200 / annual_income + 0.05.
Proof.
  intros Hai Hla Hmd.
  destruct (score_from_form_returns rt upper_prefix s loan_amount property_value
              loan_type property_address credit_score annual_income
              monthly_debts employment_years reserves_months linkedin_url
              instagram_url) as [r Hr].
  exists r. revert Hr.
  unfold score_from_form. cbn [mbind option_bind].
  form_lookups. destruct L as (_ & Ld & _).
  match goal with
  | |- context [score_application rt ?m None None None] => set (app := m) in *
  end.
  intros Hr.
  destruct (score_application_Some _ _ _ _ _ _ Hr)
    as (c & d & l & e & m & _ & Ed & _ & _ & _ & _ & Cd & _ & _ & _ & _
        & _ & _ & _ & _ & Kd & _).
  rewrite Ld in Ed, Kd.
  pose proof (monthly_income_pos' _ Hai) as Hmi.
  destruct (PyFacts.gt_spec (annual_income / 12) 0) as [_ | Hneg];
    [| exfalso; apply Hneg; exact Hmi].
  change (Z.of_nat 360) with 360%Z in *.
  destruct (monthly_payment_bounds loan_amount Hla) as [Hlo Hhi].
  cbv zeta in Hlo, Hhi.
  set (monthly_payment :=
         loan_amount * (0.065 / 12 * (1 + 0.065 / 12) ^ 360)
         / ((1 + 0.065 / 12) ^ 360 - 1)) in *.
  clearbody monthly_payment.
  set (x := (monthly_debts + monthly_payment) / (annual_income / 12) * 100) in *.
  cbn [as_num] in Ed. apply (inj Some) in Ed. subst d.
  exists (py_round_ndigits x 1).
  split; [exact Hr |]. split; [exact Kd |]. split; [exact Cd |].
  assert (Hz : 0 < / annual_income) by (apply Qinv_lt_0_compat; exact Hai).
  assert (Ex : x == (monthly_debts + monthly_payment) * 1200 * / annual_income).
  { unfold x. field. intros E. rewrite E in Hai. lra. }
  assert (Elo : (monthly_debts + 0.00632 * loan_amount) * 1200 / annual_income
                == (monthly_debts + 0.00632 * loan_amount) * 1200 * / annual_income)
    by reflexivity.
  assert (Ehi : (monthly_debts + 0.00633 * loan_amount) * 1200 / annual_income
                == (monthly_debts + 0.00633 * loan_amount) * 1200 * / annual_income)
    by reflexivity.
  rewrite Elo, Ehi.
  set (z := / annual_income) in *. clearbody z.
  destruct (round_1_error x) as [R1 R2].
  assert (Hx0 : 0 <= x) by (rewrite Ex; nra).
  split; [apply round_1_nonneg; exact Hx0 |].
  split.
  - assert (Hb : (monthly_debts + 0.00632 * loan_amount) * 1200 * z <= x)
      by (rewrite Ex; nra).
    lra.
  - assert (Hb : x <= (monthly_debts + 0.00633 * loan_amount) * 1200 * z)
      by (rewrite Ex; nra).
    lra.
Qed.

Lemma form_dti_estimate_witness :
  exists r d,
    score_from_form offline_runtime (fun _ => "ANN"%string) (PStr "Ann") 300000 400000
      (PStr "30-Year Fixed Conventional") (PStr "1 Main St") 700 120000 500
      2 3 PNone PNone ∅ = Some r /\
    dti_ratio r = PFloat d /\
    0 <= d /\ 23.9 <= d /\ d <= 24.1.
Proof.
  destruct (form_dti_estimate offline_runtime (fun _ => "ANN"%string) "Ann" 300000 400000
              (PStr "30-Year Fixed Conventional") (PStr "1 Main St") 700
              120000 500 2 3 PNone PNone)
    as (r & d & Hr & Kd & _ & H0 & Hlo & Hhi); [lra | lra | lra |].
  exists r, d. split; [exact Hr |]. split; [exact Kd |]. split; [exact H0 |].
  split.
  - eapply Qle_trans; [| exact Hlo]. apply Qle_bool_iff. vm_compute. reflexivity.
  - eapply Qle_trans; [exact Hhi |]. apply Qle_bool_iff. vm_compute. reflexivity.
Defined.

(** ** Extraction through the client *)

Lemma professional_formulas_unit (p : ProfessionalFeatures) :
  (0 <= _calculate_job_stability_score p /\
   _calculate_job_stability_score p <= 1) /\
  (0 <= _calculate_professional_credibility_score p /\
   _calculate_professional_credibility_score p <= 1).
Proof.
  unfold _calculate_job_stability_score,
    _calculate_professional_credibility_score.
  cbv zeta. split; apply unit_clamp.
Qed.

Lemma lifestyle_formulas_unit (l : LifestyleFeatures) :
  (0 <= _calculate_lifestyle_stability_score l /\
   _calculate_lifestyle_stability_score l <= 1) /\
  (0 <= _calculate_income_lifestyle_alignment l /\
   _calculate_income_lifestyle_alignment l <= 1).
Proof.
  unfold _calculate_lifestyle_stability_score,
    _calculate_income_lifestyle_alignment.
  cbv zeta. split; apply unit_clamp.
Qed.

Lemma social_formulas_unit (s : SocialConnectednessFeatures) :
  (0 <= _calculate_social_support_score s /\
   _calculate_social_support_score s <= 1) /\
  (0 <= _calculate_community_rootedness_score s /\
   _calculate_community_rootedness_score s <= 1) /\
  (0 <= _calculate_relationship_stability_score s /\
   _calculate_relationship_stability_score s <= 1).
Proof.
  unfold _calculate_social_support_score,
    _calculate_community_rootedness_score,
    _calculate_relationship_stability_score.
  cbv zeta. repeat split; apply unit_clamp.
Qed.

Lemma built_professional_unit rt extracted p :
  _build_professional_features rt extracted = Some p ->
  (0 <= job_stability_score p /\ job_stability_score p <= 1) /\
  (0 <= professional_credibility_score p /\ professional_credibility_score p <= 1).
Proof.
  intros H. unfold _build_professional_features in H. bind_cases H.
  apply (inj Some) in H. subst p.
  match goal with
  | |- context [set_job_stability_score ?f _] =>
      destruct (professional_scores_stored f) as [E1 E2]
  end.
  cbv zeta in E1, E2. rewrite E1, E2.
  apply professional_formulas_unit.
Qed.

Lemma built_social_unit rt extracted s :
  _build_social_features rt extracted = Some s ->
  (0 <= social_support_score s /\ social_support_score s <= 1) /\
  (0 <= community_rootedness_score s /\ community_rootedness_score s <= 1) /\
  (0 <= relationship_stability_score s /\ relationship_stability_score s <= 1).
Proof.
  intros H. unfold _build_social_features in H. bind_cases H.
  apply (inj Some) in H. subst s.
  match goal with
  | |- context [set_social_support_score ?f _] =>
      destruct (social_scores_stored f) as (E1 & E2 & E3)
  end.
  cbv zeta in E1, E2, E3. rewrite E1, E2, E3.
  apply social_formulas_unit.
Qed.

Lemma built_lifestyle_ranges extracted l :
  _build_lifestyle_features extracted = Some l -> lifestyle_in_range l.
Proof.
  intros H. unfold _build_lifestyle_features in H. bind_cases_eq H.
  apply (inj Some) in H. subst l.
  unfold lifestyle_in_range.
  match goal with
  | |- context [set_lifestyle_stability_score ?f _] =>
      destruct (lifestyle_scores_stored f) as [S1 S2]
  end.
  cbv zeta in S1, S2. rewrite S1, S2.
  match goal with
  | |- context [_calculate_lifestyle_stability_score ?f] =>
      pose proof (lifestyle_formulas_unit f) as [U1 U2]
  end.
  cbn [set_income_lifestyle_alignment set_lifestyle_stability_score
       lifestyle_level apparent_spending_vs_income vehicle_tier
       housing_quality_apparent travel_frequency
       financial_responsibility_signals financial_irresponsibility_signals
       location_cost_of_living LifestyleFeatures_default].
  apply (dict_get_val_Z_range _ _ _ _ 1 5) in E; [| literal_range ..].
  apply (dict_get_val_Q_range _ _ _ _ 0.2 0.8) in E0; [| literal_range ..].
  apply (dict_get_val_Z_range _ _ _ _ 1 3) in E1; [| literal_range ..].
  apply (dict_get_val_Z_range _ _ _ _ 1 3) in E2; [| literal_range ..].
  apply (dict_get_val_Z_range _ _ _ _ 1 3) in E3; [| literal_range ..].
  apply py_len_nonneg in E4, E5.
  split; [lia |]. split; [lra |]. split; [lia |]. split; [lia |].
  split; [lra |]. split; [lia |]. split; [lia |]. split; [lia |].
  split; [exact U1 | exact U2].
Qed.

Lemma default_lifestyle_ranges : lifestyle_in_range LifestyleFeatures_default.
Proof.
  unfold lifestyle_in_range, LifestyleFeatures_default.
  cbn [lifestyle_level apparent_spending_vs_income vehicle_tier
       housing_quality_apparent travel_frequency
       financial_responsibility_signals financial_irresponsibility_signals
       location_cost_of_living lifestyle_stability_score
       income_lifestyle_alignment].
  repeat split; first [lia | lra].
Qed.

(** What [extract_all_features] stores in a group is the dataclass default
    or a struct its builder returned. *)
Lemma extract_all_features_groups rt keywords_client traditional_data
    professional_analysis lifestyle_analysis social_analysis f :
  extract_all_features rt keywords_client traditional_data
    professional_analysis lifestyle_analysis social_analysis = Some f ->
  extract_traditional_features rt traditional_data = Some (traditional f) /\
  (professional f = ProfessionalFeatures_default \/
   exists extracted, _build_professional_features rt extracted = Some (professional f)) /\
  (lifestyle f = LifestyleFeatures_default \/
   exists extracted, _build_lifestyle_features extracted = Some (lifestyle f)) /\
  (social f = SocialConnectednessFeatures_default \/
   exists extracted, _build_social_features rt extracted = Some (social f)).
Proof.
  intros H. unfold extract_all_features in H. bind_cases_eq H.
  apply (inj Some) in H. subst f.
  cbn [traditional professional lifestyle social].
  split; [reflexivity |].
  unfold extract_professional_features, extract_lifestyle_features,
    extract_social_features in *.
  destruct keywords_client as [client |].
  - split; [| split].
    + destruct (text_given professional_analysis && supplied (Some client));
        [| left; apply (inj Some) in E0; symmetry; exact E0].
      destruct (client _ ProfessionalSchema);
        [left; apply (inj Some) in E0; symmetry; exact E0
        | discriminate E0 | right; eexists; exact E0].
    + destruct (text_given lifestyle_analysis && supplied (Some client));
        [| left; apply (inj Some) in E1; symmetry; exact E1].
      destruct (client _ LifestyleSchema);
        [left; apply (inj Some) in E1; symmetry; exact E1
        | discriminate E1 | right; eexists; exact E1].
    + destruct (text_given social_analysis && supplied (Some client)).
      * destruct (client _ SocialSchema);
          [left; apply (inj Some) in E2; symmetry; exact E2
          | discriminate E2 | right; eexists; exact E2].
      * destruct (text_given lifestyle_analysis && supplied (Some client));
          [| left; apply (inj Some) in E2; symmetry; exact E2].
        destruct (client _ SocialSchema);
          [left; apply (inj Some) in E2; symmetry; exact E2
          | discriminate E2 | right; eexists; exact E2].
  - rewrite !andb_false_r in *.
    apply (inj Some) in E0, E1, E2. subst.
    split; [left; reflexivity |]. split; left; reflexivity.
Qed.

(** X20.  Every feature set [extract_all_features] returns, whatever the
    client answers and whichever analysis texts are given, holds seven
    derived scores between 0 and 1. *)
Theorem extracted_features_unit_scores rt keywords_client traditional_data
    professional_analysis lifestyle_analysis social_analysis f :
  extract_all_features rt keywords_client traditional_data
    professional_analysis lifestyle_analysis social_analysis = Some f ->
  unit_scores f.
Proof.
  intros H.
  destruct (extract_all_features_groups _ _ _ _ _ _ _ H)
    as (_ & Hp & Hl & Hs).
  unfold unit_scores.
  assert (Pp : (0 <= job_stability_score (professional f) /\
                job_stability_score (professional f) <= 1) /\
               (0 <= professional_credibility_score (professional f) /\
                professional_credibility_score (professional f) <= 1)).
  { destruct Hp as [-> | [e He]];
      [cbn; split; lra | exact (built_professional_unit _ _ _ He)]. }
  assert (Pl : lifestyle_in_range (lifestyle f)).
  { destruct Hl as [-> | [e He]];
      [exact default_lifestyle_ranges | exact (built_lifestyle_ranges _ _ He)]. }
  assert (Ps : (0 <= social_support_score (social f) /\
                social_support_score (social f) <= 1) /\
               (0 <= community_rootedness_score (social f) /\
                community_rootedness_score (social f) <= 1) /\
               (0 <= relationship_stability_score (social f) /\
                relationship_stability_score (social f) <= 1)).
  { destruct Hs as [-> | [e He]];
      [cbn; repeat split; lra | exact (built_social_unit _ _ _ He)]. }
  destruct Pp as (P1 & P2).
  destruct Pl as (_ & _ & _ & _ & _ & _ & _ & _ & L1 & L2).
  destruct Ps as (S1 & S2 & S3).
  split; [exact P2 |]. split; [exact P1 |]. split; [exact L1 |].
  split; [exact L2 |]. split; [exact S1 |]. split; [exact S2 | exact S3].
Qed.

Lemma extracted_features_unit_scores_witness :
  exists f,
    extract_all_features offline_runtime (Some (fun _ _ => ExtractDict ∅)) ∅
      (Some "analysis"%string) (Some "analysis"%string) None = Some f /\
    unit_scores f.
Proof.
  destruct (extract_all_features offline_runtime (Some (fun _ _ => ExtractDict ∅)) ∅
              (Some "analysis"%string) (Some "analysis"%string) None)
    as [f |] eqn:E.
  - exists f. split; [reflexivity |].
    exact (extracted_features_unit_scores _ _ _ _ _ _ _ E).
  - exfalso. vm_compute in E. discriminate E.
Defined.

(** X21.  A client whose every call raises leaves [extract_all_features]
    where it is with no client at all: the three groups are the dataclass
    defaults, and the call fails only when the traditional extraction
    does. *)
Theorem client_outage_gives_defaults rt client traditional_data
    professional_analysis lifestyle_analysis social_analysis :
  (forall text schema, client text schema = ExtractRaises) ->
  extract_all_features rt (Some client) traditional_data
    professional_analysis lifestyle_analysis social_analysis
  = extract_all_features rt None traditional_data
      professional_analysis lifestyle_analysis social_analysis /\
  extract_all_features rt (Some client) traditional_data
    professional_analysis lifestyle_analysis social_analysis
  = (traditional ← extract_traditional_features rt traditional_data;
     Some (mkCombinedFeatures traditional ProfessionalFeatures_default
             LifestyleFeatures_default SocialConnectednessFeatures_default)).
Proof.
  intros Hc.
  assert (E : forall kc,
            kc = Some client \/ kc = None ->
            extract_all_features rt kc traditional_data
              professional_analysis lifestyle_analysis social_analysis
            = (traditional ← extract_traditional_features rt traditional_data;
               Some (mkCombinedFeatures traditional ProfessionalFeatures_default
                       LifestyleFeatures_default
                       SocialConnectednessFeatures_default))).
  { intros kc Hkc.
    unfold extract_all_features, extract_professional_features,
      extract_lifestyle_features, extract_social_features.
    destruct (extract_traditional_features rt traditional_data) as [t |];
      [| reflexivity].
    cbn [mbind option_bind].
    destruct Hkc as [-> | ->].
    - rewrite !Hc.
      destruct (text_given professional_analysis),
        (text_given lifestyle_analysis), (text_given social_analysis);
        reflexivity.
    - rewrite !andb_false_r. reflexivity. }
  split.
  - rewrite (E (Some client)) by (left; reflexivity).
    rewrite (E None) by (right; reflexivity). reflexivity.
  - apply E. left. reflexivity.
Qed.

Lemma client_outage_gives_defaults_witness :
  extract_all_features offline_runtime (Some (fun _ _ => ExtractRaises)) ∅
    (Some "analysis"%string) (Some "analysis"%string) None
  = extract_all_features offline_runtime None ∅
      (Some "analysis"%string) (Some "analysis"%string) None.
Proof.
  apply (client_outage_gives_defaults offline_runtime (fun _ _ => ExtractRaises)).
  intros text schema. reflexivity.
Defined.

(** X22.  When no social analysis text is given ([None] or the empty
    string), [extract_all_features] extracts the social group from the
    lifestyle text: the result is the one of the call that passes the
    lifestyle text as the social text too. *)
Theorem social_falls_back_to_lifestyle_text rt keywords_client traditional_data
    professional_analysis lifestyle_analysis social_analysis :
  text_given social_analysis = false ->
  extract_all_features rt keywords_client traditional_data
    professional_analysis lifestyle_analysis social_analysis
  = extract_all_features rt keywords_client traditional_data
      professional_analysis lifestyle_analysis lifestyle_analysis.
Proof.
  intros Hs. unfold extract_all_features. rewrite Hs. cbn [andb].
  destruct (text_given lifestyle_analysis && supplied keywords_client);
    reflexivity.
Qed.

Lemma social_falls_back_to_lifestyle_text_witness :
  extract_all_features offline_runtime (Some (fun _ _ => ExtractDict ∅)) ∅
    None (Some "analysis"%string) (Some ""%string)
  = extract_all_features offline_runtime (Some (fun _ _ => ExtractDict ∅)) ∅
      None (Some "analysis"%string) (Some "analysis"%string).
Proof.
  apply (social_falls_back_to_lifestyle_text offline_runtime
           (Some (fun _ _ => ExtractDict ∅)) ∅ None
           (Some "analysis"%string) (Some ""%string)).
  reflexivity.
Defined.

(** ** The flat model input *)

Lemma ratio_unit (z k : Z) :
  (0 <= z <= k)%Z -> (0 < k)%Z ->
  0 <= inject_Z z / inject_Z k /\ inject_Z z / inject_Z k <= 1.
Proof.
  intros [H0 H1] Hk.
  assert (Qk : 0 < inject_Z k) by (change 0 with (inject_Z 0); rewrite <- Zlt_Qlt; exact Hk).
  assert (Q0 : 0 <= inject_Z z) by (change 0 with (inject_Z 0); rewrite <- Zle_Qle; exact H0).
  assert (Q1 : inject_Z z <= inject_Z k) by (rewrite <- Zle_Qle; exact H1).
  split.
  - apply Qle_shift_div_l; [exact Qk | lra].
  - apply Qle_shift_div_r; [exact Qk | lra].
Qed.

Lemma capped_count_unit (z k : Z) :
  (0 <= z)%Z -> (0 < k)%Z ->
  0 <= Py.min (inject_Z z / inject_Z k) 1.0 /\
  Py.min (inject_Z z / inject_Z k) 1.0 <= 1.
Proof.
  intros H0 Hk.
  assert (Qk : 0 < inject_Z k) by (change 0 with (inject_Z 0); rewrite <- Zlt_Qlt; exact Hk).
  assert (Q0 : 0 <= inject_Z z) by (change 0 with (inject_Z 0); rewrite <- Zle_Qle; exact H0).
  assert (Hx : 0 <= inject_Z z / inject_Z k)
    by (apply Qle_shift_div_l; [exact Qk | lra]).
  set (x := inject_Z z / inject_Z k) in *. clearbody x.
  py_cases; split; lra.
Qed.

Lemma flag_unit (b : bool) :
  0 <= (if b then 1.0 else 0.0) /\ (if b then 1.0 else 0.0) <= 1.
Proof. destruct b; split; lra. Qed.

(** X23.  In the flat model input of a feature set returned by
    [extract_all_features], whatever the client answered, each of the
    sixteen entries written from the lifestyle struct lies between 0 and
    1; the input has 61 entries under 61 distinct keys. *)
Theorem lifestyle_model_input_normalized rt keywords_client traditional_data
    professional_analysis lifestyle_analysis social_analysis f d :
  extract_all_features rt keywords_client traditional_data
    professional_analysis lifestyle_analysis social_analysis = Some f ->
  to_model_input f = Some d ->
  length d = 61%nat /\
  NoDup (map fst d) /\
  Forall (fun k => exists v, dict_lookup d k = Some v /\ 0 <= v /\ v <= 1)
         lifestyle_input_keys.
Proof.
  intros H Hd.
  destruct (extract_all_features_groups _ _ _ _ _ _ _ H) as (_ & _ & Hl & _).
  assert (Pl : lifestyle_in_range (lifestyle f)).
  { destruct Hl as [-> | [e He]];
      [exact default_lifestyle_ranges | exact (built_lifestyle_ranges _ _ He)]. }
  clear H Hl.
  unfold to_model_input in Hd. bind_cases Hd.
  apply (inj Some) in Hd. subst d.
  set (l := lifestyle f) in *. clearbody l.
  destruct Pl as (L1 & L2 & L3 & L4 & L5 & L6 & L7 & L8 & L9 & L10).
  split; [reflexivity |].
  split.
  { cbn [map fst]. apply (bool_decide_unpack _). vm_compute. exact I. }
  unfold lifestyle_input_keys.
  repeat (apply List.Forall_cons; [eexists; split; [reflexivity |] |]);
    [.. | apply List.Forall_nil].
  - apply (ratio_unit _ 5); lia.
  - exact L2.
  - apply flag_unit.
  - apply flag_unit.
  - apply (ratio_unit _ 3); lia.
  - apply (ratio_unit _ 3); lia.
  - apply flag_unit.
  - exact L5.
  - apply (ratio_unit _ 3); lia.
  - apply flag_unit.
  - apply flag_unit.
  - apply flag_unit.
  - apply (capped_count_unit _ 5); lia.
  - apply (capped_count_unit _ 5); lia.
  - exact L9.
  - exact L10.
Qed.

Lemma lifestyle_model_input_normalized_witness :
  exists f d,
    extract_all_features offline_runtime (Some (fun _ _ => ExtractDict ∅)) ∅
      None (Some "analysis"%string) None = Some f /\
    to_model_input f = Some d /\
    length d = 61%nat /\
    Forall (fun k => exists v, dict_lookup d k = Some v /\ 0 <= v /\ v <= 1)
           lifestyle_input_keys.
Proof.
  destruct (extract_all_features offline_runtime (Some (fun _ _ => ExtractDict ∅)) ∅
              None (Some "analysis"%string) None) as [f |] eqn:E;
    [| exfalso; vm_compute in E; discriminate E].
  destruct (to_model_input f) as [d |] eqn:Ed.
  - exists f, d. split; [reflexivity |]. split; [exact Ed |].
    destruct (lifestyle_model_input_normalized _ _ _ _ _ _ _ _ E Ed)
      as (Hlen & _ & Hall).
    split; [exact Hlen | exact Hall].
  - exfalso. vm_compute in E. apply (inj Some) in E. subst f.
    vm_compute in Ed. discriminate Ed.
Defined.

(** ** The narrative and the score *)

Lemma extract_traditional_features_client rt c data :
  extract_traditional_features (set_client rt c) data
  = extract_traditional_features rt data.
Proof. reflexivity. Qed.

Lemma threshold_factors_client rt c v1 v2 v3 v4 v5 n1 n2 n3 n4 n5 :
  threshold_factors (set_client rt c) v1 v2 v3 v4 v5 n1 n2 n3 n4 n5
  = threshold_factors rt v1 v2 v3 v4 v5 n1 n2 n3 n4 n5.
Proof. reflexivity. Qed.

(** X24.  The LLM client has no part in the score: when scoring with a
    client returns a report, scoring the same call with no client returns
    the same report but for the narrative, which is the fixed notice.  The
    client can only add the failure of its prompt. *)
Theorem narrative_does_not_affect_score rt c app pf lf sf r :
  score_application (set_client rt c) app pf lf sf = Some r ->
  score_application (set_client rt None) app pf lf sf
  = Some (with_ai_analysis r
            "AI analysis unavailable - Keywords AI client not configured.").
Proof.
  unfold score_application. intros H.
  rewrite !extract_traditional_features_client in *.
  do 6 (match type of H with
        | mbind _ ?m = Some _ =>
            destruct m; cbn [mbind option_bind] in H |- *; [| discriminate H]
        end).
  rewrite !threshold_factors_client in *.
  unfold _generate_ai_analysis in *.
  cbn [client set_client] in *.
  cbn [mbind option_bind].
  match type of H with
  | mbind _ ?m = Some _ => destruct m as [ai |]; [| discriminate H]
  end.
  cbn [mbind option_bind] in H.
  apply (inj Some) in H. subst r.
  unfold with_ai_analysis. report_fields. reflexivity.
Qed.

Lemma narrative_does_not_affect_score_witness :
  exists r,
    score_application
      (set_client offline_runtime (Some (fun _ _ _ _ _ => "narrative"%string)))
      robert_blake None None None = Some r /\
    score_application (set_client offline_runtime None) robert_blake
      None None None
    = Some (with_ai_analysis r
              "AI analysis unavailable - Keywords AI client not configured.").
Proof.
  destruct (score_application
              (set_client offline_runtime
                 (Some (fun _ _ _ _ _ => "narrative"%string)))
              robert_blake None None None) as [r |] eqn:E.
  - exists r. split; [reflexivity |].
    exact (narrative_does_not_affect_score _ _ _ _ _ _ _ E).
  - exfalso. vm_compute in E. discriminate E.
Defined.

Lemma modifier_terms_within_weights_witness :
  -10 <= dict_values_sum
           (_calculate_modifiers
              (mkCombinedFeatures
                 (TraditionalFeatures.mk 0 0 0 0 false false PNone 0 0 0
                    PNone PNone PNone true 0 0 0)
                 ProfessionalFeatures_default gambling_only
                 SocialConnectednessFeatures_default)) /\
  dict_values_sum
    (_calculate_modifiers
       (mkCombinedFeatures
          (TraditionalFeatures.mk 0 0 0 0 false false PNone 0 0 0
             PNone PNone PNone true 0 0 0)
          ProfessionalFeatures_default gambling_only
          SocialConnectednessFeatures_default)) <= 17.5.
Proof.
  destruct (modifier_terms_within_weights
              (mkCombinedFeatures
                 (TraditionalFeatures.mk 0 0 0 0 false false PNone 0 0 0
                    PNone PNone PNone true 0 0 0)
                 ProfessionalFeatures_default gambling_only
                 SocialConnectednessFeatures_default))
    as (_ & Hlo & Hhi & _).
  - unfold unit_scores. cbn. repeat split; lra.
  - split; [exact Hlo | exact Hhi].
Defined.
